(** * SEDUNet: the graph builder of [Codes/2DCNN/Models/SEDUNet.py]

    A shallow embedding of the builder.  The Python code drives the Keras
    functional API; the layers it calls are modelled here by their
    construction-time behaviour only (argument validation and static shape
    inference), and every layer call appends one node to an explicit graph.
    Python exceptions are results of the builder monad. *)

From Stdlib Require Import ZArith QArith List String Ascii Bool Lia.
From Stdlib Require Import DecimalString DecimalZ.
Import ListNotations.
Local Open Scope string_scope.
Local Open Scope list_scope.
Local Open Scope Z_scope.

(** ** Python numbers *)

(** A Python number is an [int] or a [float]; the only floats the builder
    produces are dyadic, so they are kept as exact rationals. *)
Inductive pynum : Type :=
| PyInt (z : Z)
| PyFloat (q : Q).

(** [2 ** e]: an int for [e >= 0], the float [2^e] otherwise. *)
Definition py_pow2 (e : Z) : pynum :=
  if 0 <=? e then PyInt (2 ^ e) else PyFloat (1 # Z.to_pos (2 ^ (- e))).

(** [a * m] for an int [a]. *)
Definition py_mul (a : Z) (m : pynum) : pynum :=
  match m with
  | PyInt z => PyInt (a * z)
  | PyFloat q => PyFloat (inject_Z a * q)
  end.

Definition py_is_zero (m : pynum) : bool :=
  match m with
  | PyInt z => z =? 0
  | PyFloat q => Qnum q =? 0
  end.

Definition py_to_Q (m : pynum) : Q :=
  match m with
  | PyInt z => inject_Z z
  | PyFloat q => q
  end.

(** [int(x)]: truncation toward zero. *)
Definition py_int (m : pynum) : Z :=
  match m with
  | PyInt z => z
  | PyFloat q => Z.quot (Qnum q) (Zpos (Qden q))
  end.

(** [np.int32(x)]: truncation, then the 32-bit two's complement wrap-around. *)
Definition wrap32 (z : Z) : Z := (z + 2 ^ 31) mod 2 ^ 32 - 2 ^ 31.
Definition np_int32 (m : pynum) : Z := wrap32 (py_int m).

(** [str(z)] for an int, as used by ["conv%s" % i] and the f-string of the
    level names. *)
Definition py_str (z : Z) : string := NilZero.string_of_int (Z.to_int z).

(** [range(a, b)]. *)
Definition py_range (a b : Z) : list Z :=
  map (fun k => a + Z.of_nat k) (seq 0 (Z.to_nat (b - a))).

(** ** Exceptions, graph and builder monad *)

Inductive exn : Type :=
| ValueError (msg : string)
| ZeroDivisionError
| IndexError.

Inductive activation : Type := relu | sigmoid | softmax | linear.
Inductive padding : Type := valid | same.

(** The layer objects the builder creates, with the arguments it passes. *)
Inductive layer : Type :=
| InputLayer
| Conv2D (filters : Z) (kernel_size strides : Z * Z) (pad : padding)
         (act : option activation) (name : option string)
| Conv2DTranspose (filters : Z) (kernel_size strides : Z * Z) (pad : padding)
| BatchNormalization
| Activation (a : activation)
| MaxPooling2D (pool_size : Z * Z)
| UpSampling2D (size : Z * Z)
| Concatenate
| Add
| Multiply
| TFOpMultiply
| Flatten
| Dense (units : Z) (act : option activation) (name : option string)
| Reshape (target_shape : list Z)
| GlobalAveragePooling2D
| ConvLSTM2D (filters : Z) (kernel_size : Z * Z) (pad : padding)
             (return_sequences go_backwards : bool).

(** A symbolic tensor: its static shape without the batch axis (Python's
    [shape[i]] is [nth (i - 1)] here), the layer that produced it and the
    index of its node in the graph. *)
Record KerasTensor : Type := mkTensor {
  shape : list Z;
  producer : layer;
  node_id : nat
}.

Record node : Type := mkNode {
  n_layer : layer;
  n_inputs : list nat;
  n_shape : list Z
}.

Definition graph : Type := list node.

(** A computation either returns a value or raises; both outcomes carry the
    graph as it is at that point. *)
Inductive result (A : Type) : Type :=
| Ok (a : A) (g : graph)
| Raise (e : exn) (g : graph).
Arguments Ok {A} a g.
Arguments Raise {A} e g.

Definition M (A : Type) : Type := graph -> result A.

Definition ret {A} (a : A) : M A := fun g => Ok a g.
Definition raise {A} (e : exn) : M A := fun g => Raise e g.
Definition bind {A B} (m : M A) (k : A -> M B) : M B :=
  fun g => match m g with
           | Ok a g' => k a g'
           | Raise e g' => Raise e g'
           end.

Declare Scope builder_scope.
Delimit Scope builder_scope with builder.
Notation "x <- m ;; k" := (bind m (fun x => k))
  (at level 100, m at next level, right associativity) : builder_scope.
Notation "' p <- m ;; k" := (bind m (fun x => let p := x in k))
  (at level 100, p pattern, m at next level, right associativity) : builder_scope.
Local Open Scope builder_scope.

(** A [for] loop over a Python sequence, threading the loop-carried
    variables. *)
Fixpoint for_each {X S : Type} (xs : list X) (body : X -> S -> M S) (s : S) : M S :=
  match xs with
  | [] => ret s
  | x :: rest => s' <- body x s ;; for_each rest body s'
  end.

(** Calling a layer on tensors adds one node and returns its output. *)
Definition new_node (l : layer) (ins : list KerasTensor) (out : list Z) : M KerasTensor :=
  fun g => Ok (mkTensor out l (List.length g))
              (g ++ [mkNode l (map node_id ins) out]).

(** ** The layers of the external engine: validation and shape inference *)

(** The engine ([tf.keras]) is not part of the repository.  Its constructors
    are modelled by the contract the specification gives for them (typed
    layer constructors with static shapes, section 6, and the shape laws of
    section 4.1), with the argument checks and the output-length formulas
    of the Keras layers filled in. *)

Definition prod_dims (s : list Z) : Z := fold_right Z.mul 1 s.

Definition pair_pos (p : Z * Z) : bool := (0 <? fst p) && (0 <? snd p).

(** Modelled from the spec: the output length of the engine's convolution
    and pooling windows (Keras [conv_output_length]); ['same'] padding at
    stride 1 keeps the spatial size. *)
Definition conv_output_length (input_length filter_size : Z) (p : padding) (stride : Z) : Z :=
  let output_length :=
    match p with
    | same => input_length
    | valid => input_length - filter_size + 1
    end in
  (output_length + stride - 1) / stride.

(** Modelled from the spec: the output length of the engine's transposed
    convolution; kernel 2 at stride 2 doubles the spatial size. *)
Definition deconv_output_length (input_length filter_size : Z) (p : padding) (stride : Z) : Z :=
  match p with
  | same => input_length * stride
  | valid => input_length * stride + Z.max (filter_size - stride) 0
  end.

(** Modelled from the spec: [tf.keras.Input], the input tensor handle of
    the given static shape. *)
Definition keras_Input (shp : list Z) : M KerasTensor :=
  if forallb (fun d => 0 <=? d) shp then new_node InputLayer [] shp
  else raise (ValueError "keras: negative dimension").

(** Modelled from the spec: whether a convolution window fits.  With
    ['valid'] padding the engine rejects an input smaller than the window
    (the output length would not be positive); with ['same'] padding every
    input is accepted, an empty one too, and the output has its size. *)
Definition window_fits (p : padding) (h' w' : Z) : bool :=
  match p with
  | same => true
  | valid => (0 <? h') && (0 <? w')
  end.

(** Modelled from the spec: [tf.keras.layers.Conv2D] called on a rank-4
    tensor; a float [filters] is converted with [int], and filters, kernel
    and strides must be positive. *)
Definition keras_Conv2D (filters : pynum) (kernel_size strides : Z * Z) (p : padding)
    (act : option activation) (name : option string) (x : KerasTensor) : M KerasTensor :=
  let f := py_int filters in
  if negb ((0 <? f) && pair_pos kernel_size && pair_pos strides)
  then raise (ValueError "keras: invalid Conv2D argument")
  else match shape x with
       | [h; w; _] =>
           let h' := conv_output_length h (fst kernel_size) p (fst strides) in
           let w' := conv_output_length w (snd kernel_size) p (snd strides) in
           if window_fits p h' w'
           then new_node (Conv2D f kernel_size strides p act name) [x] [h'; w'; f]
           else raise (ValueError "keras: input smaller than the convolution window")
       | _ => raise (ValueError "keras: Conv2D expects ndim=4")
       end.

(** Modelled from the spec: [tf.keras.layers.Conv2DTranspose], the learned
    upsampling. *)
Definition keras_Conv2DTranspose (filters : pynum) (kernel_size strides : Z * Z) (p : padding)
    (x : KerasTensor) : M KerasTensor :=
  let f := py_int filters in
  if negb ((0 <? f) && pair_pos kernel_size && pair_pos strides)
  then raise (ValueError "keras: invalid Conv2DTranspose argument")
  else match shape x with
       | [h; w; _] =>
           new_node (Conv2DTranspose f kernel_size strides p) [x]
             [deconv_output_length h (fst kernel_size) p (fst strides);
              deconv_output_length w (snd kernel_size) p (snd strides); f]
       | _ => raise (ValueError "keras: Conv2DTranspose expects ndim=4")
       end.

(** Modelled from the spec: [tf.keras.layers.BatchNormalization] and
    [tf.keras.layers.Activation] keep the shape. *)
Definition keras_BatchNormalization (x : KerasTensor) : M KerasTensor :=
  new_node BatchNormalization [x] (shape x).

Definition keras_Activation (a : activation) (x : KerasTensor) : M KerasTensor :=
  new_node (Activation a) [x] (shape x).

(** Modelled from the spec: [tf.keras.layers.MaxPooling2D], the non-learned
    downsampling.  Pooling uses [strides = pool_size] and [padding='valid'];
    a window larger than the input is a negative-dimension error. *)
Definition keras_MaxPooling2D (pool_size : Z * Z) (x : KerasTensor) : M KerasTensor :=
  if negb (pair_pos pool_size) then raise (ValueError "keras: invalid pool_size")
  else match shape x with
       | [h; w; c] =>
           if (h <? fst pool_size) || (w <? snd pool_size)
           then raise (ValueError "keras: negative dimension size")
           else new_node (MaxPooling2D pool_size) [x]
                  [conv_output_length h (fst pool_size) valid (fst pool_size);
                   conv_output_length w (snd pool_size) valid (snd pool_size); c]
       | _ => raise (ValueError "keras: MaxPooling2D expects ndim=4")
       end.

(** Modelled from the spec: [tf.keras.layers.UpSampling2D], the non-learned
    upsampling by repetition. *)
Definition keras_UpSampling2D (size : Z * Z) (x : KerasTensor) : M KerasTensor :=
  match shape x with
  | [h; w; c] => new_node (UpSampling2D size) [x] [fst size * h; snd size * w; c]
  | _ => raise (ValueError "keras: UpSampling2D expects ndim=4")
  end.

Fixpoint list_eqb (a b : list Z) : bool :=
  match a, b with
  | [], [] => true
  | x :: a', y :: b' => (x =? y) && list_eqb a' b'
  | _, _ => false
  end.

(** Modelled from the spec: [tf.keras.layers.concatenate([a, b], axis=-1)];
    all axes but the last must agree, otherwise it is a shape-mismatch
    error. *)
Definition keras_concatenate (a b : KerasTensor) : M KerasTensor :=
  match shape a, shape b with
  | [], _ | _, [] => raise (ValueError "keras: concatenate needs a channel axis")
  | _ :: _, _ :: _ =>
      if list_eqb (removelast (shape a)) (removelast (shape b))
      then new_node Concatenate [a; b]
             (removelast (shape a) ++ [last (shape a) 0 + last (shape b) 0])
      else raise (ValueError "keras: Concatenate requires matching shapes except for the concat axis")
  end.

(** Modelled from the spec: the output shape of the engine's element-wise
    add and multiply, which broadcast axes of size one after aligning the
    shorter shape on the right. *)
Fixpoint zip_broadcast (s1 s2 : list Z) : option (list Z) :=
  match s1, s2 with
  | [], [] => Some []
  | i :: r1, j :: r2 =>
      match zip_broadcast r1 r2 with
      | Some r =>
          if i =? 1 then Some (j :: r)
          else if j =? 1 then Some (i :: r)
          else if i =? j then Some (i :: r)
          else None
      | None => None
      end
  | _, _ => None
  end.

Definition elemwise_op_output_shape (shape1 shape2 : list Z) : option (list Z) :=
  let '(s1, s2) :=
    if (List.length shape1 <? List.length shape2)%nat
    then (shape2, shape1) else (shape1, shape2) in
  let n := (List.length s1 - List.length s2)%nat in
  option_map (app (firstn n s1)) (zip_broadcast (skipn n s1) s2).

(** Modelled from the spec: [tf.keras.layers.add], [tf.keras.layers.Multiply]
    and the [*] operator on two symbolic tensors. *)
Definition keras_merge (l : layer) (a b : KerasTensor) : M KerasTensor :=
  match elemwise_op_output_shape (shape a) (shape b) with
  | Some s => new_node l [a; b] s
  | None => raise (ValueError "keras: inputs have incompatible shapes")
  end.

Definition keras_add := keras_merge Add.
Definition keras_Multiply := keras_merge Multiply.
Definition tensor_mul := keras_merge TFOpMultiply.

(** Modelled from the spec: [tf.keras.layers.Flatten]. *)
Definition keras_Flatten (x : KerasTensor) : M KerasTensor :=
  new_node Flatten [x] [prod_dims (shape x)].

(** Modelled from the spec: [tf.keras.layers.Dense], the projection of the
    last axis to [units]; only a negative [units] is rejected. *)
Definition keras_Dense (units : Z) (act : option activation) (name : option string)
    (x : KerasTensor) : M KerasTensor :=
  if units <? 0 then raise (ValueError "keras: invalid value for units")
  else match shape x with
       | [] => raise (ValueError "keras: Dense expects min_ndim=2")
       | _ :: _ => new_node (Dense units act name) [x] (removelast (shape x) ++ [units])
       end.

(** Modelled from the spec: [tf.keras.layers.Reshape]; the number of
    elements must be unchanged.  Only fully specified target shapes are
    modelled. *)
Definition keras_Reshape (target_shape : list Z) (x : KerasTensor) : M KerasTensor :=
  if forallb (fun d => 0 <=? d) target_shape
     && (prod_dims target_shape =? prod_dims (shape x))
  then new_node (Reshape target_shape) [x] target_shape
  else raise (ValueError "keras: total size of new array must be unchanged").

(** Modelled from the spec: [tf.keras.layers.GlobalAveragePooling2D], one
    descriptor per channel of a rank-4 tensor. *)
Definition keras_GlobalAveragePooling2D (x : KerasTensor) : M KerasTensor :=
  match shape x with
  | [_; _; c] => new_node GlobalAveragePooling2D [x] [c]
  | _ => raise (ValueError "keras: GlobalAveragePooling2D expects ndim=4")
  end.

(** Modelled from the spec: [tf.keras.layers.ConvLSTM2D], the recurrent
    2D convolutional cell, called on a sequence of rank-4 tensors. *)
Definition keras_ConvLSTM2D (filters : Z) (kernel_size : Z * Z) (p : padding)
    (return_sequences go_backwards : bool) (x : KerasTensor) : M KerasTensor :=
  if negb ((0 <? filters) && pair_pos kernel_size)
  then raise (ValueError "keras: invalid ConvLSTM2D argument")
  else match shape x with
       | [t; h; w; _] =>
           let h' := conv_output_length h (fst kernel_size) p 1 in
           let w' := conv_output_length w (snd kernel_size) p 1 in
           if window_fits p h' w'
           then new_node (ConvLSTM2D filters kernel_size p return_sequences go_backwards) [x]
                  (if return_sequences then [t; h'; w'; filters] else [h'; w'; filters])
           else raise (ValueError "keras: input smaller than the convolution window")
       | _ => raise (ValueError "keras: ConvLSTM2D expects ndim=5")
       end.

(** ** Python containers *)

(** [l[i]] on a list or tuple, with Python's negative indices. *)
Definition py_getitem {A : Type} (l : list A) (i : Z) : M A :=
  let n := Z.of_nat (List.length l) in
  let k := if i <? 0 then i + n else i in
  if (k <? 0) || (n <=? k) then raise IndexError
  else match nth_error l (Z.to_nat k) with
       | Some a => ret a
       | None => raise IndexError
       end.

(** [x.shape[i]] for an axis [i >= 1] (axis 0 is the batch axis). *)
Definition shape_getitem (x : KerasTensor) (i : Z) : M Z :=
  match nth_error (shape x) (Z.to_nat (i - 1)) with
  | Some d => ret d
  | None => raise IndexError
  end.

(** A [dict] with string keys keeps insertion order: assigning to a present
    key replaces its value in place, a new key goes last. *)
Definition dict (V : Type) : Type := list (string * V).

Fixpoint dict_set {V : Type} (d : dict V) (k : string) (v : V) : dict V :=
  match d with
  | [] => [(k, v)]
  | (k', v') :: rest =>
      if String.eqb k' k then (k', v) :: rest else (k', v') :: dict_set rest k v
  end.

Definition dict_values {V : Type} (d : dict V) : list V := map snd d.

(** [a / m] (true division) of an int by a number. *)
Definition py_truediv (a : Z) (m : pynum) : M pynum :=
  if py_is_zero m then raise ZeroDivisionError
  else ret (PyFloat (inject_Z a / py_to_Q m)).

(** [a // b] on ints. *)
Definition py_floordiv (a b : Z) : M Z :=
  if b =? 0 then raise ZeroDivisionError else ret (a / b).

(** ** The primitive blocks *)

Definition Conv_Block (inputs : KerasTensor) (model_width kernel : Z) (multiplier : pynum)
  : M KerasTensor :=
  x <- keras_Conv2D (py_mul model_width multiplier) (kernel, kernel) (1, 1) same None None inputs ;;
  x <- keras_BatchNormalization x ;;
  x <- keras_Activation relu x ;;
  ret x.

Definition trans_conv2D (inputs : KerasTensor) (model_width : Z) (multiplier : pynum)
  : M KerasTensor :=
  x <- keras_Conv2DTranspose (py_mul model_width multiplier) (2, 2) (2, 2) same inputs ;;
  x <- keras_BatchNormalization x ;;
  x <- keras_Activation relu x ;;
  ret x.

Definition Concat_Block (input1 : KerasTensor) (argv : list KerasTensor) : M KerasTensor :=
  let cat := input1 in
  for_each (py_range 0 (Z.of_nat (List.length argv)))
    (fun arg cat => a <- py_getitem argv arg ;; keras_concatenate cat a)
    cat.

Definition upConv_Block (inputs : KerasTensor) : M KerasTensor :=
  keras_UpSampling2D (2, 2) inputs.

Definition Feature_Extraction_Block (inputs : KerasTensor) (model_width feature_number : Z)
  : M KerasTensor :=
  latent <- keras_Flatten inputs ;;
  latent <- keras_Dense feature_number None (Some "features") latent ;;
  shape1 <- shape_getitem inputs 1 ;;
  shape2 <- shape_getitem inputs 2 ;;
  latent <- keras_Dense (model_width * shape1 * shape2) None None latent ;;
  latent <- keras_Reshape [shape1; shape2; model_width] latent ;;
  ret latent.

Definition dense_block (x : KerasTensor) (num_filters kernel_size : Z) (multiplier : pynum)
    (num_layers : Z) : M KerasTensor :=
  for_each (py_range 0 num_layers)
    (fun _ x =>
       cb <- Conv_Block x num_filters kernel_size multiplier ;;
       cb <- Conv_Block cb num_filters kernel_size multiplier ;;
       keras_concatenate x cb)
    x.

(** [int_shape(x)[-1]] is the last axis of [x]; on a tensor without any
    axis besides the batch it would be [None], which never reaches the
    division below because the pooling layer rejects such a tensor first
    (the default 0 stands for it). *)
Definition SqueezeExcite (x : KerasTensor) (ratio : Z) : M KerasTensor :=
  let nb_chan := last (shape x) 0 in
  y <- keras_GlobalAveragePooling2D x ;;
  units <- py_floordiv nb_chan ratio ;;
  y <- keras_Dense units (Some relu) None y ;;
  y <- keras_Dense nb_chan (Some sigmoid) None y ;;
  y <- keras_Multiply x y ;;
  ret y.

Definition Attention_Block (skip_connection gating_signal : KerasTensor) (num_filters : Z)
    (multiplier : pynum) : M KerasTensor :=
  conv1x1_1 <- keras_Conv2D (py_mul num_filters multiplier) (1, 1) (2, 2) valid None None
                 skip_connection ;;
  conv1x1_1 <- keras_BatchNormalization conv1x1_1 ;;
  conv1x1_2 <- keras_Conv2D (py_mul num_filters multiplier) (1, 1) (1, 1) valid None None
                 gating_signal ;;
  conv1x1_2 <- keras_BatchNormalization conv1x1_2 ;;
  conv1_2 <- keras_add conv1x1_1 conv1x1_2 ;;
  conv1_2 <- keras_Activation relu conv1_2 ;;
  conv1_2 <- keras_Conv2D (PyInt 1) (1, 1) (1, 1) valid None None conv1_2 ;;
  conv1_2 <- keras_BatchNormalization conv1_2 ;;
  conv1_2 <- keras_Activation sigmoid conv1_2 ;;
  resampler1 <- upConv_Block conv1_2 ;;
  resampler2 <- trans_conv2D conv1_2 1 (PyInt 1) ;;
  resampler <- keras_add resampler1 resampler2 ;;
  out <- tensor_mul skip_connection resampler ;;
  ret out.

(** ** The builder object *)

Module Self.
Record t : Type := init {
  length : Z;
  width : Z;
  model_depth : Z;
  model_width : Z;
  kernel_size : Z;
  num_channel : Z;
  problem_type : string;
  output_nums : Z;
  D_S : Z;
  A_E : Z;
  A_G : Z;
  LSTM : Z;
  dense_loop : Z;
  se_ratio : Z;
  feature_number : Z;
  is_transconv : bool
}.
End Self.

(** The outputs handed to the model constructor: a tensor or a (possibly
    nested, possibly empty) list. *)
#[warnings="-register-all"]
Inductive nest : Type :=
| NTensor (t : KerasTensor)
| NList (l : list nest).

Fixpoint flatten (n : nest) : list KerasTensor :=
  match n with
  | NTensor t => [t]
  | NList l => flat_map flatten l
  end.

Record Model : Type := mkModel {
  inputs : list KerasTensor;
  outputs : list KerasTensor
}.

Definition guard_message : string := "Please Check the Values of the Input Parameters!".

Section Builder.

(** Whether the engine's model constructor accepts a structure of outputs
    that holds no tensor at all is a property of the engine, not of the
    builder; it is left open. *)
Variable empty_outputs_ok : bool.

(** Modelled from the spec: [tf.keras.Model(inputs=..., outputs=...)], which
    binds the input to the outputs; the model exposes the flattened
    outputs and adds no layer to the graph. *)
Definition keras_Model (ins : list KerasTensor) (outs : nest) : M Model :=
  match flatten outs with
  | [] => if empty_outputs_ok then ret (mkModel ins [])
          else raise (ValueError "keras: outputs cannot be empty")
  | os => ret (mkModel ins os)
  end.

(** Body of the encoder loop; the loop-carried variables are [pool] and
    the dictionary [convs]. *)
Definition encoder_step (self : Self.t) (i : Z) (st : KerasTensor * dict KerasTensor)
  : M (KerasTensor * dict KerasTensor) :=
  let '(pool, convs) := st in
  conv <- Conv_Block pool (Self.model_width self) (Self.kernel_size self) (py_pow2 (i - 1)) ;;
  conv <- Conv_Block conv (Self.model_width self) (Self.kernel_size self) (py_pow2 (i - 1)) ;;
  pool <- keras_MaxPooling2D (2, 2) conv ;;
  ret (pool, dict_set convs ("conv" ++ py_str i)%string conv).

(** The merge of the decoder tensor with the skip connection. *)
Definition merge_step (self : Self.t) (j : Z) (skip_connection deconv : KerasTensor)
  : M KerasTensor :=
  let e := Self.model_depth self - j - 1 in
  if Self.LSTM self =? 1 then
    l1 <- py_truediv (Self.length self) (py_pow2 e) ;;
    w1 <- py_truediv (Self.width self) (py_pow2 e) ;;
    x1 <- keras_Reshape [1; np_int32 l1; np_int32 w1;
                         np_int32 (py_mul (Self.model_width self) (py_pow2 e))]
            skip_connection ;;
    l2 <- py_truediv (Self.length self) (py_pow2 e) ;;
    w2 <- py_truediv (Self.width self) (py_pow2 e) ;;
    x2 <- keras_Reshape [1; np_int32 l2; np_int32 w2;
                         np_int32 (py_mul (Self.model_width self) (py_pow2 e))]
            deconv ;;
    merge <- keras_concatenate x1 x2 ;;
    keras_ConvLSTM2D
      (np_int32 (py_mul (Self.model_width self) (py_pow2 (Self.model_depth self - j - 2))))
      (3, 3) same false true merge
  else if Self.LSTM self =? 0 then
    Concat_Block deconv [skip_connection]
  else ret deconv.

(** Body of the decoder loop; the loop-carried variables are [deconv] and
    the list [levels]. *)
Definition decoder_step (self : Self.t) (convs_list : list KerasTensor) (j : Z)
    (st : KerasTensor * list nest) : M (KerasTensor * list nest) :=
  let '(deconv, levels) := st in
  let e := Self.model_depth self - j - 1 in
  skip_connection <- py_getitem convs_list e ;;
  skip_connection <-
    (if Self.A_G self =? 1 then
       skip <- py_getitem convs_list e ;;
       Attention_Block skip deconv (Self.model_width self) (py_pow2 e)
     else ret skip_connection) ;;
  levels <-
    (if Self.D_S self =? 1 then
       level <- keras_Conv2D (PyInt 1) (1, 1) (1, 1) valid None
                  (Some ("level" ++ py_str (Self.model_depth self - j))%string) deconv ;;
       ret (levels ++ [NTensor level])
     else ret levels) ;;
  deconv <-
    (if Self.is_transconv self then
       deconv <- trans_conv2D deconv (Self.model_width self) (py_pow2 e) ;;
       SqueezeExcite deconv (Self.se_ratio self)
     else
       deconv <- upConv_Block deconv ;;
       SqueezeExcite deconv (Self.se_ratio self)) ;;
  deconv <- merge_step self j skip_connection deconv ;;
  deconv <- Conv_Block deconv (Self.model_width self) (Self.kernel_size self) (py_pow2 e) ;;
  deconv <- SqueezeExcite deconv (Self.se_ratio self) ;;
  deconv <- Conv_Block deconv (Self.model_width self) (Self.kernel_size self) (py_pow2 e) ;;
  ret (deconv, levels).

(** The output stage: [outputs] stays the empty list when the problem type
    is neither of the two known ones. *)
Definition output_stage (self : Self.t) (deconv : KerasTensor) : M nest :=
  let outputs := NList [] in
  if String.eqb (Self.problem_type self) "Classification" then
    out <- keras_Conv2D (PyInt (Self.output_nums self)) (1, 1) (1, 1) valid
             (Some softmax) (Some "out") deconv ;;
    ret (NTensor out)
  else if String.eqb (Self.problem_type self) "Regression" then
    out <- keras_Conv2D (PyInt (Self.output_nums self)) (1, 1) (1, 1) valid
             (Some linear) (Some "out") deconv ;;
    ret (NTensor out)
  else ret outputs.

(** The input layer, the encoder, the bottleneck and the decoder: the part
    of the method between the guard and the output stage.  It yields the
    input tensor, the last decoder tensor and the list [levels]. *)
Definition encode_decode (self : Self.t) : M (KerasTensor * KerasTensor * list nest) :=
  let convs : dict KerasTensor := [] in
  let levels : list nest := [] in
  (* Encoder *)
  inputs <- keras_Input [Self.length self; Self.width self; Self.num_channel self] ;;
  let pool := inputs in
  '(pool, convs) <- for_each (py_range 1 (Self.model_depth self + 1))
                      (encoder_step self) (pool, convs) ;;
  conv <- dense_block pool (Self.model_width self) (Self.kernel_size self)
            (py_pow2 (Self.model_depth self)) (Self.dense_loop self - 1) ;;
  conv <- (if Self.A_E self =? 1
           then Feature_Extraction_Block conv (Self.model_width self)
                  (Self.feature_number self)
           else ret conv) ;;
  conv <- Conv_Block conv (Self.model_width self) (Self.kernel_size self)
            (py_pow2 (Self.model_depth self)) ;;
  conv <- Conv_Block conv (Self.model_width self) (Self.kernel_size self)
            (py_pow2 (Self.model_depth self)) ;;
  (* Decoder *)
  let deconv := conv in
  let convs_list := dict_values convs in
  '(deconv, levels) <- for_each (py_range 0 (Self.model_depth self))
                         (decoder_step self convs_list) (deconv, levels) ;;
  ret (inputs, deconv, levels).

(** The condition of the guard at the top of the method. *)
Definition guard (self : Self.t) : bool :=
  (Self.length self =? 0) || (Self.model_depth self =? 0) || (Self.model_width self =? 0)
  || (Self.num_channel self =? 0) || (Self.kernel_size self =? 0).

(** The method [SEDUNet.SEDUNet]. *)
Definition SEDUNet (self : Self.t) : M Model :=
  if guard self then raise (ValueError guard_message)
  else
    '(inputs, deconv, levels) <- encode_decode self ;;
    (* Output *)
    outputs <- output_stage self deconv ;;
    model <- keras_Model [inputs] (NList [outputs]) ;;
    if Self.D_S self =? 1 then
      let levels := rev (levels ++ [outputs]) in
      keras_Model [inputs] (NList levels)
    else ret model.

End Builder.

(** ** Observations on graphs, tensors and results *)

Definition tensor_name (t : KerasTensor) : option string :=
  match producer t with
  | Conv2D _ _ _ _ _ name => name
  | Dense _ _ name => name
  | _ => None
  end.

Definition is_pooling (l : layer) : bool :=
  match l with MaxPooling2D _ => true | _ => false end.

Definition is_upsampling (l : layer) : bool :=
  match l with UpSampling2D _ | Conv2DTranspose _ _ _ _ => true | _ => false end.

Definition count_layers (p : layer -> bool) (g : graph) : nat :=
  List.length (filter (fun n => p (n_layer n)) g).

Definition result_outputs (r : result Model) : option (list KerasTensor) :=
  match r with
  | Ok m _ => Some (outputs m)
  | Raise _ _ => None
  end.

(** [returns m g P]: run from graph [g], the computation [m] returns a value
    and a graph that satisfy [P]. *)
Definition returns {A : Type} (m : M A) (g : graph) (P : A -> graph -> Prop) : Prop :=
  exists a g', m g = Ok a g' /\ P a g'.

(** The usual postcondition of a block: the shape of the tensor it returns
    and how many pooling and upsampling layers it added. *)
Definition post (g : graph) (s : list Z) (dp du : nat) (t : KerasTensor) (g' : graph) : Prop :=
  shape t = s /\
  count_layers is_pooling g' = (count_layers is_pooling g + dp)%nat /\
  count_layers is_upsampling g' = (count_layers is_upsampling g + du)%nat.

(** ** Configurations *)

Definition known_problem_type (self : Self.t) : bool :=
  String.eqb (Self.problem_type self) "Classification"
  || String.eqb (Self.problem_type self) "Regression".

(** The constraints the specification puts on the dimensions and factors
    of a configuration.  Divisibility of the channel counts by [se_ratio]
    is not among them: the scenario of the specification itself has
    [model_width = 8] with the default [se_ratio = 16].  Nor is a bound on
    [dense_loop]: a count below one runs the dense block zero times. *)
Definition valid_dims (self : Self.t) : bool :=
  (1 <=? Self.model_depth self) && (1 <=? Self.model_width self)
  && (1 <=? Self.kernel_size self) && (1 <=? Self.num_channel self)
  && (1 <=? Self.output_nums self)
  && (1 <=? Self.length self) && (1 <=? Self.width self)
  && (Self.length self mod 2 ^ Self.model_depth self =? 0)
  && (Self.width self mod 2 ^ Self.model_depth self =? 0)
  && (1 <=? Self.se_ratio self)
  && (negb (Self.A_E self =? 1) || (1 <=? Self.feature_number self)).

(** A valid configuration also names one of the two problem types. *)
Definition valid_config (self : Self.t) : bool :=
  valid_dims self && known_problem_type self.

(** What the recurrent merge needs on top of that: the transposed
    convolution (so that both reshapes keep the number of elements), at
    least one filter at level 1, and sizes that fit [np.int32]. *)
Definition lstm_ready (self : Self.t) : bool :=
  negb (Self.LSTM self =? 1)
  || (Self.is_transconv self && (2 <=? Self.model_width self)
      && (Self.length self <? 2 ^ 31) && (Self.width self <? 2 ^ 31)
      && (Self.model_width self * 2 ^ Self.model_depth self <? 2 ^ 31)).

(** The scenario of the specification: 16x16 input, depth 2, width 8. *)
Definition scenario (ds : Z) : Self.t :=
  Self.init 16 16 2 8 3 1 "Regression" 1 ds 0 0 0 1 16 1024 true.

(** ** Shapes along the network *)

(** The dictionary key of encoder level [n] and the layer name of the
    auxiliary output of decoder level [k]. *)
Definition conv_key (n : nat) : string := ("conv" ++ py_str (Z.of_nat n))%string.
Definition level_name (k : Z) : string := ("level" ++ py_str k)%string.

(** Shape of the [k]-th entry (from 0) of [convs_list]: the tensor of
    encoder level [k + 1] before pooling. *)
Definition skip_shape (self : Self.t) (k : nat) : list Z :=
  [Self.length self / 2 ^ Z.of_nat k; Self.width self / 2 ^ Z.of_nat k;
   Self.model_width self * 2 ^ Z.of_nat k].

(** Shape of the decoder tensor when [k] levels are still to be decoded. *)
Definition decoder_shape (self : Self.t) (k : Z) : list Z :=
  [Self.length self / 2 ^ k; Self.width self / 2 ^ k; Self.model_width self * 2 ^ k].

(** Shape of the auxiliary output of decoder level [k]. *)
Definition level_shape (self : Self.t) (k : Z) : list Z :=
  [Self.length self / 2 ^ k; Self.width self / 2 ^ k; 1].

(** The dictionary [convs] after [n] encoder levels. *)
Definition skips_ok (self : Self.t) (n : nat) (convs : dict KerasTensor) : Prop :=
  map fst convs = map conv_key (seq 1 n) /\
  map (fun kv => shape (snd kv)) convs = map (skip_shape self) (seq 0 n).

(** Name and shape of an output tensor. *)
Definition describe (t : KerasTensor) : option string * list Z := (tensor_name t, shape t).

(** The auxiliary outputs emitted by decoder iterations [a, a + n). *)
Definition levels_emitted (self : Self.t) (a n : nat) : list (option string * list Z) :=
  if Self.D_S self =? 1
  then map (fun j => (Some (level_name (Self.model_depth self - Z.of_nat j)),
                      level_shape self (Self.model_depth self - Z.of_nat j)))
           (seq a n)
  else [].

(** Upsampling layers added by one decoder level: one on the decoder tensor
    and, with the attention gate, two more that resample the mask. *)
Definition ups_per_level (self : Self.t) : nat :=
  if Self.A_G self =? 1 then 3%nat else 1%nat.

(** Names and shapes of the outputs of the model that the builder returns:
    the final projection (when the problem type is known), then, with deep
    supervision, the auxiliary outputs of levels 1, 2, ..., [model_depth]. *)
Definition expected_outputs (self : Self.t) : list (option string * list Z) :=
  (if known_problem_type self
   then [(Some "out", [Self.length self; Self.width self; Self.output_nums self])]
   else [])
  ++ (if Self.D_S self =? 1
      then map (fun k => (Some (level_name (Z.of_nat k)), level_shape self (Z.of_nat k)))
               (seq 1 (Z.to_nat (Self.model_depth self)))
      else []).

(** ** Orderings of an output collection by resolution *)

Definition height (t : KerasTensor) : Z := nth 0 (shape t) 0.

Definition spatial (t : KerasTensor) : list Z := firstn 2 (shape t).

(** Heights strictly decreasing: the finest resolution comes first. *)
Fixpoint finest_first (hs : list Z) : bool :=
  match hs with
  | [] => true
  | h :: rest =>
      match rest with
      | [] => true
      | h' :: _ => (h' <? h) && finest_first rest
      end
  end.

(** Heights never decreasing: the coarsest resolution comes first. *)
Fixpoint coarsest_first (hs : list Z) : bool :=
  match hs with
  | [] => true
  | h :: rest =>
      match rest with
      | [] => true
      | h' :: _ => (h <=? h') && coarsest_first rest
      end
  end.

(** ** Concrete inputs *)

(** A 4x4 tensor with [c] channels, the only node of its graph. *)
Definition sample_tensor (c : Z) : KerasTensor := mkTensor [4; 4; c] InputLayer 0.
Definition sample_graph (c : Z) : graph := [mkNode InputLayer [] [4; 4; c]].

(** The scenario with one field changed. *)
Definition scenario_width0 : Self.t :=
  Self.init 16 0 2 8 3 1 "Regression" 1 0 0 0 0 1 16 1024 true.
Definition scenario_depth0 : Self.t :=
  Self.init 16 16 0 8 3 1 "Regression" 1 0 0 0 0 1 16 1024 true.
Definition scenario_kernel0 : Self.t :=
  Self.init 16 16 2 8 0 1 "Regression" 1 0 0 0 0 1 16 1024 true.
Definition scenario_lstm : Self.t :=
  Self.init 16 16 2 8 3 1 "Regression" 1 0 0 0 1 1 16 1024 true.
Definition scenario_other (ds : Z) : Self.t :=
  Self.init 16 16 2 8 3 1 "Segmentation" 1 ds 0 0 0 1 16 1024 true.


(** Two level-2 tensors of the scenario, as the decoder and the encoder
    hand them to the merge: 8x8 with 16 channels. *)
Definition merge_graph : graph :=
  [mkNode (Activation relu) [] [8; 8; 16]; mkNode Multiply [] [8; 8; 16]].
Definition merge_skip : KerasTensor := mkTensor [8; 8; 16] (Activation relu) 0.
Definition merge_deconv : KerasTensor := mkTensor [8; 8; 16] Multiply 1.

(** The concatenations and recurrent cells of a graph, with their output
    shapes. *)
Definition is_merge_layer (l : layer) : bool :=
  match l with
  | Concatenate | ConvLSTM2D _ _ _ _ _ => true
  | _ => false
  end.

Definition merge_trace (r : result Model) : list (layer * list Z) :=
  match r with
  | Ok _ g | Raise _ g =>
      map (fun n => (n_layer n, n_shape n)) (filter (fun n => is_merge_layer (n_layer n)) g)
  end.

Definition scenario_lstm_upsampling : Self.t :=
  Self.init 16 16 2 8 3 1 "Regression" 1 0 0 0 1 1 16 1024 false.

(** ** The constructor and the script *)

(** [SEDUNet.__init__]: six required arguments, the others keyword
    arguments with defaults ([None] stands for an argument left out). *)
Definition SEDUNet_init (length width model_depth model_width kernel_size num_channel : Z)
    (problem_type : option string) (output_nums ds ae ag lstm dense_loop se_ratio
     feature_number : option Z) (is_transconv : option bool) : Self.t :=
  let default {A : Type} (o : option A) (d : A) := match o with Some v => v | None => d end in
  Self.init length width model_depth model_width kernel_size num_channel
    (default problem_type "Regression") (default output_nums 1)
    (default ds 0) (default ae 0) (default ag 0) (default lstm 0)
    (default dense_loop 1) (default se_ratio 16) (default feature_number 1024)
    (default is_transconv true).

(** The object built under [if __name__ == '__main__']. *)
Definition main_config : Self.t :=
  let length := 224 in
  let width := 224 in
  let model_depth := 5 in
  let model_width := 64 in
  let kernel_size := 3 in
  let num_channel := 1 in
  let D_S := 1 in
  let A_E := 0 in
  let A_G := 1 in
  let LSTM := 1 in
  let num_dense_loop := 3 in
  let problem_type := "Regression" in
  let output_nums := 1 in
  let is_transconv := true in
  SEDUNet_init length width model_depth model_width kernel_size num_channel
    (Some problem_type) (Some output_nums) (Some D_S) (Some A_E) (Some A_G) (Some LSTM)
    (Some num_dense_loop) None None (Some is_transconv).

(** ** Well-formed graphs *)

(** Every node takes its inputs from nodes created before it. *)
Definition wf (g : graph) : Prop :=
  forall i n, nth_error g i = Some n -> Forall (fun k => (k < i)%nat) (n_inputs n).

(** A tensor handle is backed by the graph: its node is there and carries
    the handle's layer and shape. *)
Definition tvalid (g : graph) (t : KerasTensor) : Prop :=
  exists ins, nth_error g (node_id t) = Some (mkNode (producer t) ins (shape t)).

(** [g'] is [g] with nodes appended. *)
Definition extends (g g' : graph) : Prop := exists d, g' = g ++ d.

(** [keeps m g V]: run from a well-formed graph [g], the computation [m]
    leaves a well-formed graph that extends [g], whether it returns or
    raises, and a returned value satisfies [V]. *)
Definition keeps {A : Type} (m : M A) (g : graph) (V : A -> graph -> Prop) : Prop :=
  wf g ->
  match m g with
  | Ok a g' => wf g' /\ extends g g' /\ V a g'
  | Raise _ g' => wf g' /\ extends g g'
  end.

(** The loop-carried variables of the encoder and of the decoder hold
    tensors of the graph. *)
Definition encoder_inv (st : KerasTensor * dict KerasTensor) (g : graph) : Prop :=
  tvalid g (fst st) /\ Forall (tvalid g) (dict_values (snd st)).

Definition decoder_inv (convs_list : list KerasTensor) (st : KerasTensor * list nest)
    (g : graph) : Prop :=
  tvalid g (fst st) /\ Forall (tvalid g) (flat_map flatten (snd st))
  /\ Forall (tvalid g) convs_list.

(** The layers a run added to the graph, in order of creation. *)
Definition layers_added (g g' : graph) : list layer :=
  map n_layer (skipn (List.length g) g').

(** ** Partial correctness *)


(** ** Raising *)

Definition is_ValueError (e : exn) : Prop := exists msg, e = ValueError msg.

(** [raises m g E]: run from graph [g], the computation [m] raises an
    exception that satisfies [E]. *)
Definition raises {A : Type} (m : M A) (g : graph) (E : exn -> Prop) : Prop :=
  exists e g', m g = Raise e g' /\ E e.

(** The activation of the final projection, by problem type. *)
Definition output_activation (self : Self.t) : activation :=
  if String.eqb (Self.problem_type self) "Classification" then softmax else linear.

(** ** The builder monad *)

Lemma returns_ret {A : Type} (a : A) (g : graph) (P : A -> graph -> Prop) :
  P a g -> returns (ret a) g P.
Proof. intros H. exists a, g. split; [reflexivity | exact H]. Qed.

Lemma returns_bind {A B : Type} (m : M A) (k : A -> M B) (g : graph)
    (P : A -> graph -> Prop) (Q : B -> graph -> Prop) :
  returns m g P ->
  (forall a g1, P a g1 -> returns (k a) g1 Q) ->
  returns (bind m k) g Q.
Proof.
  intros (a & g1 & Hm & HP) Hk.
  destruct (Hk a g1 HP) as (b & g2 & Hb & HQ).
  exists b, g2. split; [| exact HQ].
  unfold bind. rewrite Hm. exact Hb.
Qed.

Lemma returns_weaken {A : Type} (m : M A) (g : graph) (P Q : A -> graph -> Prop) :
  returns m g P -> (forall a g', P a g' -> Q a g') -> returns m g Q.
Proof.
  intros (a & g' & Hm & HP) HPQ. exists a, g'. split; [exact Hm | auto].
Qed.

Lemma count_layers_snoc (p : layer -> bool) (g : graph) (n : node) :
  count_layers p (g ++ [n]) = (count_layers p g + (if p (n_layer n) then 1 else 0))%nat.
Proof.
  unfold count_layers. rewrite filter_app, length_app. simpl.
  destruct (p (n_layer n)); reflexivity.
Qed.

Lemma returns_new_node (l : layer) (ins : list KerasTensor) (out : list Z) (g : graph) :
  returns (new_node l ins out) g
    (fun t g' => post g out (if is_pooling l then 1 else 0) (if is_upsampling l then 1 else 0) t g'
                 /\ producer t = l).
Proof.
  eexists _, _. split; [reflexivity |].
  unfold post. rewrite !count_layers_snoc. simpl. auto.
Qed.

Lemma post_trans (g g1 : graph) (s1 s : list Z) (a b a1 b1 a' b' : nat) t1 t g' :
  post g s1 a b t1 g1 -> post g1 s a1 b1 t g' ->
  (a + a1 = a')%nat -> (b + b1 = b')%nat ->
  post g s a' b' t g'.
Proof.
  unfold post. intros (_ & Hp & Hu) (Hs & Hp1 & Hu1) Ha Hb.
  split; [exact Hs |]. split; lia.
Qed.

(** ** The layers *)

Ltac calc := cbn -[Z.mul Z.add Z.sub Z.div Z.pow Z.modulo Z.quot].

Lemma conv_output_length_same (h k : Z) : conv_output_length h k same 1 = h.
Proof. unfold conv_output_length. rewrite Z.div_1_r. lia. Qed.

Lemma conv_output_length_1x1 (h : Z) : conv_output_length h 1 valid 1 = h.
Proof. unfold conv_output_length. rewrite Z.div_1_r. lia. Qed.

Lemma conv_output_length_stride2 (m : Z) : conv_output_length (2 * m) 1 valid 2 = m.
Proof.
  unfold conv_output_length.
  replace (2 * m - 1 + 1 + 2 - 1) with (1 + m * 2) by lia.
  rewrite Z.div_add by lia. reflexivity.
Qed.

Lemma conv_output_length_pool2 (m : Z) : conv_output_length (2 * m) 2 valid 2 = m.
Proof.
  unfold conv_output_length.
  replace (2 * m - 2 + 1 + 2 - 1) with (0 + m * 2) by lia.
  rewrite Z.div_add by lia. reflexivity.
Qed.

Lemma pair_pos_true (a b : Z) : 0 < a -> 0 < b -> pair_pos (a, b) = true.
Proof.
  intros Ha Hb. unfold pair_pos. calc.
  rewrite (proj2 (Z.ltb_lt 0 a) Ha), (proj2 (Z.ltb_lt 0 b) Hb). reflexivity.
Qed.

Lemma keras_Conv2D_returns f ks st p act name x g h w c :
  shape x = [h; w; c] -> 0 < py_int f ->
  pair_pos ks = true -> pair_pos st = true ->
  0 < conv_output_length h (fst ks) p (fst st) ->
  0 < conv_output_length w (snd ks) p (snd st) ->
  returns (keras_Conv2D f ks st p act name x) g
    (fun t g' =>
       post g [conv_output_length h (fst ks) p (fst st);
               conv_output_length w (snd ks) p (snd st); py_int f] 0 0 t g'
       /\ tensor_name t = name).
Proof.
  intros Hs Hf Hks Hst Hh Hw. unfold keras_Conv2D.
  rewrite Hs, Hks, Hst, (proj2 (Z.ltb_lt _ _) Hf).
  replace (window_fits p _ _) with true
    by (unfold window_fits; destruct p; [| reflexivity];
        rewrite (proj2 (Z.ltb_lt _ _) Hh), (proj2 (Z.ltb_lt _ _) Hw); reflexivity).
  calc.
  eapply returns_weaken; [apply returns_new_node |].
  intros t g' (Hpost & Hprod). split; [exact Hpost |].
  unfold tensor_name. rewrite Hprod. reflexivity.
Qed.

Lemma keras_Conv2D_same f k act name x g h w c :
  shape x = [h; w; c] -> 0 < py_int f -> 0 < k -> 0 < h -> 0 < w ->
  returns (keras_Conv2D f (k, k) (1, 1) same act name x) g
    (fun t g' => post g [h; w; py_int f] 0 0 t g' /\ tensor_name t = name).
Proof.
  intros Hs Hf Hk Hh Hw.
  eapply returns_weaken.
  - eapply keras_Conv2D_returns; eauto using pair_pos_true with zarith;
      cbn [fst snd]; rewrite conv_output_length_same; assumption.
  - cbn [fst snd]. intros t g'. rewrite !conv_output_length_same. auto.
Qed.

Lemma keras_Conv2D_1x1 f act name x g h w c :
  shape x = [h; w; c] -> 0 < py_int f -> 0 < h -> 0 < w ->
  returns (keras_Conv2D f (1, 1) (1, 1) valid act name x) g
    (fun t g' => post g [h; w; py_int f] 0 0 t g' /\ tensor_name t = name).
Proof.
  intros Hs Hf Hh Hw.
  eapply returns_weaken.
  - eapply keras_Conv2D_returns; eauto using pair_pos_true with zarith;
      cbn [fst snd]; rewrite conv_output_length_1x1; assumption.
  - cbn [fst snd]. intros t g'. rewrite !conv_output_length_1x1. auto.
Qed.

Lemma keras_Conv2D_stride2 f x g h w c :
  shape x = [2 * h; 2 * w; c] -> 0 < py_int f -> 0 < h -> 0 < w ->
  returns (keras_Conv2D f (1, 1) (2, 2) valid None None x) g
    (post g [h; w; py_int f] 0 0).
Proof.
  intros Hs Hf Hh Hw.
  eapply returns_weaken.
  - eapply keras_Conv2D_returns; eauto using pair_pos_true with zarith;
      cbn [fst snd]; rewrite conv_output_length_stride2; assumption.
  - cbn [fst snd]. intros t g'. rewrite !conv_output_length_stride2. tauto.
Qed.

Lemma keras_Conv2DTranspose_returns f x g h w c :
  shape x = [h; w; c] -> 0 < py_int f ->
  returns (keras_Conv2DTranspose f (2, 2) (2, 2) same x) g
    (post g [2 * h; 2 * w; py_int f] 0 1).
Proof.
  intros Hs Hf. unfold keras_Conv2DTranspose.
  rewrite Hs, (proj2 (Z.ltb_lt _ _) Hf). calc.
  eapply returns_weaken; [apply returns_new_node |].
  intros t g' (Hpost & _). unfold deconv_output_length in Hpost.
  replace (2 * h) with (h * 2) by lia. replace (2 * w) with (w * 2) by lia.
  exact Hpost.
Qed.

Lemma keras_BatchNormalization_returns x g :
  returns (keras_BatchNormalization x) g (post g (shape x) 0 0).
Proof.
  eapply returns_weaken; [apply returns_new_node |]. calc. tauto.
Qed.

Lemma keras_Activation_returns a x g :
  returns (keras_Activation a x) g (post g (shape x) 0 0).
Proof.
  eapply returns_weaken; [apply returns_new_node |]. calc. tauto.
Qed.

Lemma keras_MaxPooling2D_returns x g h w c :
  shape x = [2 * h; 2 * w; c] -> 0 < h -> 0 < w ->
  returns (keras_MaxPooling2D (2, 2) x) g (post g [h; w; c] 1 0).
Proof.
  intros Hs Hh Hw. unfold keras_MaxPooling2D. rewrite Hs. cbn [fst snd].
  rewrite (proj2 (Z.ltb_ge (2 * h) 2)) by lia.
  rewrite (proj2 (Z.ltb_ge (2 * w) 2)) by lia.
  rewrite !conv_output_length_pool2. calc.
  eapply returns_weaken; [apply returns_new_node |]. calc. tauto.
Qed.

Lemma keras_UpSampling2D_returns x g h w c :
  shape x = [h; w; c] ->
  returns (keras_UpSampling2D (2, 2) x) g (post g [2 * h; 2 * w; c] 0 1).
Proof.
  intros Hs. unfold keras_UpSampling2D. rewrite Hs. calc.
  eapply returns_weaken; [apply returns_new_node |]. calc. tauto.
Qed.

Lemma list_eqb_refl (s : list Z) : list_eqb s s = true.
Proof. induction s as [| x s IH]; simpl; [reflexivity |]. rewrite Z.eqb_refl. exact IH. Qed.

Lemma keras_concatenate_returns a b g pre ca cb :
  shape a = pre ++ [ca] -> shape b = pre ++ [cb] ->
  returns (keras_concatenate a b) g (post g (pre ++ [ca + cb]) 0 0).
Proof.
  intros Ha Hb. unfold keras_concatenate.
  destruct (shape a) eqn:E1; [destruct pre; discriminate |].
  destruct (shape b) eqn:E2; [destruct pre; discriminate |].
  rewrite Ha, Hb, !removelast_last, !last_last, list_eqb_refl.
  eapply returns_weaken; [apply returns_new_node |]. calc. tauto.
Qed.

Lemma zip_broadcast_refl (s : list Z) : zip_broadcast s s = Some s.
Proof.
  induction s as [| x s IH]; simpl; [reflexivity |].
  rewrite IH, Z.eqb_refl.
  destruct (x =? 1); reflexivity.
Qed.

Lemma elemwise_same (s : list Z) : elemwise_op_output_shape s s = Some s.
Proof.
  unfold elemwise_op_output_shape. rewrite Nat.ltb_irrefl, Nat.sub_diag. calc.
  rewrite zip_broadcast_refl. reflexivity.
Qed.

Lemma elemwise_gate (h w c : Z) : elemwise_op_output_shape [h; w; c] [c] = Some [h; w; c].
Proof.
  unfold elemwise_op_output_shape. calc.
  rewrite Z.eqb_refl. destruct (c =? 1); reflexivity.
Qed.

Lemma elemwise_mask (h w c : Z) : elemwise_op_output_shape [h; w; c] [h; w; 1] = Some [h; w; c].
Proof.
  unfold elemwise_op_output_shape. calc.
  rewrite !Z.eqb_refl.
  destruct (c =? 1) eqn:Ec; [apply Z.eqb_eq in Ec; subst c |];
    destruct (w =? 1); destruct (h =? 1); reflexivity.
Qed.

Lemma keras_merge_returns l a b g s :
  elemwise_op_output_shape (shape a) (shape b) = Some s ->
  is_pooling l = false -> is_upsampling l = false ->
  returns (keras_merge l a b) g (post g s 0 0).
Proof.
  intros He Hp Hu. unfold keras_merge. rewrite He.
  eapply returns_weaken; [apply returns_new_node |].
  rewrite Hp, Hu. tauto.
Qed.

Lemma keras_Flatten_returns x g :
  returns (keras_Flatten x) g (post g [prod_dims (shape x)] 0 0).
Proof.
  eapply returns_weaken; [apply returns_new_node |]. calc. tauto.
Qed.

Lemma keras_Dense_returns units act name x g pre c :
  shape x = pre ++ [c] -> 0 <= units ->
  returns (keras_Dense units act name x) g (post g (pre ++ [units]) 0 0).
Proof.
  intros Hs Hu. unfold keras_Dense.
  rewrite (proj2 (Z.ltb_ge units 0)) by lia.
  destruct (shape x) eqn:E; [destruct pre; discriminate |].
  rewrite Hs, removelast_last.
  eapply returns_weaken; [apply returns_new_node |]. calc. tauto.
Qed.

Lemma keras_Reshape_returns target x g :
  Forall (fun d => 0 <= d) target -> prod_dims target = prod_dims (shape x) ->
  returns (keras_Reshape target x) g (post g target 0 0).
Proof.
  intros Hpos Hprod. unfold keras_Reshape.
  replace (forallb (fun d => 0 <=? d) target) with true.
  - rewrite (proj2 (Z.eqb_eq _ _) Hprod). calc.
    eapply returns_weaken; [apply returns_new_node |]. calc. tauto.
  - symmetry. apply forallb_forall. intros d Hd.
    rewrite Forall_forall in Hpos. apply Z.leb_le. auto.
Qed.

Lemma keras_GlobalAveragePooling2D_returns x g h w c :
  shape x = [h; w; c] ->
  returns (keras_GlobalAveragePooling2D x) g (post g [c] 0 0).
Proof.
  intros Hs. unfold keras_GlobalAveragePooling2D. rewrite Hs.
  eapply returns_weaken; [apply returns_new_node |]. calc. tauto.
Qed.

Lemma keras_ConvLSTM2D_returns filters x g t h w c :
  shape x = [t; h; w; c] -> 0 < filters -> 0 < h -> 0 < w ->
  returns (keras_ConvLSTM2D filters (3, 3) same false true x) g
    (post g [h; w; filters] 0 0).
Proof.
  intros Hs Hf Hh Hw. unfold keras_ConvLSTM2D.
  rewrite Hs, (proj2 (Z.ltb_lt _ _) Hf). cbn [fst snd].
  rewrite !conv_output_length_same. calc.
  eapply returns_weaken; [apply returns_new_node |]. calc. tauto.
Qed.

(** ** Python arithmetic *)

Lemma py_pow2_nonneg (e : Z) : 0 <= e -> py_pow2 e = PyInt (2 ^ e).
Proof. intros He. unfold py_pow2. rewrite (proj2 (Z.leb_le 0 e) He). reflexivity. Qed.

Lemma py_filters (mw e : Z) : 0 <= e -> py_int (py_mul mw (py_pow2 e)) = mw * 2 ^ e.
Proof. intros He. rewrite py_pow2_nonneg by exact He. reflexivity. Qed.

Lemma py_filters_half (mw : Z) : py_int (py_mul mw (py_pow2 (-1))) = Z.quot mw 2.
Proof.
  unfold py_pow2, py_mul, py_int. cbn -[Z.quot Z.mul].
  rewrite Z.mul_1_r. reflexivity.
Qed.

Lemma wrap32_small (z : Z) : - 2 ^ 31 <= z < 2 ^ 31 -> wrap32 z = z.
Proof.
  intros Hz. unfold wrap32.
  rewrite Z.mod_small by lia. lia.
Qed.

Lemma py_truediv_pow2 (a e : Z) (g : graph) :
  0 <= e -> exists q, py_truediv a (py_pow2 e) g = Ok q g /\ py_int q = Z.quot a (2 ^ e).
Proof.
  intros He. rewrite py_pow2_nonneg by exact He.
  assert (Hp : 0 < 2 ^ e) by (apply Z.pow_pos_nonneg; lia).
  unfold py_truediv, py_is_zero.
  rewrite (proj2 (Z.eqb_neq _ _)) by lia.
  eexists. split; [reflexivity |].
  unfold py_to_Q, py_int, inject_Z, Qdiv, Qinv, Qmult.
  destruct (2 ^ e) as [| p | p] eqn:E; try lia.
  cbn -[Z.quot Z.mul]. rewrite Z.mul_1_r. reflexivity.
Qed.

(** ** The primitive blocks *)

Ltac post_solve :=
  cbv beta in *;
  repeat match goal with
         | H : post _ _ _ _ _ _ |- _ => destruct H as (? & ? & ?)
         | H : _ /\ _ |- _ => destruct H
         end;
  unfold post; repeat split; try congruence; try lia.

Ltac shape_tac :=
  match goal with
  | |- shape ?t = _ =>
      first [eassumption
            | match goal with H : post _ _ _ _ t _ |- _ => exact (proj1 H) end]
  | _ => idtac
  end.

Tactic Notation "step" uconstr(lem) "as" ident(x) ident(g) ident(H) :=
  eapply returns_bind; [eapply lem; shape_tac; eauto | intros x g H; cbv beta in H].

Lemma Conv_Block_returns x mw k m g h w c :
  shape x = [h; w; c] -> 0 < h -> 0 < w -> 0 < k -> 0 < py_int (py_mul mw m) ->
  returns (Conv_Block x mw k m) g (post g [h; w; py_int (py_mul mw m)] 0 0).
Proof.
  intros Hs Hh Hw Hk Hf. unfold Conv_Block.
  step keras_Conv2D_same as x1 g1 H1.
  step keras_BatchNormalization_returns as x2 g2 H2.
  step keras_Activation_returns as x3 g3 H3.
  apply returns_ret. post_solve.
Qed.

Lemma trans_conv2D_returns x mw m g h w c :
  shape x = [h; w; c] -> 0 < py_int (py_mul mw m) ->
  returns (trans_conv2D x mw m) g (post g [2 * h; 2 * w; py_int (py_mul mw m)] 0 1).
Proof.
  intros Hs Hf. unfold trans_conv2D.
  step keras_Conv2DTranspose_returns as x1 g1 H1.
  step keras_BatchNormalization_returns as x2 g2 H2.
  step keras_Activation_returns as x3 g3 H3.
  apply returns_ret. post_solve.
Qed.

Lemma upConv_Block_returns x g h w c :
  shape x = [h; w; c] ->
  returns (upConv_Block x) g (post g [2 * h; 2 * w; c] 0 1).
Proof. intros Hs. unfold upConv_Block. eapply keras_UpSampling2D_returns; eauto. Qed.

Lemma py_floordiv_returns (a b : Z) (g : graph) :
  b <> 0 -> returns (py_floordiv a b) g (fun q g' => q = a / b /\ g' = g).
Proof.
  intros Hb. unfold py_floordiv. rewrite (proj2 (Z.eqb_neq _ _) Hb).
  apply returns_ret. auto.
Qed.

Lemma keras_Dense_vector units act name x g c :
  shape x = [c] -> 0 <= units ->
  returns (keras_Dense units act name x) g (post g [units] 0 0).
Proof. intros Hs Hu. apply (keras_Dense_returns units act name x g [] c); assumption. Qed.

Lemma SqueezeExcite_returns x ratio g h w c :
  shape x = [h; w; c] -> 0 <= c -> 1 <= ratio ->
  returns (SqueezeExcite x ratio) g (post g [h; w; c] 0 0).
Proof.
  intros Hs Hc Hr. unfold SqueezeExcite. cbv zeta.
  replace (last (shape x) 0) with c by (rewrite Hs; reflexivity).
  step keras_GlobalAveragePooling2D_returns as y0 g1 H0.
  eapply returns_bind; [apply py_floordiv_returns; lia |].
  intros units g2 (-> & ->).
  eapply returns_bind.
  { eapply keras_Dense_vector; [exact (proj1 H0) |]. apply Z.div_pos; lia. }
  intros y1 g3 H1.
  eapply returns_bind.
  { eapply keras_Dense_vector; [exact (proj1 H1) | exact Hc]. }
  intros y2 g4 H2.
  eapply returns_bind.
  { eapply (keras_merge_returns Multiply x y2 g4 [h; w; c]); try reflexivity.
    rewrite (proj1 H2), Hs. apply elemwise_gate. }
  intros y3 g5 H3.
  apply returns_ret. post_solve.
Qed.

Lemma Feature_Extraction_Block_returns x mw fn g h w c :
  shape x = [h; w; c] -> 0 < h -> 0 < w -> 0 < mw -> 0 <= fn ->
  returns (Feature_Extraction_Block x mw fn) g (post g [h; w; mw] 0 0).
Proof.
  intros Hs Hh Hw Hmw Hfn. unfold Feature_Extraction_Block.
  step keras_Flatten_returns as l0 g1 H0.
  eapply returns_bind.
  { eapply keras_Dense_vector; [exact (proj1 H0) | exact Hfn]. }
  intros l1 g2 H1.
  unfold shape_getitem. rewrite Hs.
  change (nth_error [h; w; c] (Z.to_nat (1 - 1))) with (Some h).
  change (nth_error [h; w; c] (Z.to_nat (2 - 1))) with (Some w).
  eapply returns_bind; [apply (returns_ret h g2 (fun a g' => a = h /\ g' = g2)); auto |].
  intros ? ? (-> & ->).
  eapply returns_bind; [apply (returns_ret w g2 (fun a g' => a = w /\ g' = g2)); auto |].
  intros ? ? (-> & ->).
  eapply returns_bind.
  { eapply keras_Dense_vector; [exact (proj1 H1) | nia]. }
  intros l2 g3 H2.
  eapply returns_bind.
  { eapply keras_Reshape_returns.
    - repeat constructor; lia.
    - rewrite (proj1 H2). unfold prod_dims. cbn [fold_right]. lia. }
  intros l3 g4 H3.
  apply returns_ret. post_solve.
Qed.

(** ** Loops *)

Lemma py_range_nil (a b : Z) : b <= a -> py_range a b = [].
Proof.
  intros H. unfold py_range.
  replace (Z.to_nat (b - a)) with 0%nat by lia. reflexivity.
Qed.

Lemma py_range_cons (a b : Z) : a < b -> py_range a b = a :: py_range (a + 1) b.
Proof.
  intros H. unfold py_range.
  replace (Z.to_nat (b - a)) with (S (Z.to_nat (b - (a + 1)))) by lia.
  cbn [seq map]. f_equal; [lia |].
  rewrite <- seq_shift, map_map.
  apply map_ext. intros k. lia.
Qed.

Lemma py_range_length (a b : Z) : List.length (py_range a b) = Z.to_nat (b - a).
Proof. unfold py_range. rewrite length_map, length_seq. reflexivity. Qed.

Lemma py_getitem_middle {A : Type} (pre rest : list A) (a : A) (g : graph) :
  py_getitem (pre ++ a :: rest) (Z.of_nat (List.length pre)) g = Ok a g.
Proof.
  assert (H0 : (Z.of_nat (List.length pre) <? 0) = false) by (apply Z.ltb_ge; lia).
  unfold py_getitem. cbv zeta. rewrite H0. cbv iota. rewrite H0.
  rewrite length_app. cbn [List.length].
  rewrite (proj2 (Z.leb_gt _ _)) by lia.
  rewrite Nat2Z.id, nth_error_app2, Nat.sub_diag by lia.
  reflexivity.
Qed.

Lemma Concat_Block_from (rest pre : list KerasTensor) (cat : KerasTensor) (g : graph) :
  for_each (py_range (Z.of_nat (List.length pre))
                     (Z.of_nat (List.length pre + List.length rest)))
    (fun arg cat => a <- py_getitem (pre ++ rest) arg ;; keras_concatenate cat a) cat g
  = for_each rest (fun a cat => keras_concatenate cat a) cat g.
Proof.
  revert pre cat g. induction rest as [| a rest IH]; intros pre cat g.
  - rewrite py_range_nil by (cbn [List.length]; lia). reflexivity.
  - cbn [List.length]. rewrite py_range_cons by lia.
    cbn [for_each]. unfold bind.
    rewrite py_getitem_middle.
    destruct (keras_concatenate cat a g) as [cat' g' | e g']; [| reflexivity].
    specialize (IH (pre ++ [a]) cat' g').
    rewrite length_app in IH. cbn [List.length] in IH.
    rewrite <- app_assoc in IH. cbn [app] in IH.
    replace (Z.of_nat (List.length pre) + 1) with (Z.of_nat (List.length pre + 1)) by lia.
    replace (List.length pre + S (List.length rest))%nat
      with (List.length pre + 1 + List.length rest)%nat by lia.
    unfold bind in IH. exact IH.
Qed.

Lemma Concat_Block_fold (input1 : KerasTensor) (argv : list KerasTensor) (g : graph) :
  Concat_Block input1 argv g
  = for_each argv (fun a cat => keras_concatenate cat a) input1 g.
Proof. exact (Concat_Block_from argv [] input1 g). Qed.

Lemma Concat_Block_pair_returns a b g pre ca cb :
  shape a = pre ++ [ca] -> shape b = pre ++ [cb] ->
  returns (Concat_Block a [b]) g (post g (pre ++ [ca + cb]) 0 0).
Proof.
  intros Ha Hb. unfold returns. rewrite Concat_Block_fold. cbn [for_each].
  step keras_concatenate_returns as t g1 H1.
  apply returns_ret. exact H1.
Qed.

Lemma dense_loop_returns (xs : list Z) x nf k m g h w c :
  shape x = [h; w; c] -> 0 < h -> 0 < w -> 0 < k -> 0 < py_int (py_mul nf m) ->
  returns
    (for_each xs
       (fun _ x =>
          cb <- Conv_Block x nf k m ;;
          cb <- Conv_Block cb nf k m ;;
          keras_concatenate x cb)
       x) g
    (post g [h; w; c + Z.of_nat (List.length xs) * py_int (py_mul nf m)] 0 0).
Proof.
  intros Hs Hh Hw Hk Hf. revert x c g Hs.
  induction xs as [| i xs IH]; intros x c g Hs; cbn [for_each].
  - apply returns_ret. cbn [List.length]. unfold post.
    rewrite Hs. repeat split; try lia. do 3 f_equal. lia.
  - eapply returns_bind.
    { step Conv_Block_returns as cb1 g1 H1.
      step Conv_Block_returns as cb2 g2 H2.
      eapply returns_weaken.
      - apply (keras_concatenate_returns x cb2 g2 [h; w] c (py_int (py_mul nf m)));
          [exact Hs | exact (proj1 H2)].
      - intros t g3 H3.
        exact (post_trans g g2 _ _ 0 0 0 0 0 0 cb2 t g3
                 (post_trans g g1 _ _ 0 0 0 0 0 0 cb1 cb2 g2 H1 H2 eq_refl eq_refl)
                 H3 eq_refl eq_refl). }
    intros x' g' H'. cbv beta in H'.
    eapply returns_weaken.
    + apply (IH x' (c + py_int (py_mul nf m)) g'). exact (proj1 H').
    + intros t g'' H''. cbn [List.length].
      replace (c + Z.of_nat (S (List.length xs)) * py_int (py_mul nf m))
        with (c + py_int (py_mul nf m) + Z.of_nat (List.length xs) * py_int (py_mul nf m))
        by lia.
      post_solve.
Qed.

Lemma dense_block_returns x nf k m n g h w c :
  shape x = [h; w; c] -> 0 < h -> 0 < w -> 0 < k -> 0 < py_int (py_mul nf m) ->
  returns (dense_block x nf k m n) g
    (post g [h; w; c + Z.max 0 n * py_int (py_mul nf m)] 0 0).
Proof.
  intros Hs Hh Hw Hk Hf. unfold dense_block.
  eapply returns_weaken; [eapply dense_loop_returns; eauto |].
  intros t g'. rewrite py_range_length.
  replace (Z.of_nat (Z.to_nat (n - 0))) with (Z.max 0 n) by lia. auto.
Qed.

Lemma Attention_Block_returns skip gating nf m g h w c cg :
  shape skip = [2 * h; 2 * w; c] -> shape gating = [h; w; cg] ->
  0 < h -> 0 < w -> 0 < py_int (py_mul nf m) ->
  returns (Attention_Block skip gating nf m) g (post g [2 * h; 2 * w; c] 0 2).
Proof.
  intros Hs Hg Hh Hw Hf. unfold Attention_Block.
  step keras_Conv2D_stride2 as a1 g1 H1.
  step keras_BatchNormalization_returns as a2 g2 H2.
  eapply returns_bind.
  { eapply (keras_Conv2D_1x1 _ None None gating g2); eauto. }
  intros b1 g3 (H3 & _).
  step keras_BatchNormalization_returns as b2 g4 H4.
  eapply returns_bind.
  { eapply (keras_merge_returns Add a2 b2 g4); try reflexivity.
    replace (shape b2) with (shape a2) by (post_solve).
    apply elemwise_same. }
  intros s1 g5 H5.
  step keras_Activation_returns as s2 g6 H6.
  assert (Hs2 : shape s2 = [h; w; py_int (py_mul nf m)]) by post_solve.
  eapply returns_bind.
  { eapply (keras_Conv2D_1x1 (PyInt 1) None None s2 g6 h w); try eassumption.
    reflexivity. }
  intros s3 g7 (H7 & _). change (py_int (PyInt 1)) with 1 in H7.
  step keras_BatchNormalization_returns as s4 g8 H8.
  step keras_Activation_returns as s5 g9 H9.
  assert (Hs5 : shape s5 = [h; w; 1]) by post_solve.
  step upConv_Block_returns as r1 g10 H10.
  eapply returns_bind.
  { eapply (trans_conv2D_returns s5 1 (PyInt 1) g10); [exact Hs5 | reflexivity]. }
  intros r2 g11 H11.
  eapply returns_bind.
  { eapply (keras_merge_returns Add r1 r2 g11); try reflexivity.
    rewrite (proj1 H10), (proj1 H11). apply elemwise_same. }
  intros r g12 H12.
  eapply returns_bind.
  { eapply (keras_merge_returns TFOpMultiply skip r g12); try reflexivity.
    rewrite (proj1 H12), Hs. apply elemwise_mask. }
  intros out g13 H13.
  apply returns_ret. post_solve.
Qed.

(** ** Keys and sizes *)

Lemma py_str_inj (a b : Z) : py_str a = py_str b -> a = b.
Proof.
  assert (Hnil : forall z, Z.to_int z <> Decimal.Pos Decimal.Nil
                           /\ Z.to_int z <> Decimal.Neg Decimal.Nil).
  { intros z. split; intros H; pose proof (f_equal Z.of_int H) as H';
      rewrite DecimalZ.of_to in H'; cbn in H'; subst z; discriminate H. }
  unfold py_str. intros H.
  apply (f_equal NilZero.int_of_string) in H.
  rewrite !NilZero.isi in H by apply Hnil.
  injection H as H. apply (f_equal Z.of_int) in H.
  rewrite !DecimalZ.of_to in H. exact H.
Qed.

Lemma conv_key_inj (a b : nat) : conv_key a = conv_key b -> a = b.
Proof.
  unfold conv_key. cbn [String.append]. intros H.
  injection H as H. apply py_str_inj in H. lia.
Qed.

Lemma dict_set_fresh {V : Type} (d : dict V) (k : string) (v : V) :
  ~ In k (map fst d) -> dict_set d k v = d ++ [(k, v)].
Proof.
  induction d as [| [k' v'] d IH]; intros Hk; cbn [dict_set app].
  - reflexivity.
  - cbn [map fst In] in Hk.
    destruct (String.eqb_spec k' k) as [-> | Hne].
    + exfalso. apply Hk. left. reflexivity.
    + rewrite IH; [reflexivity |]. intros Hin. apply Hk. right. exact Hin.
Qed.

Lemma skips_ok_set self n convs conv :
  skips_ok self n convs -> shape conv = skip_shape self n ->
  skips_ok self (S n) (dict_set convs (conv_key (S n)) conv).
Proof.
  intros (Hkeys & Hshapes) Hconv.
  rewrite dict_set_fresh.
  - unfold skips_ok. rewrite !map_app, !seq_S, !map_app, Hkeys, Hshapes.
    cbn [map fst snd]. rewrite Hconv. split; reflexivity.
  - rewrite Hkeys. intros Hin. apply in_map_iff in Hin.
    destruct Hin as (k & Hk & Hin). apply conv_key_inj in Hk.
    apply in_seq in Hin. lia.
Qed.

Lemma div_pow2_exact (x q d k : Z) :
  x = q * 2 ^ d -> 0 <= k <= d -> x / 2 ^ k = q * 2 ^ (d - k).
Proof.
  intros Hx Hk. subst x.
  replace d with ((d - k) + k) at 1 by lia.
  rewrite Z.pow_add_r by lia.
  rewrite Z.mul_assoc, Z.div_mul; [reflexivity |].
  apply Z.pow_nonzero; lia.
Qed.

Lemma div_pow2_pos (x q d k : Z) :
  x = q * 2 ^ d -> 0 < q -> 0 <= k <= d -> 0 < x / 2 ^ k.
Proof.
  intros Hx Hq Hk. rewrite (div_pow2_exact x q d k Hx Hk).
  apply Z.mul_pos_pos; [exact Hq |]. apply Z.pow_pos_nonneg; lia.
Qed.

Lemma div_pow2_step (x q d k : Z) :
  x = q * 2 ^ d -> 0 <= k < d -> x / 2 ^ k = 2 * (x / 2 ^ (k + 1)).
Proof.
  intros Hx Hk.
  rewrite (div_pow2_exact x q d k Hx), (div_pow2_exact x q d (k + 1) Hx) by lia.
  replace (d - k) with (Z.succ (d - (k + 1))) by lia.
  rewrite Z.pow_succ_r by lia. lia.
Qed.

Lemma div_pow2_bound (x k : Z) : 0 <= x -> 0 <= k -> 0 <= x / 2 ^ k <= x.
Proof.
  intros Hx Hk.
  assert (Hp : 0 < 2 ^ k) by (apply Z.pow_pos_nonneg; lia).
  split; [apply Z.div_pos; lia |].
  apply Z.div_le_upper_bound; [lia |]. nia.
Qed.

(** ** The encoder, the bottleneck and the decoder on a well-sized input *)

Section Shapes.

Variable self : Self.t.
Variables l0 w0 : Z.

Local Abbreviation d := (Self.model_depth self).
Local Abbreviation mw := (Self.model_width self).
Local Abbreviation ks := (Self.kernel_size self).
Local Abbreviation L := (Self.length self).
Local Abbreviation W := (Self.width self).

Hypothesis Hd : 1 <= d.
Hypothesis Hmw : 1 <= mw.
Hypothesis Hks : 1 <= ks.
Hypothesis HL : L = l0 * 2 ^ d.
Hypothesis HW : W = w0 * 2 ^ d.
Hypothesis Hl0 : 0 < l0.
Hypothesis Hw0 : 0 < w0.
Hypothesis Hse : 1 <= Self.se_ratio self.

Lemma filters_eq (k : Z) : 0 <= k -> py_int (py_mul mw (py_pow2 k)) = mw * 2 ^ k.
Proof. apply py_filters. Qed.

Lemma filters_pos (k : Z) : 0 <= k -> 0 < mw * 2 ^ k.
Proof.
  intros Hk. apply Z.mul_pos_pos; [lia |]. apply Z.pow_pos_nonneg; lia.
Qed.

Lemma Lpos (k : Z) : 0 <= k <= d -> 0 < L / 2 ^ k.
Proof. apply (div_pow2_pos L l0 d k HL Hl0). Qed.

Lemma Wpos (k : Z) : 0 <= k <= d -> 0 < W / 2 ^ k.
Proof. apply (div_pow2_pos W w0 d k HW Hw0). Qed.

Lemma Lstep (k : Z) : 0 <= k < d -> L / 2 ^ k = 2 * (L / 2 ^ (k + 1)).
Proof. apply (div_pow2_step L l0 d k HL). Qed.

Lemma Wstep (k : Z) : 0 <= k < d -> W / 2 ^ k = 2 * (W / 2 ^ (k + 1)).
Proof. apply (div_pow2_step W w0 d k HW). Qed.

Lemma Conv_Block_level x g h w c (k : Z) :
  shape x = [h; w; c] -> 0 < h -> 0 < w -> 0 <= k ->
  returns (Conv_Block x mw ks (py_pow2 k)) g (post g [h; w; mw * 2 ^ k] 0 0).
Proof.
  intros Hs Hh Hw Hk. rewrite <- (filters_eq k Hk).
  eapply Conv_Block_returns; eauto; try lia.
  rewrite filters_eq by exact Hk. apply filters_pos. exact Hk.
Qed.

Lemma encoder_step_returns (k : nat) pool convs c g :
  Z.of_nat k < d ->
  shape pool = [L / 2 ^ Z.of_nat k; W / 2 ^ Z.of_nat k; c] ->
  skips_ok self k convs ->
  returns (encoder_step self (Z.of_nat k + 1) (pool, convs)) g
    (fun st g' =>
       post g [L / 2 ^ (Z.of_nat k + 1); W / 2 ^ (Z.of_nat k + 1); mw * 2 ^ Z.of_nat k]
         1 0 (fst st) g'
       /\ skips_ok self (S k) (snd st)).
Proof.
  intros Hk Hs Hconvs. unfold encoder_step.
  replace (Z.of_nat k + 1 - 1) with (Z.of_nat k) by lia.
  assert (HLk := Lpos (Z.of_nat k) ltac:(lia)).
  assert (HWk := Wpos (Z.of_nat k) ltac:(lia)).
  step Conv_Block_level as c1 g1 H1; try lia.
  step Conv_Block_level as c2 g2 H2; try lia.
  eapply returns_bind.
  { eapply (keras_MaxPooling2D_returns c2 g2 (L / 2 ^ (Z.of_nat k + 1))
              (W / 2 ^ (Z.of_nat k + 1))).
    - rewrite <- Lstep, <- Wstep by lia. exact (proj1 H2).
    - apply Lpos. lia.
    - apply Wpos. lia. }
  intros p g3 H3. apply returns_ret. cbn [fst snd]. split.
  - post_solve.
  - replace (Z.of_nat k + 1) with (Z.of_nat (S k)) by lia.
    apply skips_ok_set; [exact Hconvs | exact (proj1 H2)].
Qed.

Lemma encoder_loop_returns (n k : nat) pool convs c g :
  Z.of_nat k + Z.of_nat n = d ->
  shape pool = [L / 2 ^ Z.of_nat k; W / 2 ^ Z.of_nat k; c] ->
  skips_ok self k convs ->
  returns (for_each (py_range (Z.of_nat k + 1) (d + 1)) (encoder_step self) (pool, convs)) g
    (fun st g' =>
       post g [L / 2 ^ d; W / 2 ^ d; match n with O => c | S _ => mw * 2 ^ (d - 1) end]
         n 0 (fst st) g'
       /\ skips_ok self (Z.to_nat d) (snd st)).
Proof.
  revert k pool convs c g.
  induction n as [| n IH]; intros k pool convs c g Hkn Hs Hconvs.
  - rewrite py_range_nil by lia. apply returns_ret. cbn [fst snd].
    replace d with (Z.of_nat k) by lia. rewrite Nat2Z.id.
    split; [| exact Hconvs]. unfold post. repeat split; try lia. exact Hs.
  - rewrite py_range_cons by lia. cbn [for_each].
    eapply returns_bind; [apply (encoder_step_returns k pool convs c g); [lia | exact Hs | exact Hconvs] |].
    intros [pool1 convs1] g1 (H1 & Hc1). cbn [fst snd] in H1, Hc1.
    eapply returns_weaken.
    + replace (Z.of_nat k + 1 + 1) with (Z.of_nat (S k) + 1) by lia.
      apply (IH (S k) pool1 convs1 (mw * 2 ^ Z.of_nat k) g1); [lia | | exact Hc1].
      replace (Z.of_nat (S k)) with (Z.of_nat k + 1) by lia. exact (proj1 H1).
    + intros [pool2 convs2] g2 (H2 & Hc2). cbn [fst snd] in *.
      split; [| exact Hc2].
      destruct n as [| n'].
      * replace (d - 1) with (Z.of_nat k) by lia. post_solve.
      * post_solve.
Qed.

(** The decoder. *)

Hypothesis Hlstm :
  Self.LSTM self = 1 ->
  Self.is_transconv self = true /\ 2 <= mw /\ L < 2 ^ 31 /\ W < 2 ^ 31
  /\ mw * 2 ^ d < 2 ^ 31.

Lemma skip_lookup (convs_list : list KerasTensor) (e : Z) (g : graph) :
  map shape convs_list = map (skip_shape self) (seq 0 (Z.to_nat d)) ->
  0 <= e < d ->
  returns (py_getitem convs_list e) g
    (fun skip g' => shape skip = decoder_shape self e /\ g' = g).
Proof.
  intros Hshapes He.
  assert (Hlen : List.length convs_list = Z.to_nat d).
  { rewrite <- (length_map shape), Hshapes, length_map, length_seq. reflexivity. }
  destruct (nth_error convs_list (Z.to_nat e)) as [skip |] eqn:Hnth.
  2: { apply nth_error_None in Hnth. lia. }
  exists skip, g. split.
  - unfold py_getitem. cbv zeta.
    rewrite (proj2 (Z.ltb_ge e 0)) by lia. cbv iota.
    rewrite (proj2 (Z.ltb_ge e 0)) by lia.
    rewrite (proj2 (Z.leb_gt _ _)) by lia.
    cbn [orb]. rewrite Hnth. reflexivity.
  - split; [| reflexivity].
    pose proof (map_nth_error shape _ _ Hnth) as Hm.
    rewrite Hshapes, nth_error_map in Hm.
    rewrite (nth_error_nth' _ 0%nat) in Hm by (rewrite length_seq; lia).
    rewrite seq_nth in Hm by lia. cbn [option_map] in Hm.
    injection Hm as Hm. rewrite <- Hm. unfold skip_shape, decoder_shape.
    cbn [Nat.add]. rewrite Z2Nat.id by lia. reflexivity.
Qed.

Lemma np_int32_truediv (x e : Z) (g : graph) :
  0 <= x < 2 ^ 31 -> 0 <= e ->
  returns (py_truediv x (py_pow2 e)) g (fun q g' => np_int32 q = x / 2 ^ e /\ g' = g).
Proof.
  intros Hx He. destruct (py_truediv_pow2 x e g He) as (q & Hq & Hint).
  exists q, g. split; [exact Hq |]. split; [| reflexivity].
  assert (Hp : 0 < 2 ^ e) by (apply Z.pow_pos_nonneg; lia).
  unfold np_int32. rewrite Hint, Z.quot_div_nonneg by lia.
  pose proof (div_pow2_bound x e (proj1 Hx) He).
  apply wrap32_small. lia.
Qed.

Lemma np_int32_filters (e : Z) :
  0 <= e <= d -> mw * 2 ^ d < 2 ^ 31 ->
  np_int32 (py_mul mw (py_pow2 e)) = mw * 2 ^ e.
Proof.
  intros He Hb. unfold np_int32. rewrite filters_eq by lia.
  pose proof (filters_pos e (proj1 He)).
  assert (2 ^ e <= 2 ^ d) by (apply Z.pow_le_mono_r; lia).
  apply wrap32_small. nia.
Qed.

Lemma lstm_filters (e : Z) :
  0 <= e < d -> 2 <= mw -> mw * 2 ^ d < 2 ^ 31 ->
  np_int32 (py_mul mw (py_pow2 (e - 1))) = mw * 2 ^ e / 2
  /\ 0 < mw * 2 ^ e / 2.
Proof.
  intros He Hmw2 Hb.
  destruct (Z.eq_dec e 0) as [-> | Hne].
  - change (0 - 1) with (-1). unfold np_int32. rewrite py_filters_half.
    rewrite Z.pow_0_r, Z.mul_1_r, Z.quot_div_nonneg by lia.
    assert (1 <= mw / 2) by (apply Z.div_le_lower_bound; lia).
    assert (mw / 2 <= mw) by (apply Z.div_le_upper_bound; lia).
    assert (2 ^ 0 <= 2 ^ d) by (apply Z.pow_le_mono_r; lia).
    rewrite Z.pow_0_r in *.
    split; [apply wrap32_small; nia | lia].
  - rewrite np_int32_filters by lia.
    replace e with (Z.succ (e - 1)) at 2 3 by lia.
    rewrite Z.pow_succ_r by lia.
    replace (mw * (2 * 2 ^ (e - 1))) with (mw * 2 ^ (e - 1) * 2) by lia.
    rewrite Z.div_mul by lia.
    split; [reflexivity | apply filters_pos; lia].
Qed.

Lemma merge_step_returns (j : Z) skip deconv c g :
  0 <= j < d ->
  shape skip = decoder_shape self (d - j - 1) ->
  shape deconv = [L / 2 ^ (d - j - 1); W / 2 ^ (d - j - 1); c] ->
  (Self.LSTM self = 1 -> c = mw * 2 ^ (d - j - 1)) ->
  returns (merge_step self j skip deconv) g
    (fun t g' =>
       exists c', post g [L / 2 ^ (d - j - 1); W / 2 ^ (d - j - 1); c'] 0 0 t g').
Proof.
  intros Hj Hskip Hdec Hc. unfold merge_step. cbv zeta.
  set (e := d - j - 1) in *.
  assert (He : 0 <= e < d) by (unfold e; lia).
  assert (HLe := Lpos e ltac:(lia)).
  assert (HWe := Wpos e ltac:(lia)).
  unfold decoder_shape in Hskip.
  destruct (Z.eqb_spec (Self.LSTM self) 1) as [Hl | Hl].
  - destruct (Hlstm Hl) as (_ & Hmw2 & HLb & HWb & Hb).
    specialize (Hc Hl). subst c.
    assert (Hprod : forall a b c0, prod_dims [1; a; b; c0] = prod_dims [a; b; c0])
      by (intros; unfold prod_dims; cbn [fold_right]; lia).
    assert (Hnn : Forall (fun x => 0 <= x) [1; L / 2 ^ e; W / 2 ^ e; mw * 2 ^ e]).
    { pose proof (filters_pos e (proj1 He)). repeat constructor; lia. }
    eapply returns_bind; [apply (np_int32_truediv L e g); lia |].
    intros l1 ? (Hl1 & ->). rewrite Hl1.
    eapply returns_bind; [apply (np_int32_truediv W e g); lia |].
    intros w1 ? (Hw1 & ->). rewrite Hw1.
    rewrite np_int32_filters by lia.
    eapply returns_bind.
    { apply keras_Reshape_returns; [exact Hnn |]. rewrite Hskip. apply Hprod. }
    intros x1 g1 H1.
    eapply returns_bind; [apply (np_int32_truediv L e g1); lia |].
    intros l2 ? (Hl2 & ->). rewrite Hl2.
    eapply returns_bind; [apply (np_int32_truediv W e g1); lia |].
    intros w2 ? (Hw2 & ->). rewrite Hw2.
    eapply returns_bind.
    { apply keras_Reshape_returns; [exact Hnn |]. rewrite Hdec. apply Hprod. }
    intros x2 g2 H2.
    eapply returns_bind.
    { apply (keras_concatenate_returns x1 x2 g2 [1; L / 2 ^ e; W / 2 ^ e]
               (mw * 2 ^ e) (mw * 2 ^ e)); [exact (proj1 H1) | exact (proj1 H2)]. }
    intros m g3 H3. cbn [app] in H3.
    replace (d - j - 2) with (e - 1) by (unfold e; lia).
    destruct (lstm_filters e He Hmw2 Hb) as (Hf & Hfpos). rewrite Hf.
    eapply returns_weaken.
    + eapply keras_ConvLSTM2D_returns; [exact (proj1 H3) | lia | lia | lia].
    + intros t g4 H4. exists (mw * 2 ^ e / 2). post_solve.
  - destruct (Z.eqb_spec (Self.LSTM self) 0) as [Hz | Hz].
    + eapply returns_weaken.
      * apply (Concat_Block_pair_returns deconv skip g [L / 2 ^ e; W / 2 ^ e] c (mw * 2 ^ e));
          [exact Hdec | exact Hskip].
      * intros t g' H. exists (c + mw * 2 ^ e). exact H.
    + apply returns_ret. exists c. unfold post. repeat split; try lia. exact Hdec.
Qed.

Lemma decoder_shape_split (k : Z) :
  0 <= k < d ->
  decoder_shape self k = [2 * (L / 2 ^ (k + 1)); 2 * (W / 2 ^ (k + 1)); mw * 2 ^ k].
Proof. intros Hk. unfold decoder_shape. rewrite <- Lstep, <- Wstep by lia. reflexivity. Qed.

Lemma attention_gate_returns (e : Z) convs_list skip deconv g :
  map shape convs_list = map (skip_shape self) (seq 0 (Z.to_nat d)) ->
  0 <= e < d ->
  shape skip = decoder_shape self e ->
  shape deconv = decoder_shape self (e + 1) ->
  returns
    (if Self.A_G self =? 1 then
       skip <- py_getitem convs_list e ;;
       Attention_Block skip deconv mw (py_pow2 e)
     else ret skip) g
    (post g (decoder_shape self e) 0 (if Self.A_G self =? 1 then 2 else 0)).
Proof.
  intros Hshapes He Hskip Hdec.
  destruct (Self.A_G self =? 1).
  - eapply returns_bind; [apply (skip_lookup convs_list e g Hshapes He) |].
    intros sk ? (Hsk & ->).
    rewrite decoder_shape_split in * by lia.
    eapply Attention_Block_returns; [exact Hsk | exact Hdec | | |].
    + apply Lpos. lia.
    + apply Wpos. lia.
    + rewrite filters_eq by lia. apply filters_pos. lia.
  - apply returns_ret. unfold post. repeat split; try lia. exact Hskip.
Qed.

Lemma deep_supervision_returns (j : nat) levels deconv g :
  Z.of_nat j < d ->
  shape deconv = decoder_shape self (d - Z.of_nat j) ->
  returns
    (if Self.D_S self =? 1 then
       level <- keras_Conv2D (PyInt 1) (1, 1) (1, 1) valid None
                  (Some ("level" ++ py_str (d - Z.of_nat j))%string) deconv ;;
       ret (levels ++ [NTensor level])
     else ret levels) g
    (fun levels' g' =>
       (exists new, levels' = levels ++ map NTensor new
                    /\ map describe new = levels_emitted self j 1)
       /\ count_layers is_pooling g' = count_layers is_pooling g
       /\ count_layers is_upsampling g' = count_layers is_upsampling g).
Proof.
  intros Hj Hdec. unfold levels_emitted.
  destruct (Self.D_S self =? 1).
  - eapply returns_bind.
    { eapply (keras_Conv2D_1x1 (PyInt 1) None _ deconv g); [exact Hdec | reflexivity | |].
      - apply Lpos. lia.
      - apply Wpos. lia. }
    intros level g1 (H1 & Hname). apply returns_ret. split.
    + exists [level]. split; [reflexivity |].
      cbn [seq map]. unfold describe, level_name, level_shape.
      rewrite Hname, (proj1 H1). reflexivity.
    + post_solve.
  - apply returns_ret. split; [| split; reflexivity].
    exists []. cbn [map]. rewrite app_nil_r. split; reflexivity.
Qed.

Lemma upsample_returns (e : Z) deconv g :
  0 <= e < d ->
  shape deconv = decoder_shape self (e + 1) ->
  returns
    (if Self.is_transconv self then
       deconv <- trans_conv2D deconv mw (py_pow2 e) ;;
       SqueezeExcite deconv (Self.se_ratio self)
     else
       deconv <- upConv_Block deconv ;;
       SqueezeExcite deconv (Self.se_ratio self)) g
    (fun t g' =>
       exists c, post g [L / 2 ^ e; W / 2 ^ e; c] 0 1 t g'
                 /\ (Self.is_transconv self = true -> c = mw * 2 ^ e)).
Proof.
  intros He Hdec. unfold decoder_shape in Hdec.
  pose proof (filters_pos e (proj1 He)) as Hf.
  pose proof (filters_pos (e + 1) ltac:(lia)) as Hf1.
  rewrite (Lstep e He), (Wstep e He).
  destruct (Self.is_transconv self).
  - eapply returns_bind.
    { eapply trans_conv2D_returns; [exact Hdec |]. rewrite filters_eq by lia. exact Hf. }
    intros t1 g1 H1. rewrite filters_eq in H1 by lia.
    eapply returns_weaken.
    + eapply SqueezeExcite_returns; [exact (proj1 H1) | lia | exact Hse].
    + intros t g' H. exists (mw * 2 ^ e). split; [post_solve | reflexivity].
  - eapply returns_bind; [eapply upConv_Block_returns; exact Hdec |].
    intros t1 g1 H1.
    eapply returns_weaken.
    + eapply SqueezeExcite_returns; [exact (proj1 H1) | lia | exact Hse].
    + intros t g' H. exists (mw * 2 ^ (e + 1)). split; [post_solve | discriminate].
Qed.

Lemma decoder_step_returns (j : nat) convs_list deconv levels g :
  map shape convs_list = map (skip_shape self) (seq 0 (Z.to_nat d)) ->
  Z.of_nat j < d ->
  shape deconv = decoder_shape self (d - Z.of_nat j) ->
  returns (decoder_step self convs_list (Z.of_nat j) (deconv, levels)) g
    (fun st g' =>
       post g (decoder_shape self (d - Z.of_nat j - 1)) 0 (ups_per_level self) (fst st) g'
       /\ exists new, snd st = levels ++ map NTensor new
                      /\ map describe new = levels_emitted self j 1).
Proof.
  intros Hshapes Hj Hdec. unfold decoder_step. cbv zeta.
  set (e := d - Z.of_nat j - 1).
  assert (He : 0 <= e < d) by (unfold e; lia).
  assert (Hdec' : shape deconv = decoder_shape self (e + 1)).
  { replace (e + 1) with (d - Z.of_nat j) by (unfold e; lia). exact Hdec. }
  eapply returns_bind; [apply (skip_lookup convs_list e g Hshapes He) |].
  intros skip0 ? (Hskip0 & ->).
  eapply returns_bind;
    [apply (attention_gate_returns e convs_list skip0 deconv g Hshapes He Hskip0 Hdec') |].
  intros skip g1 H1.
  eapply returns_bind; [apply (deep_supervision_returns j levels deconv g1 Hj Hdec) |].
  intros levels' g2 (Hlevels & Hp2 & Hu2).
  eapply returns_bind; [apply (upsample_returns e deconv g2 He Hdec') |].
  intros up g3 (c & H3 & Hc).
  eapply returns_bind.
  { apply (merge_step_returns (Z.of_nat j) skip up c g3); fold e.
    - lia.
    - exact (proj1 H1).
    - exact (proj1 H3).
    - intros Hl. apply Hc. apply (Hlstm Hl). }
  fold e. intros merged g4 (c' & H4).
  assert (HLe := Lpos e ltac:(lia)).
  assert (HWe := Wpos e ltac:(lia)).
  step Conv_Block_level as c1 g5 H5; try lia.
  eapply returns_bind.
  { eapply SqueezeExcite_returns; [exact (proj1 H5) | | exact Hse].
    pose proof (filters_pos e (proj1 He)). lia. }
  intros c2 g6 H6.
  step Conv_Block_level as c3 g7 H7; try lia.
  apply returns_ret. cbn [fst snd]. split; [| exact Hlevels].
  unfold ups_per_level, decoder_shape.
  destruct (Self.A_G self =? 1); post_solve.
Qed.

Lemma levels_emitted_cons (a n : nat) :
  levels_emitted self a (S n) = levels_emitted self a 1 ++ levels_emitted self (S a) n.
Proof.
  unfold levels_emitted. destruct (Self.D_S self =? 1); reflexivity.
Qed.

Lemma decoder_loop_returns (n a : nat) convs_list deconv levels g :
  map shape convs_list = map (skip_shape self) (seq 0 (Z.to_nat d)) ->
  Z.of_nat a + Z.of_nat n = d ->
  shape deconv = decoder_shape self (d - Z.of_nat a) ->
  returns
    (for_each (py_range (Z.of_nat a) d) (decoder_step self convs_list) (deconv, levels)) g
    (fun st g' =>
       post g (decoder_shape self 0) 0 (n * (ups_per_level self)) (fst st) g'
       /\ exists new, snd st = levels ++ map NTensor new
                      /\ map describe new = levels_emitted self a n).
Proof.
  intros Hshapes. revert a deconv levels g.
  induction n as [| n IH]; intros a deconv levels g Han Hdec.
  - rewrite py_range_nil by lia. apply returns_ret. cbn [fst snd]. split.
    + replace (d - Z.of_nat a) with 0 in Hdec by lia.
      unfold post. repeat split; try lia. exact Hdec.
    + exists []. cbn [map]. rewrite app_nil_r. split; [reflexivity |].
      unfold levels_emitted. destruct (Self.D_S self =? 1); reflexivity.
  - rewrite py_range_cons by lia. cbn [for_each].
    eapply returns_bind;
      [apply (decoder_step_returns a convs_list deconv levels g Hshapes); [lia | exact Hdec] |].
    intros [deconv1 levels1] g1 (H1 & new1 & Hl1 & Hd1). cbn [fst snd] in H1, Hl1.
    eapply returns_weaken.
    + replace (Z.of_nat a + 1) with (Z.of_nat (S a)) by lia.
      apply (IH (S a) deconv1 levels1 g1); [lia |].
      replace (d - Z.of_nat (S a)) with (d - Z.of_nat a - 1) by lia.
      exact (proj1 H1).
    + intros [deconv2 levels2] g2 (H2 & new2 & Hl2 & Hd2). cbn [fst snd] in *.
      split.
      * eapply post_trans; [exact H1 | exact H2 | lia | cbn [Nat.mul]; lia].
      * exists (new1 ++ new2). subst levels1 levels2.
        rewrite map_app, app_assoc. split; [reflexivity |].
        rewrite map_app, Hd1, Hd2. symmetry. apply levels_emitted_cons.
Qed.

(** The whole network up to the last decoder tensor. *)

Hypothesis Hnc : 1 <= Self.num_channel self.
Hypothesis Hfn : Self.A_E self = 1 -> 1 <= Self.feature_number self.

Lemma keras_Input_returns (shp : list Z) (g : graph) :
  Forall (fun x => 0 <= x) shp -> returns (keras_Input shp) g (post g shp 0 0).
Proof.
  intros Hnn. unfold keras_Input.
  replace (forallb (fun x => 0 <=? x) shp) with true.
  - eapply returns_weaken; [apply returns_new_node |]. calc. tauto.
  - symmetry. apply forallb_forall. intros x Hx.
    rewrite Forall_forall in Hnn. apply Z.leb_le. auto.
Qed.

Lemma bottleneck_returns {B : Type} pool g c (k : KerasTensor -> M B)
    (Q : B -> graph -> Prop) :
  shape pool = [L / 2 ^ d; W / 2 ^ d; c] ->
  (forall conv g', post g (decoder_shape self d) 0 0 conv g' -> returns (k conv) g' Q) ->
  returns
    (conv <- dense_block pool mw ks (py_pow2 d) (Self.dense_loop self - 1) ;;
     conv <- (if Self.A_E self =? 1
              then Feature_Extraction_Block conv mw (Self.feature_number self)
              else ret conv) ;;
     conv <- Conv_Block conv mw ks (py_pow2 d) ;;
     conv <- Conv_Block conv mw ks (py_pow2 d) ;;
     k conv) g Q.
Proof.
  intros Hs Hk.
  assert (HLd := Lpos d ltac:(lia)).
  assert (HWd := Wpos d ltac:(lia)).
  eapply returns_bind.
  { eapply dense_block_returns; [exact Hs | lia | lia | lia |].
    rewrite filters_eq by lia. apply filters_pos. lia. }
  intros c0 g1 H0.
  eapply returns_bind with
    (P := fun t g' => exists c', post g [L / 2 ^ d; W / 2 ^ d; c'] 0 0 t g').
  { destruct (Z.eqb_spec (Self.A_E self) 1) as [Hae | Hae].
    - eapply returns_weaken.
      + eapply Feature_Extraction_Block_returns;
          [exact (proj1 H0) | lia | lia | lia |]. specialize (Hfn Hae). lia.
      + intros t g' H. exists mw. post_solve.
    - apply returns_ret. eexists. exact H0. }
  intros c1 g2 (c' & H1).
  step Conv_Block_level as c2 g3 H2; try lia.
  step Conv_Block_level as c3 g4 H3; try lia.
  apply Hk. unfold decoder_shape. post_solve.
Qed.

Lemma encode_decode_returns (g : graph) :
  returns (encode_decode self) g
    (fun r g' =>
       let '(inputs, deconv, levels) := r in
       shape inputs = [L; W; Self.num_channel self]
       /\ shape deconv = [L; W; mw]
       /\ (exists new, levels = map NTensor new
                       /\ map describe new = levels_emitted self 0 (Z.to_nat d))
       /\ count_layers is_pooling g'
          = (count_layers is_pooling g + Z.to_nat d)%nat
       /\ count_layers is_upsampling g'
          = (count_layers is_upsampling g + Z.to_nat d * (ups_per_level self))%nat).
Proof.
  unfold encode_decode. cbv zeta.
  assert (HL0 := Lpos 0 ltac:(lia)).
  assert (HW0 := Wpos 0 ltac:(lia)).
  rewrite Z.pow_0_r, Z.div_1_r in HL0, HW0.
  eapply returns_bind.
  { apply keras_Input_returns. repeat constructor; lia. }
  intros inputs g1 H1.
  eapply returns_bind.
  { apply (encoder_loop_returns (Z.to_nat d) 0 inputs [] (Self.num_channel self) g1).
    - lia.
    - cbn [Z.of_nat]. rewrite Z.pow_0_r, !Z.div_1_r. exact (proj1 H1).
    - split; reflexivity. }
  intros [pool convs] g2 (H2 & Hconvs). cbn [fst snd] in H2, Hconvs.
  assert (Hg2 : post g [L / 2 ^ d; W / 2 ^ d;
                        match Z.to_nat d with
                        | O => Self.num_channel self
                        | S _ => mw * 2 ^ (d - 1)
                        end] (Z.to_nat d) 0 pool g2)
    by (eapply post_trans; [exact H1 | exact H2 | lia | lia]).
  eapply bottleneck_returns; [exact (proj1 H2) |].
  intros conv g3 H3.
  eapply returns_bind.
  { apply (decoder_loop_returns (Z.to_nat d) 0 (dict_values convs) conv [] g3).
    - unfold dict_values. rewrite map_map. exact (proj2 Hconvs).
    - lia.
    - cbn [Z.of_nat]. rewrite Z.sub_0_r. exact (proj1 H3). }
  intros [deconv levels] g4 (H4 & new & Hlevels & Hnew). cbn [fst snd] in H4, Hlevels.
  cbn [app] in Hlevels.
  apply returns_ret.
  unfold decoder_shape in H4. rewrite Z.pow_0_r, !Z.div_1_r, Z.mul_1_r in H4.
  split; [exact (proj1 H1) |]. split; [exact (proj1 H4) |].
  split; [exists new; split; assumption |].
  post_solve.
Qed.

End Shapes.

(** ** The whole method *)

Lemma valid_dims_facts (self : Self.t) :
  valid_dims self = true ->
  1 <= Self.model_depth self /\ 1 <= Self.model_width self
  /\ 1 <= Self.kernel_size self /\ 1 <= Self.num_channel self
  /\ 1 <= Self.output_nums self /\ 1 <= Self.se_ratio self
  /\ (Self.A_E self = 1 -> 1 <= Self.feature_number self)
  /\ exists l0 w0, 0 < l0 /\ 0 < w0
       /\ Self.length self = l0 * 2 ^ Self.model_depth self
       /\ Self.width self = w0 * 2 ^ Self.model_depth self.
Proof.
  unfold valid_dims. intros H.
  repeat (apply andb_prop in H; destruct H as (H & ?)).
  repeat match goal with
         | H : (_ <=? _) = true |- _ => apply Z.leb_le in H
         | H : (_ =? _) = true |- _ => apply Z.eqb_eq in H
         end.
  repeat split; try assumption.
  - intros Hae. rewrite Hae in *. cbn in *. apply Z.leb_le. assumption.
  - assert (Hp : 0 < 2 ^ Self.model_depth self) by (apply Z.pow_pos_nonneg; lia).
    exists (Self.length self / 2 ^ Self.model_depth self),
           (Self.width self / 2 ^ Self.model_depth self).
    assert (HL : Self.length self
                 = Self.length self / 2 ^ Self.model_depth self * 2 ^ Self.model_depth self).
    { rewrite Z.mul_comm. apply Z.div_exact; lia. }
    assert (HW : Self.width self
                 = Self.width self / 2 ^ Self.model_depth self * 2 ^ Self.model_depth self).
    { rewrite Z.mul_comm. apply Z.div_exact; lia. }
    repeat split; try assumption.
    + apply Z.div_str_pos. split; [lia |]. apply Z.divide_pos_le; [lia |].
      exists (Self.length self / 2 ^ Self.model_depth self). exact HL.
    + apply Z.div_str_pos. split; [lia |]. apply Z.divide_pos_le; [lia |].
      exists (Self.width self / 2 ^ Self.model_depth self). exact HW.
Qed.

Lemma lstm_ready_facts (self : Self.t) :
  lstm_ready self = true ->
  Self.LSTM self = 1 ->
  Self.is_transconv self = true /\ 2 <= Self.model_width self
  /\ Self.length self < 2 ^ 31 /\ Self.width self < 2 ^ 31
  /\ Self.model_width self * 2 ^ Self.model_depth self < 2 ^ 31.
Proof.
  unfold lstm_ready. intros H Hl. rewrite Hl in H. cbn [Z.eqb Pos.eqb negb orb] in H.
  repeat (apply andb_prop in H; destruct H as (H & ?)).
  repeat match goal with
         | H : (_ <=? _) = true |- _ => apply Z.leb_le in H
         | H : (_ <? _) = true |- _ => apply Z.ltb_lt in H
         end.
  repeat split; assumption.
Qed.

Lemma encode_decode_valid (self : Self.t) (g : graph) :
  valid_dims self = true -> lstm_ready self = true ->
  returns (encode_decode self) g
    (fun r g' =>
       let '(inputs, deconv, levels) := r in
       shape inputs = [Self.length self; Self.width self; Self.num_channel self]
       /\ shape deconv = [Self.length self; Self.width self; Self.model_width self]
       /\ (exists new, levels = map NTensor new
                       /\ map describe new
                          = levels_emitted self 0 (Z.to_nat (Self.model_depth self)))
       /\ count_layers is_pooling g'
          = (count_layers is_pooling g + Z.to_nat (Self.model_depth self))%nat
       /\ count_layers is_upsampling g'
          = (count_layers is_upsampling g
             + Z.to_nat (Self.model_depth self) * ups_per_level self)%nat).
Proof.
  intros Hv Hl.
  destruct (valid_dims_facts self Hv)
    as (Hd & Hmw & Hks & Hnc & Hon & Hse & Hfn & l0 & w0 & Hl0 & Hw0 & HL & HW).
  eapply encode_decode_returns; eauto using lstm_ready_facts.
Qed.

Lemma flatten_tensors (l : list KerasTensor) : flat_map flatten (map NTensor l) = l.
Proof. induction l as [| t l IH]; cbn [map flat_map flatten app]; congruence. Qed.

Lemma rev_countdown {A : Type} (F : Z -> A) (n : nat) :
  rev (map (fun j => F (Z.of_nat n - Z.of_nat j)) (seq 0 n))
  = map (fun k => F (Z.of_nat k)) (seq 1 n).
Proof.
  induction n as [| n IH].
  - reflexivity.
  - change (seq 0 (S n)) with (0%nat :: seq 1 n). cbn [map rev].
    rewrite <- (seq_shift n 0) at 1. rewrite map_map.
    rewrite (map_ext _ (fun j => F (Z.of_nat n - Z.of_nat j)))
      by (intros j; f_equal; lia).
    rewrite IH, (seq_S n 1), map_app. cbn [map].
    repeat (f_equal; try lia).
Qed.

Lemma guard_false_of_valid (self : Self.t) : valid_dims self = true -> guard self = false.
Proof.
  intros Hv.
  destruct (valid_dims_facts self Hv)
    as (Hd & Hmw & Hks & Hnc & _ & _ & _ & l0 & w0 & Hl0 & _ & HL & _).
  assert (0 < Self.length self).
  { rewrite HL. apply Z.mul_pos_pos; [exact Hl0 |]. apply Z.pow_pos_nonneg; lia. }
  unfold guard.
  rewrite !(proj2 (Z.eqb_neq _ 0)) by lia. reflexivity.
Qed.

Lemma output_stage_unknown (self : Self.t) (deconv : KerasTensor) (g : graph) :
  known_problem_type self = false ->
  output_stage self deconv g = Ok (NList []) g.
Proof.
  unfold known_problem_type, output_stage. intros H.
  apply orb_false_elim in H. destruct H as (H1 & H2). rewrite H1, H2. reflexivity.
Qed.

Lemma output_stage_returns (self : Self.t) (deconv : KerasTensor) (g : graph) c :
  shape deconv = [Self.length self; Self.width self; c] ->
  0 < Self.length self -> 0 < Self.width self -> 1 <= Self.output_nums self ->
  returns (output_stage self deconv) g
    (fun o g' =>
       map describe (flatten o)
       = (if known_problem_type self
          then [(Some "out", [Self.length self; Self.width self; Self.output_nums self])]
          else [])
       /\ count_layers is_pooling g' = count_layers is_pooling g
       /\ count_layers is_upsampling g' = count_layers is_upsampling g).
Proof.
  intros Hs HL HW Hon.
  assert (Hconv : forall act,
    returns (out <- keras_Conv2D (PyInt (Self.output_nums self)) (1, 1) (1, 1) valid
                      act (Some "out") deconv ;; ret (NTensor out)) g
      (fun o g' =>
         map describe (flatten o)
         = [(Some "out", [Self.length self; Self.width self; Self.output_nums self])]
         /\ count_layers is_pooling g' = count_layers is_pooling g
         /\ count_layers is_upsampling g' = count_layers is_upsampling g)).
  { intros act. eapply returns_bind.
    - eapply keras_Conv2D_1x1; [exact Hs | cbn [py_int]; lia | exact HL | exact HW].
    - intros out g1 (H1 & Hname). apply returns_ret.
      cbn [flatten map]. unfold describe. rewrite Hname, (proj1 H1).
      cbn [py_int]. post_solve. }
  unfold output_stage, known_problem_type.
  destruct (String.eqb (Self.problem_type self) "Classification"); [apply Hconv |].
  destruct (String.eqb (Self.problem_type self) "Regression"); [apply Hconv |].
  apply returns_ret. cbn. auto.
Qed.

Lemma keras_Model_accepts (eo : bool) ins outs g :
  flatten outs <> [] \/ eo = true ->
  keras_Model eo ins outs g = Ok (mkModel ins (flatten outs)) g.
Proof.
  intros H. unfold keras_Model.
  destruct (flatten outs) as [| t l].
  - destruct H as [H | ->]; [congruence | reflexivity].
  - reflexivity.
Qed.

Lemma SEDUNet_returns (eo : bool) (self : Self.t) (g : graph) :
  valid_dims self = true -> lstm_ready self = true ->
  known_problem_type self = true \/ eo = true ->
  returns (SEDUNet eo self) g
    (fun m g' =>
       map describe (outputs m) = expected_outputs self
       /\ map shape (inputs m)
          = [[Self.length self; Self.width self; Self.num_channel self]]
       /\ count_layers is_pooling g'
          = (count_layers is_pooling g + Z.to_nat (Self.model_depth self))%nat
       /\ count_layers is_upsampling g'
          = (count_layers is_upsampling g
             + Z.to_nat (Self.model_depth self) * ups_per_level self)%nat).
Proof.
  intros Hv Hl Hk. unfold SEDUNet. rewrite (guard_false_of_valid self Hv).
  destruct (valid_dims_facts self Hv)
    as (Hd & Hmw & Hks & Hnc & Hon & Hse & Hfn & l0 & w0 & Hl0 & Hw0 & HL & HW).
  assert (HLpos : 0 < Self.length self).
  { rewrite HL. apply Z.mul_pos_pos; [exact Hl0 |]. apply Z.pow_pos_nonneg; lia. }
  assert (HWpos : 0 < Self.width self).
  { rewrite HW. apply Z.mul_pos_pos; [exact Hw0 |]. apply Z.pow_pos_nonneg; lia. }
  eapply returns_bind; [apply (encode_decode_valid self g Hv Hl) |].
  intros [[inp deconv] levels] g1 (Hin & Hdec & (new & Hlevels & Hnew) & Hp1 & Hu1).
  eapply returns_bind;
    [apply (output_stage_returns self deconv g1 _ Hdec HLpos HWpos Hon) |].
  intros o g2 (Ho & Hp2 & Hu2).
  assert (Hone : flatten (NList [o]) = flatten o)
    by (cbn [flatten flat_map]; apply app_nil_r).
  assert (Hacc : flatten o <> [] \/ eo = true).
  { destruct Hk as [Hk | Hk]; [left | right; exact Hk].
    rewrite Hk in Ho. intros E. rewrite E in Ho. discriminate Ho. }
  unfold returns, bind. rewrite keras_Model_accepts by (rewrite Hone; exact Hacc).
  assert (Hexp : expected_outputs self
                 = map describe (flatten o)
                   ++ (if Self.D_S self =? 1 then map describe (rev new) else [])).
  { unfold expected_outputs. rewrite Ho. f_equal.
    unfold levels_emitted in Hnew.
    destruct (Self.D_S self =? 1); [| reflexivity].
    rewrite map_rev, Hnew.
    remember (Z.to_nat (Self.model_depth self)) as n eqn:Hn.
    assert (Hdn : Self.model_depth self = Z.of_nat n) by lia.
    rewrite Hdn. symmetry.
    apply (rev_countdown (fun k => (Some (level_name k), level_shape self k))). }
  destruct (Self.D_S self =? 1) eqn:Hds.
  - assert (Hall : flatten (NList (rev (levels ++ [o]))) = flatten o ++ rev new).
    { cbn [flatten]. rewrite rev_app_distr. cbn [rev app flat_map].
      subst levels. rewrite <- map_rev, flatten_tensors. reflexivity. }
    rewrite keras_Model_accepts.
    + eexists _, _. split; [reflexivity |]. cbn [outputs inputs map].
      rewrite Hall, map_app, Hexp, Hin. repeat split; lia.
    + rewrite Hall. destruct Hacc as [Hne | He]; [left | right; exact He].
      destruct (flatten o); [congruence | discriminate].
  - eexists _, _. split; [reflexivity |]. cbn [outputs inputs map].
    rewrite Hone, Hexp, app_nil_r, Hin. repeat split; lia.
Qed.

(** ** What any returned model looks like *)

(** The lemmas above show that well-sized configurations are built.  The
    ones below hold for every configuration: they read off, from a run that
    returned, which outputs the model has. *)

Lemma bind_Ok {A B : Type} (m : M A) (k : A -> M B) (g : graph) (b : B) (g' : graph) :
  bind m k g = Ok b g' -> exists a g1, m g = Ok a g1 /\ k a g1 = Ok b g'.
Proof.
  unfold bind. destruct (m g) as [a g1 | e g1]; [| discriminate].
  intros H. exists a, g1. split; [reflexivity | exact H].
Qed.

Lemma keras_Conv2D_name f ks st p act name x g t g' :
  keras_Conv2D f ks st p act name x g = Ok t g' -> tensor_name t = name.
Proof.
  unfold keras_Conv2D.
  destruct (negb _); [discriminate |].
  destruct (shape x) as [| h [| w [| c [| ? ?]]]]; try discriminate.
  destruct (window_fits _ _ _); [| discriminate].
  unfold new_node. intros H. injection H as <- _. reflexivity.
Qed.

Lemma py_range_seq (n : Z) : py_range 0 n = map Z.of_nat (seq 0 (Z.to_nat n)).
Proof.
  unfold py_range. rewrite Z.sub_0_r. apply map_ext. intros k. lia.
Qed.

Lemma decoder_step_levels (self : Self.t) cl (j : Z) dc (lv : list nest) g dc' lv' g' :
  decoder_step self cl j (dc, lv) g = Ok (dc', lv') g' ->
  exists new,
    lv' = lv ++ map NTensor new
    /\ map tensor_name new
       = if Self.D_S self =? 1
         then [Some (level_name (Self.model_depth self - j))] else [].
Proof.
  unfold decoder_step. intros H.
  apply bind_Ok in H as (skip0 & g1 & _ & H).
  apply bind_Ok in H as (skip & g2 & _ & H).
  apply bind_Ok in H as (lv1 & g3 & Hlv & H).
  apply bind_Ok in H as (d1 & g4 & _ & H).
  apply bind_Ok in H as (d2 & g5 & _ & H).
  apply bind_Ok in H as (d3 & g6 & _ & H).
  apply bind_Ok in H as (d4 & g7 & _ & H).
  apply bind_Ok in H as (d5 & g8 & _ & H).
  injection H as _ <- _.
  destruct (Self.D_S self =? 1).
  - apply bind_Ok in Hlv as (level & g9 & Hconv & Hret).
    injection Hret as <- _. apply keras_Conv2D_name in Hconv.
    exists [level]. cbn [map]. rewrite Hconv. split; reflexivity.
  - injection Hlv as <- _. exists []. cbn [map]. rewrite app_nil_r. split; reflexivity.
Qed.

Lemma decoder_loop_levels (self : Self.t) cl (js : list Z) dc (lv : list nest) g dc' lv' g' :
  for_each js (decoder_step self cl) (dc, lv) g = Ok (dc', lv') g' ->
  exists new,
    lv' = lv ++ map NTensor new
    /\ map tensor_name new
       = if Self.D_S self =? 1
         then map (fun j => Some (level_name (Self.model_depth self - j))) js else [].
Proof.
  revert dc lv g. induction js as [| j js IH]; intros dc lv g H; cbn [for_each] in H.
  - injection H as _ <- _. exists []. cbn [map]. rewrite app_nil_r.
    split; [reflexivity |]. destruct (Self.D_S self =? 1); reflexivity.
  - apply bind_Ok in H as ([dc1 lv1] & g1 & Hstep & H).
    apply decoder_step_levels in Hstep as (new1 & -> & Hn1).
    apply IH in H as (new2 & -> & Hn2).
    exists (new1 ++ new2). rewrite !map_app, app_assoc, Hn1, Hn2.
    split; [reflexivity |]. destruct (Self.D_S self =? 1); reflexivity.
Qed.

Lemma encode_decode_emitted (self : Self.t) g inp dc (lv : list nest) g' :
  encode_decode self g = Ok (inp, dc, lv) g' ->
  exists new,
    lv = map NTensor new
    /\ map tensor_name new
       = if Self.D_S self =? 1
         then map (fun j => Some (level_name (Self.model_depth self - j)))
                  (py_range 0 (Self.model_depth self))
         else [].
Proof.
  unfold encode_decode. intros H.
  apply bind_Ok in H as (inputs0 & g1 & _ & H).
  apply bind_Ok in H as ([pool convs] & g2 & _ & H).
  apply bind_Ok in H as (c1 & g3 & _ & H).
  apply bind_Ok in H as (c2 & g4 & _ & H).
  apply bind_Ok in H as (c3 & g5 & _ & H).
  apply bind_Ok in H as (c4 & g6 & _ & H).
  apply bind_Ok in H as ([dc1 lv1] & g7 & Hloop & H).
  injection H as _ _ <- _.
  apply decoder_loop_levels in Hloop as (new & -> & Hnew).
  exists new. split; [reflexivity | exact Hnew].
Qed.

Lemma encode_decode_levels (self : Self.t) g inp dc (lv : list nest) g' :
  encode_decode self g = Ok (inp, dc, lv) g' ->
  exists new,
    lv = map NTensor new
    /\ map tensor_name (rev new)
       = if Self.D_S self =? 1
         then map (fun k => Some (level_name (Z.of_nat k)))
                  (seq 1 (Z.to_nat (Self.model_depth self)))
         else [].
Proof.
  intros H. apply encode_decode_emitted in H as (new & -> & Hnew).
  exists new. split; [reflexivity |].
  rewrite map_rev, Hnew.
  destruct (Self.D_S self =? 1); [| reflexivity].
  rewrite py_range_seq, map_map.
  destruct (Z.le_gt_cases 0 (Self.model_depth self)) as [Hd | Hd].
  - remember (Z.to_nat (Self.model_depth self)) as n eqn:Hn.
    assert (Hdn : Self.model_depth self = Z.of_nat n) by lia.
    rewrite Hdn.
    apply (rev_countdown (fun k => Some (level_name k))).
  - replace (Z.to_nat (Self.model_depth self)) with 0%nat by lia. reflexivity.
Qed.

Lemma output_stage_name (self : Self.t) dc g o g' :
  output_stage self dc g = Ok o g' ->
  map tensor_name (flatten o) = if known_problem_type self then [Some "out"] else [].
Proof.
  unfold output_stage, known_problem_type.
  destruct (String.eqb (Self.problem_type self) "Classification").
  - intros H. apply bind_Ok in H as (out & g1 & Hconv & Hret).
    injection Hret as <- _. apply keras_Conv2D_name in Hconv.
    cbn [flatten map orb]. rewrite Hconv. reflexivity.
  - destruct (String.eqb (Self.problem_type self) "Regression").
    + intros H. apply bind_Ok in H as (out & g1 & Hconv & Hret).
      injection Hret as <- _. apply keras_Conv2D_name in Hconv.
      cbn [flatten map orb]. rewrite Hconv. reflexivity.
    + intros H. injection H as <- _. reflexivity.
Qed.

Lemma keras_Model_Ok (eo : bool) ins outs g m g' :
  keras_Model eo ins outs g = Ok m g' -> outputs m = flatten outs.
Proof.
  unfold keras_Model. destruct (flatten outs) as [| t l].
  - destruct eo; [| discriminate]. intros H. injection H as <- _. reflexivity.
  - intros H. injection H as <- _. reflexivity.
Qed.

Lemma SEDUNet_output_names (eo : bool) (self : Self.t) g m g' :
  SEDUNet eo self g = Ok m g' ->
  map tensor_name (outputs m)
  = (if known_problem_type self then [Some "out"] else [])
    ++ (if Self.D_S self =? 1
        then map (fun k => Some (level_name (Z.of_nat k)))
                 (seq 1 (Z.to_nat (Self.model_depth self)))
        else []).
Proof.
  unfold SEDUNet. destruct (guard self); [discriminate |]. intros H.
  apply bind_Ok in H as ([[inp dc] lv] & g1 & Hed & H).
  apply bind_Ok in H as (o & g2 & Hout & H).
  apply bind_Ok in H as (model & g3 & Hmodel & H).
  apply encode_decode_levels in Hed as (new & -> & Hnew).
  apply output_stage_name in Hout.
  destruct (Self.D_S self =? 1).
  - apply keras_Model_Ok in H. rewrite H. cbn [flatten].
    rewrite rev_app_distr. cbn [rev app flat_map].
    rewrite <- map_rev, flatten_tensors, map_app, Hout, Hnew. reflexivity.
  - injection H as <- _. apply keras_Model_Ok in Hmodel. rewrite Hmodel.
    cbn [flatten flat_map]. rewrite !app_nil_r. exact Hout.
Qed.

(** Why [lstm_ready] asks for the transposed convolution: after the
    non-learned upsampling the decoder tensor keeps the channels of the
    level below, twice what the reshape of the recurrent merge expects, and
    the engine rejects the reshape. *)
Example lstm_with_upsampling_raises :
  exists g',
    SEDUNet true scenario_lstm_upsampling []
    = Raise (ValueError "keras: total size of new array must be unchanged") g'.
Proof. eexists. vm_compute. reflexivity. Qed.

(** ** What any run that returns has built *)

Lemma keras_Reshape_eq target x g :
  Forall (fun d => 0 <= d) target -> prod_dims target = prod_dims (shape x) ->
  keras_Reshape target x g
  = Ok (mkTensor target (Reshape target) (List.length g))
       (g ++ [mkNode (Reshape target) [node_id x] target]).
Proof.
  intros Hpos Hprod. unfold keras_Reshape.
  replace (forallb (fun d => 0 <=? d) target) with true.
  - rewrite (proj2 (Z.eqb_eq _ _) Hprod). reflexivity.
  - symmetry. apply forallb_forall. intros d Hd.
    rewrite Forall_forall in Hpos. apply Z.leb_le. auto.
Qed.

Lemma keras_concatenate_eq a b g pre ca cb :
  shape a = pre ++ [ca] -> shape b = pre ++ [cb] ->
  keras_concatenate a b g
  = Ok (mkTensor (pre ++ [ca + cb]) Concatenate (List.length g))
       (g ++ [mkNode Concatenate [node_id a; node_id b] (pre ++ [ca + cb])]).
Proof.
  intros Ha Hb. unfold keras_concatenate.
  destruct (shape a) eqn:E1; [destruct pre; discriminate |].
  destruct (shape b) eqn:E2; [destruct pre; discriminate |].
  rewrite Ha, Hb, !removelast_last, !last_last, list_eqb_refl. reflexivity.
Qed.

Lemma keras_ConvLSTM2D_eq filters x g t h w c :
  shape x = [t; h; w; c] -> 0 < filters -> 0 < h -> 0 < w ->
  keras_ConvLSTM2D filters (3, 3) same false true x g
  = Ok (mkTensor [h; w; filters] (ConvLSTM2D filters (3, 3) same false true) (List.length g))
       (g ++ [mkNode (ConvLSTM2D filters (3, 3) same false true) [node_id x] [h; w; filters]]).
Proof.
  intros Hs Hf Hh Hw. unfold keras_ConvLSTM2D.
  rewrite Hs, (proj2 (Z.ltb_lt _ _) Hf). cbn [fst snd].
  rewrite !conv_output_length_same. reflexivity.
Qed.


Lemma bind_of_Ok {A B : Type} (m : M A) (k : A -> M B) (g : graph) (a : A) (g1 : graph) :
  m g = Ok a g1 -> bind m k g = k a g1.
Proof. intros H. unfold bind. rewrite H. reflexivity. Qed.

Lemma bind4_ret_Ok {A B C D E : Type} (m1 : M A) (m2 : A -> M B) (m3 : B -> M C)
    (m4 : C -> M D) (k : D -> M E) (g : graph) (v : D) (g' : graph) :
  (a <- m1 ;; b <- m2 a ;; c <- m3 b ;; d <- m4 c ;; ret d) g = Ok v g' ->
  (a <- m1 ;; b <- m2 a ;; c <- m3 b ;; d <- m4 c ;; k d) g = k v g'.
Proof.
  unfold bind, ret.
  destruct (m1 g) as [a g1 |]; [| discriminate].
  destruct (m2 a g1) as [b g2 |]; [| discriminate].
  destruct (m3 b g2) as [c g3 |]; [| discriminate].
  destruct (m4 c g3) as [d g4 |]; [| discriminate].
  intros H. injection H as -> ->. reflexivity.
Qed.






Lemma wrap32_le (z : Z) : 0 <= z -> wrap32 z <= z.
Proof.
  intros Hz. unfold wrap32.
  pose proof (Z.mod_le (z + 2 ^ 31) (2 ^ 32) ltac:(lia) ltac:(lia)). lia.
Qed.

Lemma wrap32_lt (z : Z) : wrap32 z < 2 ^ 31.
Proof.
  unfold wrap32. pose proof (Z.mod_pos_bound (z + 2 ^ 31) (2 ^ 32) ltac:(lia)). lia.
Qed.

Lemma prod3_squeeze (a b c a' b' c' : Z) :
  0 < a -> 0 < b -> 0 < c ->
  0 <= a' <= a -> 0 <= b' <= b -> 0 <= c' <= c ->
  a' * b' * c' = a * b * c -> a' = a /\ b' = b /\ c' = c.
Proof.
  intros Ha Hb Hc Ha' Hb' Hc' H.
  assert (Hab : a' * b' <= a * b) by nia.
  assert (H1 : a' * b' * c' <= a * b * c') by nia.
  assert (H2 : a * b * c' <= a * b * c) by nia.
  assert (Hc2 : c' = c) by nia. subst c'.
  assert (Hab2 : a' * b' = a * b) by nia.
  assert (Ha2 : a' = a) by nia. subst a'.
  assert (b' = b) by nia. auto.
Qed.


Section Partial.

Variable self : Self.t.
Variables l0 w0 : Z.

Local Abbreviation d := (Self.model_depth self).
Local Abbreviation mw := (Self.model_width self).
Local Abbreviation ks := (Self.kernel_size self).
Local Abbreviation L := (Self.length self).
Local Abbreviation W := (Self.width self).

Hypothesis Hd : 1 <= d.
Hypothesis Hmw : 1 <= mw.
Hypothesis Hks : 1 <= ks.
Hypothesis HL : L = l0 * 2 ^ d.
Hypothesis HW : W = w0 * 2 ^ d.
Hypothesis Hl0 : 0 < l0.
Hypothesis Hw0 : 0 < w0.
Hypothesis Hse : 1 <= Self.se_ratio self.
Hypothesis Hnc : 1 <= Self.num_channel self.
Hypothesis Hfn : Self.A_E self = 1 -> 1 <= Self.feature_number self.

(** The recurrent merge, read backwards: if it returns, the reshapes were
    accepted, so no size wrapped around in [np.int32], the decoder tensor
    has as many elements as the skip tensor, the cell got at least one
    filter, and the four nodes are the expected ones. *)
Lemma merge_step_lstm_Ok (j : Z) skip deconv g t g' :
  Self.LSTM self = 1 -> 0 <= j < d ->
  shape skip = decoder_shape self (d - j - 1) ->
  merge_step self j skip deconv g = Ok t g' ->
  let h := L / 2 ^ (d - j - 1) in
  let w := W / 2 ^ (d - j - 1) in
  let c := mw * 2 ^ (d - j - 1) in
  let cell := ConvLSTM2D (c / 2) (3, 3) same false true in
  t = mkTensor [h; w; c / 2] cell (List.length g + 3)
  /\ g' = g ++ [mkNode (Reshape [1; h; w; c]) [node_id skip] [1; h; w; c];
               mkNode (Reshape [1; h; w; c]) [node_id deconv] [1; h; w; c];
               mkNode Concatenate [List.length g; (List.length g + 1)%nat] [1; h; w; c + c];
               mkNode cell [(List.length g + 2)%nat] [h; w; c / 2]]
  /\ prod_dims (shape deconv) = h * w * c
  /\ 2 <= c.
Proof.
  intros Hl Hj Hskip H h w c cell.
  set (e := d - j - 1) in *.
  assert (He : 0 <= e < d) by (unfold e; lia).
  assert (Hp : 0 < 2 ^ e) by (apply Z.pow_pos_nonneg; lia).
  assert (Hh : 0 < h) by (apply (div_pow2_pos _ l0 _ e HL Hl0); lia).
  assert (Hw : 0 < w) by (apply (div_pow2_pos _ w0 _ e HW Hw0); lia).
  assert (Hc : 0 < c) by (apply Z.mul_pos_pos; [lia | exact Hp]).
  assert (HLnn : 0 <= L) by (rewrite HL; apply Z.mul_nonneg_nonneg; [lia | apply Z.pow_nonneg; lia]).
  assert (HWnn : 0 <= W) by (rewrite HW; apply Z.mul_nonneg_nonneg; [lia | apply Z.pow_nonneg; lia]).
  unfold merge_step in H. rewrite Hl, Z.eqb_refl in H. cbv zeta in H. fold e in H.
  replace (d - j - 2) with (e - 1) in H by (unfold e; lia).
  assert (Hdivl : forall q, py_int q = Z.quot L (2 ^ e) -> np_int32 q = wrap32 h).
  { intros q Hq. unfold np_int32. rewrite Hq, Z.quot_div_nonneg by lia. reflexivity. }
  assert (Hdivw : forall q, py_int q = Z.quot W (2 ^ e) -> np_int32 q = wrap32 w).
  { intros q Hq. unfold np_int32. rewrite Hq, Z.quot_div_nonneg by lia. reflexivity. }
  assert (Hfc : np_int32 (py_mul mw (py_pow2 e)) = wrap32 c).
  { unfold np_int32. rewrite py_filters by lia. reflexivity. }
  rewrite Hfc in H.
  destruct (py_truediv_pow2 L e g (proj1 He)) as (l1 & Hl1 & Hl1v).
  rewrite (bind_of_Ok _ _ _ _ _ Hl1), (Hdivl l1 Hl1v) in H.
  destruct (py_truediv_pow2 W e g (proj1 He)) as (w1 & Hw1 & Hw1v).
  rewrite (bind_of_Ok _ _ _ _ _ Hw1), (Hdivw w1 Hw1v) in H.
  apply bind_Ok in H as (x1 & g1 & Hx1 & H).
  unfold keras_Reshape in Hx1.
  destruct (forallb _ _ && _) eqn:Hchk; [| discriminate Hx1].
  apply andb_prop in Hchk as (Hnn & Hprod). apply Z.eqb_eq in Hprod.
  cbn [forallb] in Hnn. rewrite !andb_true_iff, !Z.leb_le in Hnn.
  destruct Hnn as (_ & Hnh & Hnw & Hnc' & _).
  rewrite Hskip in Hprod. unfold decoder_shape, prod_dims in Hprod.
  cbn [fold_right] in Hprod. fold e h w c in Hprod.
  destruct (prod3_squeeze h w c (wrap32 h) (wrap32 w) (wrap32 c) Hh Hw Hc
              (conj Hnh (wrap32_le h ltac:(lia))) (conj Hnw (wrap32_le w ltac:(lia)))
              (conj Hnc' (wrap32_le c ltac:(lia))) ltac:(lia)) as (Ewh & Eww & Ewc).
  rewrite Ewh, Eww, Ewc in *.
  assert (Hcb : c < 2 ^ 31) by (rewrite <- Ewc; apply wrap32_lt).
  unfold new_node in Hx1. injection Hx1 as <- <-.
  destruct (py_truediv_pow2 L e (g ++ [mkNode (Reshape [1; h; w; c]) (map node_id [skip])
                                         [1; h; w; c]]) (proj1 He)) as (l2 & Hl2 & Hl2v).
  rewrite (bind_of_Ok _ _ _ _ _ Hl2), (Hdivl l2 Hl2v) in H.
  destruct (py_truediv_pow2 W e (g ++ [mkNode (Reshape [1; h; w; c]) (map node_id [skip])
                                         [1; h; w; c]]) (proj1 He)) as (w2 & Hw2 & Hw2v).
  rewrite (bind_of_Ok _ _ _ _ _ Hw2), (Hdivw w2 Hw2v) in H.
  apply bind_Ok in H as (x2 & g2 & Hx2 & H).
  unfold keras_Reshape in Hx2.
  destruct (forallb _ _ && _) eqn:Hchk2; [| discriminate Hx2].
  apply andb_prop in Hchk2 as (_ & Hprod2). apply Z.eqb_eq in Hprod2.
  unfold new_node in Hx2. injection Hx2 as <- <-.
  apply bind_Ok in H as (m & g3 & Hm & H).
  rewrite (keras_concatenate_eq _ _ _ [1; h; w] c c) in Hm by reflexivity.
  injection Hm as <- <-.
  assert (Hf : np_int32 (py_mul mw (py_pow2 (e - 1))) = c / 2).
  { unfold np_int32. destruct (Z.eq_dec e 0) as [E0 | Hne].
    - rewrite E0. change (0 - 1) with (-1). rewrite py_filters_half.
      rewrite Z.quot_div_nonneg by lia.
      assert (Ec : c = mw) by (unfold c; rewrite E0, Z.pow_0_r; lia).
      rewrite Ec in *.
      assert (0 <= mw / 2 <= mw) by (split; [apply Z.div_pos; lia | apply Z.div_le_upper_bound; lia]).
      apply wrap32_small. lia.
    - rewrite py_filters by lia.
      assert (Ec : c = mw * 2 ^ (e - 1) * 2).
      { unfold c. replace e with (Z.succ (e - 1)) at 1 by lia.
        rewrite Z.pow_succ_r by lia. lia. }
      rewrite Ec, Z.div_mul by lia.
      assert (0 < mw * 2 ^ (e - 1)) by (apply Z.mul_pos_pos; [lia | apply Z.pow_pos_nonneg; lia]).
      apply wrap32_small. lia. }
  rewrite Hf in H. fold cell in H.
  unfold keras_ConvLSTM2D in H.
  destruct (0 <? c / 2) eqn:Hpos; [| discriminate H].
  apply Z.ltb_lt in Hpos.
  cbn [pair_pos fst snd Z.ltb Z.compare andb negb shape] in H.
  rewrite !conv_output_length_same in H.
  cbn [window_fits] in H. unfold new_node in H. injection H as <- <-.
  assert (H2c : 2 <= c).
  { destruct (Z.lt_ge_cases c 2) as [Hlt | Hge]; [| exact Hge].
    rewrite Z.div_small in Hpos by lia. lia. }
  fold cell. cbn [map node_id]. rewrite !length_app. cbn [List.length].
  rewrite <- !app_assoc. cbn [app].
  replace (List.length g + 1 + 1 + 1)%nat with (List.length g + 3)%nat by lia.
  replace (List.length g + 1 + 1)%nat with (List.length g + 2)%nat by lia.
  repeat split; try reflexivity; try assumption.
  rewrite <- Hprod2. unfold prod_dims. cbn [fold_right]. lia.
Qed.





End Partial.


(** * The claims *)

(** C1.  For every valid configuration, whenever the method returns a
    model its output collection has [model_depth + 1] entries when
    [ds = 1] and one entry otherwise; and the method does return a model,
    provided that the recurrent merge, when enabled, can be built at all
    ([lstm_ready]). *)
Theorem C1_output_collection_length (eo : bool) (self : Self.t) (g : graph) :
  valid_config self = true ->
  (forall m g',
     SEDUNet eo self g = Ok m g' ->
     Z.of_nat (List.length (outputs m))
     = if Self.D_S self =? 1 then Self.model_depth self + 1 else 1)
  /\ (lstm_ready self = true -> exists m g', SEDUNet eo self g = Ok m g').
Proof.
  intros Hv. unfold valid_config in Hv.
  apply andb_prop in Hv. destruct Hv as (Hv & Hk). split.
  - intros m g' Hrun.
    pose proof (SEDUNet_output_names eo self g m g' Hrun) as Hnames.
    rewrite <- (length_map tensor_name), Hnames, Hk, length_app. cbn [List.length].
    destruct (valid_dims_facts self Hv) as (Hd & _).
    destruct (Self.D_S self =? 1).
    + rewrite length_map, length_seq. lia.
    + reflexivity.
  - intros Hl.
    destruct (SEDUNet_returns eo self g Hv Hl (or_introl Hk)) as (m & g' & Hrun & _).
    exists m, g'. exact Hrun.
Qed.

Lemma C1_witness :
  valid_config (scenario 1) = true /\ lstm_ready (scenario 1) = true
  /\ exists m g',
       SEDUNet true (scenario 1) [] = Ok m g'
       /\ Z.of_nat (List.length (outputs m)) = 3.
Proof.
  split; [reflexivity |]. split; [reflexivity |].
  destruct (C1_output_collection_length true (scenario 1) [] eq_refl) as (Hlen & Hrun).
  destruct (Hrun eq_refl) as (m & g' & Hm).
  exists m, g'. split; [exact Hm | exact (Hlen m g' Hm)].
Defined.

(** C2.  With deep supervision and a known problem type, the decoder
    emits the auxiliary outputs deepest first (["level<model_depth>"] down
    to ["level1"]), and the output collection of any model the method
    returns is, in this order: the final output ["out"], then the
    auxiliary outputs ["level1"], ["level2"], ... up to the deepest level
    [model_depth].  On a valid configuration the
    model is returned, ["out"] has the full resolution and the output of
    level [k] the resolution of the input divided by [2^k]; in the scenario
    of the specification the collection is [out; level1; level2]. *)
Theorem C2_deep_supervision_order (eo : bool) (self : Self.t) (g : graph) :
  Self.D_S self = 1 -> known_problem_type self = true ->
  (forall inp deconv levels g',
     encode_decode self g = Ok (inp, deconv, levels) g' ->
     exists new,
       levels = map NTensor new
       /\ map tensor_name new
          = map (fun j => Some (level_name (Self.model_depth self - j)))
                (py_range 0 (Self.model_depth self)))
  /\ (forall m g',
     SEDUNet eo self g = Ok m g' ->
     map tensor_name (outputs m)
     = Some "out" :: map (fun k => Some (level_name (Z.of_nat k)))
                         (seq 1 (Z.to_nat (Self.model_depth self))))
  /\ (valid_dims self = true -> lstm_ready self = true ->
      exists m g',
        SEDUNet eo self g = Ok m g'
        /\ map describe (outputs m)
           = (Some "out", [Self.length self; Self.width self; Self.output_nums self])
             :: map (fun k => (Some (level_name (Z.of_nat k)),
                               level_shape self (Z.of_nat k)))
                    (seq 1 (Z.to_nat (Self.model_depth self))))
  /\ option_map (map tensor_name) (result_outputs (SEDUNet eo (scenario 1) []))
     = Some [Some "out"; Some "level1"; Some "level2"].
Proof.
  intros Hds Hk. split; [| split; [| split]].
  - intros inp deconv levels g' Hrun.
    apply encode_decode_emitted in Hrun as (new & Hlv & Hnew).
    exists new. rewrite Hds in Hnew. split; assumption.
  - intros m g' Hrun.
    rewrite (SEDUNet_output_names eo self g m g' Hrun), Hk, Hds. reflexivity.
  - intros Hv Hl.
    destruct (SEDUNet_returns eo self g Hv Hl (or_introl Hk))
      as (m & g' & Hrun & Hdesc & _).
    exists m, g'. split; [exact Hrun |].
    rewrite Hdesc. unfold expected_outputs. rewrite Hk, Hds. reflexivity.
  - destruct eo; vm_compute; reflexivity.
Qed.

Lemma C2_witness :
  Self.D_S (scenario 1) = 1 /\ known_problem_type (scenario 1) = true
  /\ valid_dims (scenario 1) = true /\ lstm_ready (scenario 1) = true
  /\ exists m g',
       SEDUNet true (scenario 1) [] = Ok m g'
       /\ map describe (outputs m)
          = [(Some "out", [16; 16; 1]); (Some "level1", [8; 8; 1]);
             (Some "level2", [4; 4; 1])].
Proof.
  split; [reflexivity |]. split; [reflexivity |].
  split; [reflexivity |]. split; [reflexivity |].
  exact (proj1 (proj2 (proj2 (C2_deep_supervision_order true (scenario 1) []
                                eq_refl eq_refl)))
           eq_refl eq_refl).
Defined.




Lemma finest_first_halving (x q d : Z) (n a : nat) :
  x = q * 2 ^ d -> 0 < q -> Z.of_nat (a + n) <= d + 1 ->
  finest_first (map (fun k => x / 2 ^ Z.of_nat k) (seq a n)) = true.
Proof.
  intros Hx Hq. revert a. induction n as [| n IH]; intros a Han; [reflexivity |].
  cbn [seq map finest_first].
  destruct n as [| n']; [reflexivity |].
  specialize (IH (S a) ltac:(lia)).
  cbn [seq map] in IH |- *. rewrite IH, andb_true_r.
  apply Z.ltb_lt.
  pose proof (div_pow2_step x q d (Z.of_nat a) Hx ltac:(lia)) as Hstep.
  pose proof (div_pow2_pos x q d (Z.of_nat a + 1) Hx Hq ltac:(lia)) as Hpos.
  replace (Z.of_nat (S a)) with (Z.of_nat a + 1) by lia. lia.
Qed.

(** C8, as the code has it.  With deep supervision the output collection
    runs from the finest resolution to the coarsest: entry [i] (from 0) has
    the spatial size of the input divided by [2^i], the final
    full-resolution output first and the auxiliary output of the deepest
    level last. *)
Theorem C8_finest_first (eo : bool) (self : Self.t) (g : graph) :
  valid_config self = true -> lstm_ready self = true -> Self.D_S self = 1 ->
  exists m g',
    SEDUNet eo self g = Ok m g'
    /\ map spatial (outputs m)
       = map (fun i => [Self.length self / 2 ^ Z.of_nat i; Self.width self / 2 ^ Z.of_nat i])
             (seq 0 (S (Z.to_nat (Self.model_depth self))))
    /\ finest_first (map height (outputs m)) = true.
Proof.
  intros Hv Hl Hds. unfold valid_config in Hv.
  apply andb_prop in Hv. destruct Hv as (Hv & Hk).
  destruct (SEDUNet_returns eo self g Hv Hl (or_introl Hk)) as (m & g' & Hrun & Hdesc & _).
  exists m, g'. split; [exact Hrun |].
  unfold expected_outputs in Hdesc. rewrite Hk, Hds in Hdesc.
  cbn [Z.eqb Pos.eqb app] in Hdesc.
  assert (Hshapes : map shape (outputs m)
                    = [Self.length self; Self.width self; Self.output_nums self]
                      :: map (fun k => level_shape self (Z.of_nat k))
                             (seq 1 (Z.to_nat (Self.model_depth self)))).
  { apply (f_equal (map snd)) in Hdesc. rewrite map_map in Hdesc.
    cbn [map snd] in Hdesc. rewrite map_map in Hdesc. exact Hdesc. }
  split.
  - unfold spatial. rewrite <- (map_map shape (firstn 2)), Hshapes.
    cbn [seq map firstn Z.of_nat]. rewrite Z.pow_0_r, !Z.div_1_r.
    f_equal. rewrite map_map. reflexivity.
  - unfold height. rewrite <- (map_map shape (fun s => nth 0 s 0)), Hshapes.
    destruct (valid_dims_facts self Hv)
      as (Hd & _ & _ & _ & _ & _ & _ & l0 & w0 & Hl0 & _ & HL & _).
    pose proof (finest_first_halving (Self.length self) l0 (Self.model_depth self)
                  (S (Z.to_nat (Self.model_depth self))) 0 HL Hl0 ltac:(lia)) as Hff.
    cbn [seq map Z.of_nat] in Hff. rewrite Z.pow_0_r, Z.div_1_r in Hff.
    cbn [map nth]. rewrite map_map. cbn [level_shape nth]. exact Hff.
Qed.

Lemma C8_witness :
  valid_config (scenario 1) = true /\ lstm_ready (scenario 1) = true
  /\ Self.D_S (scenario 1) = 1
  /\ exists m g',
       SEDUNet true (scenario 1) [] = Ok m g'
       /\ map spatial (outputs m) = [[16; 16]; [8; 8]; [4; 4]]
       /\ finest_first (map height (outputs m)) = true.
Proof.
  split; [reflexivity |]. split; [reflexivity |]. split; [reflexivity |].
  exact (C8_finest_first true (scenario 1) [] eq_refl eq_refl eq_refl).
Defined.

(** C8, as stated, fails on the scenario with [ds = 1]: the heights of the
    outputs are 16, 8, 4, so the collection is not coarsest-first. *)
Lemma C8_counterexample :
  option_map (map height) (result_outputs (SEDUNet true (scenario 1) []))
  = Some [16; 8; 4]
  /\ option_map (fun outs => coarsest_first (map height outs))
       (result_outputs (SEDUNet true (scenario 1) []))
     = Some false.
Proof. split; vm_compute; reflexivity. Qed.

(** C10.  [Concat_Block] with no further argument returns its first
    argument unchanged and adds nothing to the graph; in general it is the
    left fold of pairwise concatenation over the arguments, in order. *)
Theorem C10_Concat_Block_fold :
  (forall (t : KerasTensor) (g : graph), Concat_Block t [] g = Ok t g)
  /\ (forall (input1 : KerasTensor) (argv : list KerasTensor) (g : graph),
        Concat_Block input1 argv g
        = for_each argv (fun a cat => keras_concatenate cat a) input1 g).
Proof.
  split.
  - intros t g. reflexivity.
  - exact Concat_Block_fold.
Qed.

(** C3, as the code has it.  Each repeat of the dense block applies the two
    convolution blocks one after the other and concatenates only the second
    one's output to the running tensor, so it adds [width * multiplier]
    channels: after [n] repeats from [C] channels the tensor has
    [C + n * width * multiplier] channels. *)
Theorem C3_dense_block_channels x (width kernel m n : Z) (g : graph) (h w c : Z) :
  shape x = [h; w; c] -> 0 < h -> 0 < w -> 0 < kernel -> 0 < width * m -> 0 <= n ->
  exists t g',
    dense_block x width kernel (PyInt m) n g = Ok t g'
    /\ shape t = [h; w; c + n * (width * m)].
Proof.
  intros Hs Hh Hw Hk Hf Hn.
  destruct (dense_block_returns x width kernel (PyInt m) n g h w c Hs Hh Hw Hk Hf)
    as (t & g' & Hrun & Hshape & _).
  exists t, g'. split; [exact Hrun |].
  rewrite Hshape. cbn [py_mul py_int]. rewrite Z.max_r by lia. reflexivity.
Qed.

Lemma C3_witness :
  exists t g',
    dense_block (sample_tensor 1) 8 3 (PyInt 2) 3 (sample_graph 1) = Ok t g'
    /\ shape t = [4; 4; 1 + 3 * (8 * 2)].
Proof.
  apply (C3_dense_block_channels (sample_tensor 1) 8 3 2 3 (sample_graph 1) 4 4 1);
    [reflexivity | lia | lia | lia | lia | lia].
Defined.

(** C3, as stated, fails for one repeat at width 8 and multiplier 1 on a
    one-channel tensor: the result has 9 channels, not [1 + 1 * 2 * 8 * 1]. *)
Lemma C3_counterexample :
  exists t g',
    dense_block (sample_tensor 1) 8 3 (PyInt 1) 1 (sample_graph 1) = Ok t g'
    /\ shape t = [4; 4; 9]
    /\ 9 <> 1 + 1 * 2 * 8 * 1.
Proof.
  eexists _, _. split; [vm_compute; reflexivity |].
  split; [reflexivity | discriminate].
Qed.

(** C4, as the code has it.  For every ratio of at least one the block is
    built whether or not the ratio divides the channel count [C]: it adds
    the pooling layer, a reduce layer of [C // ratio] units (the floor of
    the quotient, which is [C / ratio] when the ratio divides [C]), the
    restore layer of [C] units and the multiplication, and returns a tensor
    of the shape of its input. *)
Theorem C4_SqueezeExcite_floor x (ratio : Z) (g : graph) (h w c : Z) :
  shape x = [h; w; c] -> 0 <= c -> 1 <= ratio ->
  SqueezeExcite x ratio g
  = Ok (mkTensor [h; w; c] Multiply (List.length g + 3))
       (g ++ [mkNode GlobalAveragePooling2D [node_id x] [c];
              mkNode (Dense (c / ratio) (Some relu) None) [List.length g] [c / ratio];
              mkNode (Dense c (Some sigmoid) None) [(List.length g + 1)%nat] [c];
              mkNode Multiply [node_id x; (List.length g + 2)%nat] [h; w; c]])
  /\ (c mod ratio = 0 -> c / ratio * ratio = c).
Proof.
  intros Hs Hc Hr. split.
  - assert (Hq : 0 <= c / ratio) by (apply Z.div_pos; lia).
    unfold SqueezeExcite, bind. cbv zeta.
    replace (last (shape x) 0) with c by (rewrite Hs; reflexivity).
    unfold keras_GlobalAveragePooling2D. rewrite Hs. unfold new_node at 1.
    unfold py_floordiv. rewrite (proj2 (Z.eqb_neq ratio 0)) by lia. unfold ret at 1.
    unfold keras_Dense.
    rewrite (proj2 (Z.ltb_ge (c / ratio) 0)) by lia.
    rewrite (proj2 (Z.ltb_ge c 0)) by lia.
    cbn [shape removelast app]. unfold new_node at 1. cbn [shape removelast app].
    unfold new_node at 1. unfold keras_Multiply, keras_merge.
    cbn [shape]. rewrite Hs, elemwise_gate. unfold new_node, ret.
    rewrite !length_app. cbn [List.length map node_id].
    rewrite <- !app_assoc. cbn [app].
    replace (List.length g + 1 + 1 + 1)%nat with (List.length g + 3)%nat by lia.
    replace (List.length g + 1 + 1)%nat with (List.length g + 2)%nat by lia.
    reflexivity.
  - intros Hmod. rewrite Z.mul_comm. symmetry. apply Z.div_exact; lia.
Qed.

Lemma C4_witness :
  SqueezeExcite (sample_tensor 32) 16 (sample_graph 32)
  = Ok (mkTensor [4; 4; 32] Multiply 4)
       (sample_graph 32
        ++ [mkNode GlobalAveragePooling2D [0%nat] [32];
            mkNode (Dense 2 (Some relu) None) [1%nat] [2];
            mkNode (Dense 32 (Some sigmoid) None) [2%nat] [32];
            mkNode Multiply [0%nat; 3%nat] [4; 4; 32]])
  /\ (32 mod 16 = 0 -> 32 / 16 * 16 = 32).
Proof.
  apply (C4_SqueezeExcite_floor (sample_tensor 32) 16 (sample_graph 32) 4 4 32);
    [reflexivity | lia | lia].
Defined.

(** C4, as stated, fails for 24 channels and ratio 16: 16 does not divide
    24, yet the block is built, with a reduce layer of one unit. *)
Lemma C4_counterexample :
  24 mod 16 <> 0
  /\ exists t g',
       SqueezeExcite (sample_tensor 24) 16 (sample_graph 24) = Ok t g'
       /\ shape t = [4; 4; 24]
       /\ map n_layer g'
          = [InputLayer; GlobalAveragePooling2D; Dense 1 (Some relu) None;
             Dense 24 (Some sigmoid) None; Multiply].
Proof.
  split; [discriminate |].
  eexists _, _. split; [vm_compute; reflexivity |]. split; reflexivity.
Qed.

Lemma guard_true_iff (self : Self.t) :
  guard self = true
  <-> (Self.length self = 0 \/ Self.model_depth self = 0 \/ Self.model_width self = 0
       \/ Self.num_channel self = 0 \/ Self.kernel_size self = 0).
Proof.
  unfold guard. rewrite !orb_true_iff, !Z.eqb_eq. tauto.
Qed.

(** C5, as the code has it.  When [length], [model_depth], [model_width],
    [num_channel] or [kernel_size] is zero the method raises a [ValueError]
    with the one fixed message of the guard, and no node has been created;
    when all six dimensions are nonzero the guard does not fire. *)
Theorem C5_guard (eo : bool) (self : Self.t) (g : graph) :
  (Self.length self = 0 \/ Self.model_depth self = 0 \/ Self.model_width self = 0
   \/ Self.num_channel self = 0 \/ Self.kernel_size self = 0 ->
   SEDUNet eo self g = Raise (ValueError guard_message) g)
  /\ (Self.length self <> 0 -> Self.width self <> 0 -> Self.model_depth self <> 0 ->
      Self.model_width self <> 0 -> Self.num_channel self <> 0 ->
      Self.kernel_size self <> 0 ->
      guard self = false).
Proof.
  split.
  - intros Hz. apply guard_true_iff in Hz. unfold SEDUNet. rewrite Hz. reflexivity.
  - intros HL _ Hd Hmw Hnc Hks.
    destruct (guard self) eqn:Hg; [| reflexivity].
    apply guard_true_iff in Hg. tauto.
Qed.

Lemma C5_witness :
  SEDUNet true scenario_depth0 [] = Raise (ValueError guard_message) []
  /\ guard (scenario 0) = false.
Proof.
  split.
  - apply (proj1 (C5_guard true scenario_depth0 [])). right. left. reflexivity.
  - apply (proj2 (C5_guard true (scenario 0) [])); discriminate.
Defined.

(** C5, as stated, fails twice.  A zero [model_depth] and a zero
    [kernel_size] raise the same message, which names neither field; and
    with only [width] zero the guard does not fire: the input layer and
    the two convolution blocks of level 1 are created, and the error comes
    from the engine, in the first pooling layer. *)
Lemma C5_counterexample :
  SEDUNet true scenario_depth0 [] = Raise (ValueError guard_message) []
  /\ SEDUNet true scenario_kernel0 [] = Raise (ValueError guard_message) []
  /\ String.index 0 "model_depth" guard_message = None
  /\ String.index 0 "kernel_size" guard_message = None
  /\ guard scenario_width0 = false
  /\ exists msg g',
       SEDUNet true scenario_width0 [] = Raise (ValueError msg) g'
       /\ msg <> guard_message
       /\ map n_layer g'
          = [InputLayer;
             Conv2D 8 (3, 3) (1, 1) same None None; BatchNormalization; Activation relu;
             Conv2D 8 (3, 3) (1, 1) same None None; BatchNormalization; Activation relu].
Proof.
  repeat split; try (vm_compute; reflexivity).
  eexists _, _. split; [vm_compute; reflexivity |].
  split; [discriminate | reflexivity].
Qed.

(** C7, as the code has it.  On a valid configuration with the recurrent
    merge, at the decoder level whose skip tensor has
    [c = model_width * 2^(level-1)] channels, whenever the merge is built
    it is this: the skip tensor and the decoder tensor are each reshaped
    to a sequence of length one with [c] channels, concatenated along the
    last axis into [2c] channels and fed to a recurrent cell that goes
    backwards and returns one output of [c // 2] channels: half the
    channels of either tensor, that is a quarter of what their plain
    concatenation has.  It is built only if the decoder tensor has as many
    elements as the skip tensor and [c >= 2], and it is built whenever the
    decoder tensor has the shape of the skip tensor and the configuration
    is [lstm_ready]. *)
Theorem C7_recurrent_merge (self : Self.t) (j : Z) (skip deconv : KerasTensor) (g : graph) :
  valid_dims self = true -> Self.LSTM self = 1 ->
  0 <= j < Self.model_depth self ->
  shape skip = decoder_shape self (Self.model_depth self - j - 1) ->
  let h := Self.length self / 2 ^ (Self.model_depth self - j - 1) in
  let w := Self.width self / 2 ^ (Self.model_depth self - j - 1) in
  let c := Self.model_width self * 2 ^ (Self.model_depth self - j - 1) in
  let cell := ConvLSTM2D (c / 2) (3, 3) same false true in
  let built :=
    Ok (mkTensor [h; w; c / 2] cell (List.length g + 3))
       (g ++ [mkNode (Reshape [1; h; w; c]) [node_id skip] [1; h; w; c];
              mkNode (Reshape [1; h; w; c]) [node_id deconv] [1; h; w; c];
              mkNode Concatenate [List.length g; (List.length g + 1)%nat] [1; h; w; c + c];
              mkNode cell [(List.length g + 2)%nat] [h; w; c / 2]]) in
  (forall t g',
     merge_step self j skip deconv g = Ok t g' ->
     merge_step self j skip deconv g = built
     /\ prod_dims (shape deconv) = prod_dims (shape skip) /\ 2 <= c)
  /\ (lstm_ready self = true ->
      shape deconv = decoder_shape self (Self.model_depth self - j - 1) ->
      merge_step self j skip deconv g = built
      /\ exists t g', Concat_Block deconv [skip] g = Ok t g' /\ shape t = [h; w; c + c])
  /\ (c mod 2 = 0 -> 4 * (c / 2) = c + c).
Proof.
  intros Hv Hl Hj Hskip h w c cell built.
  destruct (valid_dims_facts self Hv)
    as (Hd & Hmw & Hks & Hnc & Hon & Hse & Hfn & l0 & w0 & Hl0 & Hw0 & HL & HW).
  assert (Hany : forall t g',
             merge_step self j skip deconv g = Ok t g' ->
             merge_step self j skip deconv g = built
             /\ prod_dims (shape deconv) = prod_dims (shape skip) /\ 2 <= c).
  { intros t g' H.
    destruct (merge_step_lstm_Ok self l0 w0 Hd Hmw HL HW Hl0 Hw0 j skip deconv g t g'
                Hl Hj Hskip H) as (Ht & Hg & Hprod & Hc).
    fold h w c cell in Ht, Hg, Hprod, Hc.
    split; [rewrite H, Ht, Hg; reflexivity |]. split; [| exact Hc].
    rewrite Hprod, Hskip. unfold decoder_shape, prod_dims. cbn [fold_right].
    fold h w c. lia. }
  split; [exact Hany |]. split.
  - intros Hready Hdec.
    destruct (lstm_ready_facts self Hready Hl) as (Ht & Hmw2 & HLb & HWb & Hb).
    assert (Hl' : Self.LSTM self = 1 ->
                  Self.is_transconv self = true /\ 2 <= Self.model_width self
                  /\ Self.length self < 2 ^ 31 /\ Self.width self < 2 ^ 31
                  /\ Self.model_width self * 2 ^ Self.model_depth self < 2 ^ 31)
      by (intros _; auto).
    unfold decoder_shape in Hskip, Hdec. fold h w c in Hskip, Hdec.
    split.
    + destruct (merge_step_returns self l0 w0 Hd Hmw HL HW Hl0 Hw0 Hl' j skip deconv c g Hj
                  Hskip Hdec ltac:(intros _; reflexivity)) as (t & g' & Hrun & _).
      exact (proj1 (Hany t g' Hrun)).
    + destruct (Concat_Block_pair_returns deconv skip g [h; w] c c Hdec Hskip)
        as (t & g' & Hrun & Hshape & _).
      exists t, g'. split; [exact Hrun | exact Hshape].
  - intros Hmod. apply Z.div_exact in Hmod; lia.
Qed.

Lemma C7_witness :
  merge_step scenario_lstm 0 merge_skip merge_deconv merge_graph
  = Ok (mkTensor [8; 8; 8] (ConvLSTM2D 8 (3, 3) same false true) 5)
       (merge_graph
        ++ [mkNode (Reshape [1; 8; 8; 16]) [0%nat] [1; 8; 8; 16];
            mkNode (Reshape [1; 8; 8; 16]) [1%nat] [1; 8; 8; 16];
            mkNode Concatenate [2%nat; 3%nat] [1; 8; 8; 32];
            mkNode (ConvLSTM2D 8 (3, 3) same false true) [4%nat] [8; 8; 8]])
  /\ (exists t g', Concat_Block merge_deconv [merge_skip] merge_graph = Ok t g'
                   /\ shape t = [8; 8; 32])
  /\ (16 mod 2 = 0 -> 4 * (16 / 2) = 16 + 16).
Proof.
  destruct (C7_recurrent_merge scenario_lstm 0 merge_skip merge_deconv merge_graph
              eq_refl eq_refl ltac:(cbn; lia) eq_refl) as (_ & Hbuilt & Harith).
  destruct (Hbuilt eq_refl eq_refl) as (Hrun & Hcat).
  split; [exact Hrun |]. split; [exact Hcat | exact Harith].
Defined.

(** C7, as stated, fails on the scenario with [lstm = 1]: at level 2 the
    plain concatenation of the two 16-channel tensors has 32 channels and
    the recurrent cell returns 8, not 16; in the whole build the cells
    return 8 and 4 channels from concatenations of 32 and 16. *)
Lemma C7_counterexample :
  (exists t g' t2 g2,
     merge_step scenario_lstm 0 merge_skip merge_deconv merge_graph = Ok t g'
     /\ Concat_Block merge_deconv [merge_skip] merge_graph = Ok t2 g2
     /\ shape t = [8; 8; 8] /\ shape t2 = [8; 8; 32] /\ 2 * 8 <> 32)
  /\ merge_trace (SEDUNet true scenario_lstm [])
     = [(Concatenate, [1; 8; 8; 32]);
        (ConvLSTM2D 8 (3, 3) same false true, [8; 8; 8]);
        (Concatenate, [1; 16; 16; 16]);
        (ConvLSTM2D 4 (3, 3) same false true, [16; 16; 4])].
Proof.
  split.
  - eexists _, _, _, _. split; [vm_compute; reflexivity |].
    split; [vm_compute; reflexivity |].
    split; [reflexivity |]. split; [reflexivity | discriminate].
  - vm_compute. reflexivity.
Qed.

(** C9, as the code has it.  When the problem type is neither
    ['Classification'] nor ['Regression'] the output stage creates no layer,
    raises nothing and leaves [outputs] the empty list.  Any model the
    method then returns has no output when [ds] is not 1 and has exactly
    the [model_depth] auxiliary outputs, shallowest first, when [ds = 1].
    Whether a model is returned is decided by the engine's model
    constructor, which is first called on a structure without tensors: on
    a well-sized configuration the method returns if the engine accepts
    such a structure and raises if it does not. *)
Theorem C9_unknown_problem_type (self : Self.t) :
  known_problem_type self = false ->
  (forall deconv g, output_stage self deconv g = Ok (NList []) g)
  /\ (forall eo g m g',
        SEDUNet eo self g = Ok m g' ->
        map tensor_name (outputs m)
        = if Self.D_S self =? 1
          then map (fun k => Some (level_name (Z.of_nat k)))
                   (seq 1 (Z.to_nat (Self.model_depth self)))
          else [])
  /\ (valid_dims self = true -> lstm_ready self = true ->
      forall g,
        (exists m g', SEDUNet true self g = Ok m g')
        /\ (exists g',
              SEDUNet false self g
              = Raise (ValueError "keras: outputs cannot be empty") g')).
Proof.
  intros Hk. split; [| split].
  - intros deconv g. apply output_stage_unknown. exact Hk.
  - intros eo g m g' Hrun.
    rewrite (SEDUNet_output_names eo self g m g' Hrun), Hk. reflexivity.
  - intros Hv Hl g. split.
    + destruct (SEDUNet_returns true self g Hv Hl (or_intror eq_refl))
        as (m & g' & Hrun & _).
      exists m, g'. exact Hrun.
    + destruct (encode_decode_valid self g Hv Hl)
        as ([[inp deconv] levels] & g1 & Hrun & _).
      exists g1. unfold SEDUNet. rewrite (guard_false_of_valid self Hv).
      unfold bind. rewrite Hrun, (output_stage_unknown self deconv g1 Hk).
      reflexivity.
Qed.

Lemma C9_witness :
  known_problem_type (scenario_other 0) = false
  /\ output_stage (scenario_other 0) merge_deconv merge_graph = Ok (NList []) merge_graph
  /\ exists m g',
       SEDUNet true (scenario_other 0) [] = Ok m g'
       /\ map tensor_name (outputs m) = [].
Proof.
  split; [reflexivity |].
  destruct (C9_unknown_problem_type (scenario_other 0) eq_refl) as (Hstage & Hnames & Hbuild).
  split; [apply Hstage |].
  destruct (Hbuild eq_refl eq_refl []) as ((m & g' & Hrun) & _).
  exists m, g'. split; [exact Hrun | exact (Hnames true [] m g' Hrun)].
Defined.

(** C9, as stated, fails on the scenario with an unknown problem type and
    [ds = 1]: if the engine accepts a model without final output, the
    collection holds the two auxiliary outputs and is not empty; if it does
    not, the build raises. *)
Lemma C9_counterexample :
  option_map (map tensor_name) (result_outputs (SEDUNet true (scenario_other 1) []))
  = Some [Some "level1"; Some "level2"]
  /\ result_outputs (SEDUNet false (scenario_other 1) []) = None.
Proof. split; vm_compute; reflexivity. Qed.


(** * Further properties of the builder *)

(** ** The primitive blocks *)

(** [Conv_Block] is a convolution, a batch normalisation and a rectifier, in
    this order, each fed by the one before; with its ['same'] padding the
    spatial size is kept for every kernel size and the result has
    [model_width * multiplier] channels, whatever the input had. *)
Theorem Conv_Block_layers x (model_width kernel m : Z) (g : graph) (h w c : Z) :
  shape x = [h; w; c] -> 0 < h -> 0 < w -> 0 < kernel -> 0 < model_width * m ->
  let f := model_width * m in
  Conv_Block x model_width kernel (PyInt m) g
  = Ok (mkTensor [h; w; f] (Activation relu) (List.length g + 2))
       (g ++ [mkNode (Conv2D f (kernel, kernel) (1, 1) same None None) [node_id x] [h; w; f];
              mkNode BatchNormalization [List.length g] [h; w; f];
              mkNode (Activation relu) [(List.length g + 1)%nat] [h; w; f]]).
Proof.
  intros Hs Hh Hw Hk Hf f.
  unfold Conv_Block, bind, keras_Conv2D. cbn [py_mul py_int fst snd]. fold f.
  rewrite Hs, (proj2 (Z.ltb_lt 0 f) Hf), (pair_pos_true kernel kernel Hk Hk).
  rewrite !conv_output_length_same.
  cbn [pair_pos fst snd Z.ltb Z.compare andb negb window_fits].
  unfold keras_BatchNormalization, keras_Activation, new_node, ret.
  cbn [shape node_id map].
  rewrite !length_app. cbn [List.length].
  rewrite <- !app_assoc. cbn [app].
  replace (List.length g + 1 + 1)%nat with (List.length g + 2)%nat by lia.
  reflexivity.
Qed.

Lemma Conv_Block_layers_witness :
  Conv_Block (sample_tensor 1) 8 3 (PyInt 2) (sample_graph 1)
  = Ok (mkTensor [4; 4; 16] (Activation relu) 3)
       (sample_graph 1
        ++ [mkNode (Conv2D 16 (3, 3) (1, 1) same None None) [0%nat] [4; 4; 16];
            mkNode BatchNormalization [1%nat] [4; 4; 16];
            mkNode (Activation relu) [2%nat] [4; 4; 16]]).
Proof.
  apply (Conv_Block_layers (sample_tensor 1) 8 3 2 (sample_graph 1) 4 4 1);
    [reflexivity | lia | lia | lia | lia].
Defined.

(** Both upsampling blocks double the two spatial sizes; [upConv_Block]
    keeps the channels and [trans_conv2D] sets them to
    [model_width * multiplier].  Pooling the upsampled tensor gives back
    the spatial size one started from. *)
Theorem upsampling_then_pooling x (model_width m : Z) (g : graph) (h w c : Z) :
  shape x = [h; w; c] -> 0 < h -> 0 < w -> 0 < model_width * m ->
  (exists u g1 p g2,
     upConv_Block x g = Ok u g1 /\ shape u = [2 * h; 2 * w; c]
     /\ keras_MaxPooling2D (2, 2) u g1 = Ok p g2 /\ shape p = [h; w; c])
  /\ (exists u g1 p g2,
        trans_conv2D x model_width (PyInt m) g = Ok u g1
        /\ shape u = [2 * h; 2 * w; model_width * m]
        /\ keras_MaxPooling2D (2, 2) u g1 = Ok p g2
        /\ shape p = [h; w; model_width * m]).
Proof.
  intros Hs Hh Hw Hf. split.
  - destruct (upConv_Block_returns x g h w c Hs) as (u & g1 & Hu & Hsu & _).
    destruct (keras_MaxPooling2D_returns u g1 h w c Hsu Hh Hw) as (p & g2 & Hp & Hsp & _).
    exists u, g1, p, g2. repeat split; assumption.
  - destruct (trans_conv2D_returns x model_width (PyInt m) g h w c Hs Hf)
      as (u & g1 & Hu & Hsu & _).
    cbn [py_mul py_int] in Hsu.
    destruct (keras_MaxPooling2D_returns u g1 h w _ Hsu Hh Hw) as (p & g2 & Hp & Hsp & _).
    exists u, g1, p, g2. repeat split; assumption.
Qed.

Lemma upsampling_then_pooling_witness :
  (exists u g1 p g2,
     upConv_Block (sample_tensor 3) (sample_graph 3) = Ok u g1 /\ shape u = [8; 8; 3]
     /\ keras_MaxPooling2D (2, 2) u g1 = Ok p g2 /\ shape p = [4; 4; 3])
  /\ (exists u g1 p g2,
        trans_conv2D (sample_tensor 3) 8 (PyInt 2) (sample_graph 3) = Ok u g1
        /\ shape u = [8; 8; 16]
        /\ keras_MaxPooling2D (2, 2) u g1 = Ok p g2
        /\ shape p = [4; 4; 16]).
Proof.
  apply (upsampling_then_pooling (sample_tensor 3) 8 2 (sample_graph 3) 4 4 3);
    [reflexivity | lia | lia | lia].
Defined.

Lemma layers_added_app (g d : graph) : layers_added g (g ++ d) = map n_layer d.
Proof.
  unfold layers_added. rewrite skipn_app, skipn_all, Nat.sub_diag. reflexivity.
Qed.

Lemma Concat_Block_fold_channels (argv : list KerasTensor) (cs : list Z) (pre : list Z) :
  Forall2 (fun a c => shape a = pre ++ [c]) argv cs ->
  forall input1 c0 g,
    shape input1 = pre ++ [c0] ->
    exists t d,
      for_each argv (fun a cat => keras_concatenate cat a) input1 g = Ok t (g ++ d)
      /\ shape t = pre ++ [fold_left Z.add cs c0]
      /\ map n_layer d = repeat Concatenate (List.length argv).
Proof.
  induction 1 as [| a c argv cs Ha Hrest IH]; intros input1 c0 g Hin.
  - exists input1, []. rewrite app_nil_r. repeat split. exact Hin.
  - cbn [for_each fold_left List.length repeat]. unfold bind.
    rewrite (keras_concatenate_eq input1 a g pre c0 c Hin Ha).
    destruct (IH (mkTensor (pre ++ [c0 + c]) Concatenate (List.length g)) (c0 + c)
                (g ++ [mkNode Concatenate [node_id input1; node_id a] (pre ++ [c0 + c])])
                eq_refl) as (t & d & Hrun & Hshape & Hlayers).
    exists t, (mkNode Concatenate [node_id input1; node_id a] (pre ++ [c0 + c]) :: d).
    rewrite Hrun, <- app_assoc. cbn [app map n_layer]. rewrite Hlayers.
    repeat split. exact Hshape.
Qed.

(** [Concat_Block] on tensors that agree on every axis but the last returns
    a tensor with the channels of all of them added up, and adds one
    concatenation layer per extra argument. *)
Theorem Concat_Block_channels (input1 : KerasTensor) (argv : list KerasTensor)
    (pre : list Z) (c0 : Z) (cs : list Z) (g : graph) :
  shape input1 = pre ++ [c0] ->
  Forall2 (fun a c => shape a = pre ++ [c]) argv cs ->
  exists t g',
    Concat_Block input1 argv g = Ok t g'
    /\ shape t = pre ++ [fold_left Z.add cs c0]
    /\ layers_added g g' = repeat Concatenate (List.length argv).
Proof.
  intros Hin Hargs.
  destruct (Concat_Block_fold_channels argv cs pre Hargs input1 c0 g Hin)
    as (t & d & Hrun & Hshape & Hlayers).
  exists t, (g ++ d). rewrite Concat_Block_fold, layers_added_app.
  repeat split; assumption.
Qed.

Lemma Concat_Block_channels_witness :
  exists t g',
    Concat_Block (sample_tensor 1) [sample_tensor 2; sample_tensor 3] (sample_graph 1)
    = Ok t g'
    /\ shape t = [4; 4] ++ [fold_left Z.add [2; 3] 1]
    /\ layers_added (sample_graph 1) g' = repeat Concatenate 2.
Proof.
  apply (Concat_Block_channels (sample_tensor 1) [sample_tensor 2; sample_tensor 3]
           [4; 4] 1 [2; 3] (sample_graph 1)).
  - reflexivity.
  - repeat constructor.
Defined.

Lemma list_eqb_eq (a b : list Z) : list_eqb a b = true -> a = b.
Proof.
  revert b. induction a as [| x a IH]; intros [| y b] H; cbn [list_eqb] in H;
    try discriminate; [reflexivity |].
  apply andb_prop in H. destruct H as (Hxy & Hab).
  apply Z.eqb_eq in Hxy. rewrite Hxy, (IH b Hab). reflexivity.
Qed.

Lemma keras_concatenate_mismatch a b g pa ca pb cb :
  shape a = pa ++ [ca] -> shape b = pb ++ [cb] -> pa <> pb ->
  exists msg, keras_concatenate a b g = Raise (ValueError msg) g.
Proof.
  intros Ha Hb Hne. unfold keras_concatenate.
  destruct (shape a) eqn:E1; [destruct pa; discriminate |].
  destruct (shape b) eqn:E2; [destruct pb; discriminate |].
  rewrite Ha, Hb, !removelast_last.
  destruct (list_eqb pa pb) eqn:E; [apply list_eqb_eq in E; contradiction |].
  eexists. reflexivity.
Qed.

Lemma keras_MaxPooling2D_floor x g h w c :
  shape x = [h; w; c] -> 2 <= h -> 2 <= w ->
  returns (keras_MaxPooling2D (2, 2) x) g (post g [h / 2; w / 2; c] 1 0).
Proof.
  intros Hs Hh Hw. unfold keras_MaxPooling2D. rewrite Hs. cbn [fst snd].
  rewrite (proj2 (Z.ltb_ge h 2)) by lia.
  rewrite (proj2 (Z.ltb_ge w 2)) by lia.
  unfold conv_output_length.
  replace (h - 2 + 1 + 2 - 1) with h by lia.
  replace (w - 2 + 1 + 2 - 1) with w by lia. calc.
  eapply returns_weaken; [apply returns_new_node |]. calc. tauto.
Qed.

(** Why the sizes must be even at every level.  Pooling a tensor and
    upsampling the result gives the spatial sizes rounded down to even
    numbers; [Concat_Block] of that with the tensor one started from (the
    skip merge of the decoder) succeeds, with twice the channels, when both
    sizes are even, and raises without adding a layer when one is odd. *)
Theorem skip_merge_needs_even_sizes x (g : graph) (h w c : Z) :
  shape x = [h; w; c] -> 2 <= h -> 2 <= w ->
  exists p g1 u g2,
    keras_MaxPooling2D (2, 2) x g = Ok p g1
    /\ upConv_Block p g1 = Ok u g2
    /\ shape u = [2 * (h / 2); 2 * (w / 2); c]
    /\ (h mod 2 = 0 /\ w mod 2 = 0 ->
        exists t g3, Concat_Block u [x] g2 = Ok t g3 /\ shape t = [h; w; c + c])
    /\ (h mod 2 <> 0 \/ w mod 2 <> 0 ->
        exists msg, Concat_Block u [x] g2 = Raise (ValueError msg) g2).
Proof.
  intros Hs Hh Hw.
  destruct (keras_MaxPooling2D_floor x g h w c Hs Hh Hw) as (p & g1 & Hp & Hsp & _).
  destruct (upConv_Block_returns p g1 _ _ _ Hsp) as (u & g2 & Hu & Hsu & _).
  exists p, g1, u, g2. repeat split; try assumption.
  - intros (Hh2 & Hw2).
    assert (Eh : 2 * (h / 2) = h) by (symmetry; apply Z.div_exact; lia).
    assert (Ew : 2 * (w / 2) = w) by (symmetry; apply Z.div_exact; lia).
    rewrite Eh, Ew in Hsu.
    destruct (Concat_Block_pair_returns u x g2 [h; w] c c Hsu Hs)
      as (t & g3 & Ht & Hst & _).
    exists t, g3. split; assumption.
  - intros Hodd.
    assert (Hne : [2 * (h / 2); 2 * (w / 2)] <> [h; w]).
    { intros E.
      assert (Eh : 2 * (h / 2) = h) by congruence.
      assert (Ew : 2 * (w / 2) = w) by congruence.
      assert (Hh2 : h mod 2 = 0) by (apply Z.div_exact; lia).
      assert (Hw2 : w mod 2 = 0) by (apply Z.div_exact; lia).
      tauto. }
    destruct (keras_concatenate_mismatch u x g2 [2 * (h / 2); 2 * (w / 2)] c [h; w] c
                Hsu Hs Hne) as (msg & Hraise).
    exists msg. rewrite Concat_Block_fold. cbn [for_each]. unfold bind.
    rewrite Hraise. reflexivity.
Qed.

Lemma skip_merge_needs_even_sizes_witness :
  exists p g1 u g2,
    keras_MaxPooling2D (2, 2) (mkTensor [5; 4; 3] InputLayer 0)
      [mkNode InputLayer [] [5; 4; 3]] = Ok p g1
    /\ upConv_Block p g1 = Ok u g2
    /\ shape u = [2 * (5 / 2); 2 * (4 / 2); 3]
    /\ (5 mod 2 = 0 /\ 4 mod 2 = 0 ->
        exists t g3,
          Concat_Block u [mkTensor [5; 4; 3] InputLayer 0] g2 = Ok t g3
          /\ shape t = [5; 4; 3 + 3])
    /\ (5 mod 2 <> 0 \/ 4 mod 2 <> 0 ->
        exists msg,
          Concat_Block u [mkTensor [5; 4; 3] InputLayer 0] g2 = Raise (ValueError msg) g2).
Proof.
  apply (skip_merge_needs_even_sizes (mkTensor [5; 4; 3] InputLayer 0)
           [mkNode InputLayer [] [5; 4; 3]] 5 4 3); [reflexivity | lia | lia].
Defined.

(** With a count of zero or less the dense block returns its input and adds
    no layer; this is what the default [dense_loop = 1] asks of the
    bottleneck, which calls it with [dense_loop - 1]. *)
Theorem dense_block_zero_repeats x (num_filters kernel_size : Z) (multiplier : pynum)
    (num_layers : Z) (g : graph) :
  num_layers <= 0 ->
  dense_block x num_filters kernel_size multiplier num_layers g = Ok x g.
Proof.
  intros Hn. unfold dense_block. rewrite py_range_nil by lia. reflexivity.
Qed.

Lemma dense_block_zero_repeats_witness :
  dense_block (sample_tensor 1) 8 3 (py_pow2 2) (Self.dense_loop (scenario 0) - 1)
    (sample_graph 1)
  = Ok (sample_tensor 1) (sample_graph 1).
Proof.
  apply (dense_block_zero_repeats (sample_tensor 1) 8 3 (py_pow2 2)
           (Self.dense_loop (scenario 0) - 1) (sample_graph 1)).
  cbn. lia.
Defined.

(** A ratio of zero makes [SqueezeExcite] raise [ZeroDivisionError]; the
    pooling layer has been created by then, the two dense layers have
    not. *)
Theorem SqueezeExcite_zero_ratio x (g : graph) (h w c : Z) :
  shape x = [h; w; c] ->
  SqueezeExcite x 0 g
  = Raise ZeroDivisionError (g ++ [mkNode GlobalAveragePooling2D [node_id x] [c]]).
Proof.
  intros Hs. unfold SqueezeExcite, bind, keras_GlobalAveragePooling2D.
  rewrite Hs. reflexivity.
Qed.

Lemma SqueezeExcite_zero_ratio_witness :
  SqueezeExcite (sample_tensor 16) 0 (sample_graph 16)
  = Raise ZeroDivisionError
      (sample_graph 16 ++ [mkNode GlobalAveragePooling2D [0%nat] [16]]).
Proof.
  apply (SqueezeExcite_zero_ratio (sample_tensor 16) (sample_graph 16) 4 4 16).
  reflexivity.
Defined.

(** The attention gate returns a tensor of exactly the shape of the skip
    connection it gates, when the gating signal has half its spatial
    sizes; on the way it adds no pooling and two upsampling layers (the two
    resamplers of the mask). *)
Theorem Attention_Block_keeps_skip_shape skip gating (num_filters m : Z) (g : graph)
    (h w c cg : Z) :
  shape skip = [2 * h; 2 * w; c] -> shape gating = [h; w; cg] ->
  0 < h -> 0 < w -> 0 < num_filters * m ->
  exists t g',
    Attention_Block skip gating num_filters (PyInt m) g = Ok t g'
    /\ shape t = shape skip
    /\ producer t = TFOpMultiply
    /\ count_layers is_pooling g' = count_layers is_pooling g
    /\ count_layers is_upsampling g' = (count_layers is_upsampling g + 2)%nat.
Proof.
  intros Hs Hg Hh Hw Hf.
  destruct (Attention_Block_returns skip gating num_filters (PyInt m) g h w c cg
              Hs Hg Hh Hw Hf) as (t & g' & Hrun & Hshape & Hp & Hu).
  exists t, g'. rewrite Hs. repeat split; try assumption; try lia.
  unfold Attention_Block in Hrun.
  do 12 (apply bind_Ok in Hrun; destruct Hrun as (? & ? & _ & Hrun)).
  apply bind_Ok in Hrun. destruct Hrun as (out & g13 & Hmul & Hret).
  injection Hret as <- _.
  unfold tensor_mul, keras_merge in Hmul.
  destruct (elemwise_op_output_shape _ _); [| discriminate].
  unfold new_node in Hmul. injection Hmul as <- _. reflexivity.
Qed.

Lemma Attention_Block_keeps_skip_shape_witness :
  exists t g',
    Attention_Block merge_skip (sample_tensor 32) 8 (PyInt 2) merge_graph = Ok t g'
    /\ shape t = shape merge_skip
    /\ producer t = TFOpMultiply
    /\ count_layers is_pooling g' = count_layers is_pooling merge_graph
    /\ count_layers is_upsampling g' = (count_layers is_upsampling merge_graph + 2)%nat.
Proof.
  apply (Attention_Block_keeps_skip_shape merge_skip (sample_tensor 32) 8 2 merge_graph
           4 4 16 32); [reflexivity | reflexivity | lia | lia | lia].
Defined.

(** The latent block flattens its input, projects it to [feature_number]
    features in the layer named ['features'], projects back and reshapes:
    four layers, and a result with the spatial sizes of the input and
    [model_width] channels, whatever the input channels and the number of
    features. *)
Theorem Feature_Extraction_Block_layers x (model_width feature_number : Z) (g : graph)
    (h w c : Z) :
  shape x = [h; w; c] -> 0 <= h -> 0 <= w -> 0 <= model_width -> 0 <= feature_number ->
  Feature_Extraction_Block x model_width feature_number g
  = Ok (mkTensor [h; w; model_width] (Reshape [h; w; model_width]) (List.length g + 3))
       (g ++ [mkNode Flatten [node_id x] [prod_dims [h; w; c]];
              mkNode (Dense feature_number None (Some "features")) [List.length g]
                [feature_number];
              mkNode (Dense (model_width * h * w) None None) [(List.length g + 1)%nat]
                [model_width * h * w];
              mkNode (Reshape [h; w; model_width]) [(List.length g + 2)%nat]
                [h; w; model_width]]).
Proof.
  intros Hs Hh Hw Hmw Hfn.
  assert (Hu : 0 <= model_width * h * w) by nia.
  unfold Feature_Extraction_Block, bind, keras_Flatten, keras_Dense, shape_getitem.
  rewrite Hs.
  change (nth_error [h; w; c] (Z.to_nat (1 - 1))) with (Some h).
  change (nth_error [h; w; c] (Z.to_nat (2 - 1))) with (Some w).
  rewrite (proj2 (Z.ltb_ge feature_number 0)) by lia.
  cbv beta iota delta [new_node ret]. cbn [shape removelast app].
  rewrite (proj2 (Z.ltb_ge (model_width * h * w) 0)) by lia.
  cbv beta iota. cbn [shape removelast app].
  rewrite keras_Reshape_eq.
  - cbn [node_id map]. rewrite !length_app. cbn [List.length].
    rewrite <- !app_assoc. cbn [app].
    replace (List.length g + 1 + 1 + 1)%nat with (List.length g + 3)%nat by lia.
    replace (List.length g + 1 + 1)%nat with (List.length g + 2)%nat by lia.
    reflexivity.
  - repeat constructor; lia.
  - unfold prod_dims. cbn [shape fold_right]. lia.
Qed.

Lemma Feature_Extraction_Block_layers_witness :
  Feature_Extraction_Block (sample_tensor 32) 8 1024 (sample_graph 32)
  = Ok (mkTensor [4; 4; 8] (Reshape [4; 4; 8]) 4)
       (sample_graph 32
        ++ [mkNode Flatten [0%nat] [prod_dims [4; 4; 32]];
            mkNode (Dense 1024 None (Some "features")) [1%nat] [1024];
            mkNode (Dense (8 * 4 * 4) None None) [2%nat] [8 * 4 * 4];
            mkNode (Reshape [4; 4; 8]) [3%nat] [4; 4; 8]]).
Proof.
  apply (Feature_Extraction_Block_layers (sample_tensor 32) 8 1024 (sample_graph 32) 4 4 32);
    [reflexivity | lia | lia | lia | lia].
Defined.

(** ** The encoder and the decoder levels *)

(** After the encoder loop of a valid configuration the dictionary [convs]
    has exactly [model_depth] entries, keyed ['conv1'], ['conv2'], ... in
    this order; entry [k] (from 0) is the tensor of level [k + 1] before
    pooling, of the input's sizes divided by [2^k] and
    [model_width * 2^k] channels.  The loop adds [model_depth] pooling
    layers and hands on a tensor of the input's sizes divided by
    [2^model_depth]. *)
Theorem encoder_skip_map (self : Self.t) (inp : KerasTensor) (g : graph) (c : Z) :
  valid_dims self = true ->
  shape inp = [Self.length self; Self.width self; c] ->
  exists pool convs g',
    for_each (py_range 1 (Self.model_depth self + 1)) (encoder_step self) (inp, []) g
    = Ok (pool, convs) g'
    /\ map fst convs = map conv_key (seq 1 (Z.to_nat (Self.model_depth self)))
    /\ map shape (dict_values convs)
       = map (skip_shape self) (seq 0 (Z.to_nat (Self.model_depth self)))
    /\ Z.of_nat (List.length (dict_values convs)) = Self.model_depth self
    /\ shape pool = [Self.length self / 2 ^ Self.model_depth self;
                     Self.width self / 2 ^ Self.model_depth self;
                     Self.model_width self * 2 ^ (Self.model_depth self - 1)]
    /\ count_layers is_pooling g'
       = (count_layers is_pooling g + Z.to_nat (Self.model_depth self))%nat.
Proof.
  intros Hv Hs.
  destruct (valid_dims_facts self Hv)
    as (Hd & Hmw & Hks & Hnc & Hon & Hse & Hfn & l0 & w0 & Hl0 & Hw0 & HL & HW).
  destruct (encoder_loop_returns self l0 w0 Hd Hmw Hks HL HW Hl0 Hw0
              (Z.to_nat (Self.model_depth self)) 0 inp [] c g)
    as ([pool convs] & g' & Hrun & (Hshape & Hp & _) & Hkeys & Hshapes).
  - lia.
  - cbn [Z.of_nat]. rewrite Z.pow_0_r, !Z.div_1_r. exact Hs.
  - split; reflexivity.
  - cbn [fst snd] in *. exists pool, convs, g'.
    assert (Hmap : map shape (dict_values convs)
                   = map (skip_shape self) (seq 0 (Z.to_nat (Self.model_depth self)))).
    { unfold dict_values. rewrite map_map. exact Hshapes. }
    split; [exact Hrun |]. split; [exact Hkeys |]. split; [exact Hmap |].
    split.
    + rewrite <- (length_map shape), Hmap, length_map, length_seq. lia.
    + split; [| exact Hp].
      rewrite Hshape.
      destruct (Z.to_nat (Self.model_depth self)) eqn:E; [lia | reflexivity].
Qed.

Lemma encoder_skip_map_witness :
  valid_dims (scenario 0) = true
  /\ exists pool convs g',
       for_each (py_range 1 (2 + 1)) (encoder_step (scenario 0))
         (mkTensor [16; 16; 1] InputLayer 0, []) [mkNode InputLayer [] [16; 16; 1]]
       = Ok (pool, convs) g'
       /\ map fst convs = ["conv1"; "conv2"]
       /\ map shape (dict_values convs) = [[16; 16; 8]; [8; 8; 16]]
       /\ Z.of_nat (List.length (dict_values convs)) = 2
       /\ shape pool = [4; 4; 16]
       /\ count_layers is_pooling g' = 2%nat.
Proof.
  split; [reflexivity |].
  exact (encoder_skip_map (scenario 0) (mkTensor [16; 16; 1] InputLayer 0)
           [mkNode InputLayer [] [16; 16; 1]] 1 eq_refl eq_refl).
Defined.

(** One decoder level of a valid configuration, whatever the flags
    [ag], [ds], [lstm] and [is_transconv] (the recurrent merge being
    buildable): from a tensor of the input's sizes divided by [2^k] with
    [model_width * 2^k] channels ([k = model_depth - j]) it produces one
    of twice the sizes and half the channels, adds no pooling layer and
    one upsampling layer (three with the attention gate). *)
Theorem decoder_level_shape (self : Self.t) (j : nat) (convs_list : list KerasTensor)
    (deconv : KerasTensor) (levels : list nest) (g : graph) :
  valid_dims self = true -> lstm_ready self = true ->
  map shape convs_list = map (skip_shape self) (seq 0 (Z.to_nat (Self.model_depth self))) ->
  Z.of_nat j < Self.model_depth self ->
  shape deconv = decoder_shape self (Self.model_depth self - Z.of_nat j) ->
  exists deconv' levels' g',
    decoder_step self convs_list (Z.of_nat j) (deconv, levels) g = Ok (deconv', levels') g'
    /\ shape deconv' = decoder_shape self (Self.model_depth self - Z.of_nat j - 1)
    /\ List.length levels'
       = (if Self.D_S self =? 1 then S (List.length levels) else List.length levels)
    /\ count_layers is_pooling g' = count_layers is_pooling g
    /\ count_layers is_upsampling g'
       = (count_layers is_upsampling g + ups_per_level self)%nat.
Proof.
  intros Hv Hl Hshapes Hj Hdec.
  destruct (valid_dims_facts self Hv)
    as (Hd & Hmw & Hks & Hnc & Hon & Hse & Hfn & l0 & w0 & Hl0 & Hw0 & HL & HW).
  destruct (decoder_step_returns self l0 w0 Hd Hmw Hks HL HW Hl0 Hw0 Hse
              (lstm_ready_facts self Hl) j convs_list deconv levels g Hshapes Hj Hdec)
    as ([deconv' levels'] & g' & Hrun & (Hshape & Hp & Hu) & new & Hlv & Hnew).
  cbn [fst snd] in *. exists deconv', levels', g'.
  split; [exact Hrun |]. split; [exact Hshape |].
  split; [| split; [lia | exact Hu]].
  rewrite Hlv, length_app, length_map, <- (length_map describe), Hnew.
  unfold levels_emitted. destruct (Self.D_S self =? 1); cbn [seq map List.length]; lia.
Qed.

Lemma decoder_level_shape_witness :
  valid_dims (scenario 1) = true /\ lstm_ready (scenario 1) = true
  /\ exists deconv' levels' g',
       decoder_step (scenario 1)
         [mkTensor [16; 16; 8] (Activation relu) 0; merge_skip] 0
         (mkTensor [4; 4; 32] (Activation relu) 1, []) merge_graph
       = Ok (deconv', levels') g'
       /\ shape deconv' = [8; 8; 16]
       /\ List.length levels' = 1%nat
       /\ count_layers is_pooling g' = 0%nat
       /\ count_layers is_upsampling g' = 1%nat.
Proof.
  split; [reflexivity |]. split; [reflexivity |].
  apply (decoder_level_shape (scenario 1) 0
           [mkTensor [16; 16; 8] (Activation relu) 0; merge_skip]
           (mkTensor [4; 4; 32] (Activation relu) 1) [] merge_graph);
    [reflexivity | reflexivity | reflexivity | cbn; lia | reflexivity].
Defined.

(** Without the recurrent cell the merge is one concatenation, the decoder
    tensor first and the skip connection second, so the channels add up;
    and a value of [lstm] other than 0 and 1 selects neither branch: the
    decoder tensor goes on as it is and the skip connection is not used. *)
Theorem merge_step_plain (self : Self.t) (j : Z) (skip deconv : KerasTensor) (g : graph)
    (pre : list Z) (cd cs : Z) :
  (Self.LSTM self = 0 ->
   shape deconv = pre ++ [cd] -> shape skip = pre ++ [cs] ->
   merge_step self j skip deconv g
   = Ok (mkTensor (pre ++ [cd + cs]) Concatenate (List.length g))
        (g ++ [mkNode Concatenate [node_id deconv; node_id skip] (pre ++ [cd + cs])]))
  /\ (Self.LSTM self <> 0 -> Self.LSTM self <> 1 ->
      merge_step self j skip deconv g = Ok deconv g).
Proof.
  split.
  - intros Hl Hd Hs. unfold merge_step. rewrite Hl. cbn [Z.eqb].
    rewrite Concat_Block_fold. cbn [for_each]. unfold bind.
    rewrite (keras_concatenate_eq deconv skip g pre cd cs Hd Hs). reflexivity.
  - intros H0 H1. unfold merge_step.
    rewrite (proj2 (Z.eqb_neq _ _) H0), (proj2 (Z.eqb_neq _ _) H1). reflexivity.
Qed.

Lemma merge_step_plain_witness :
  merge_step (scenario 0) 0 merge_skip merge_deconv merge_graph
  = Ok (mkTensor [8; 8; 32] Concatenate 2)
       (merge_graph ++ [mkNode Concatenate [1%nat; 0%nat] [8; 8; 32]])
  /\ merge_step (SEDUNet_init 16 16 2 8 3 1 None None None None None (Some 2) None None
                  None None) 0 merge_skip merge_deconv merge_graph
     = Ok merge_deconv merge_graph.
Proof.
  split.
  - apply (proj1 (merge_step_plain (scenario 0) 0 merge_skip merge_deconv merge_graph
                    [8; 8] 16 16)); reflexivity.
  - apply (proj2 (merge_step_plain _ 0 merge_skip merge_deconv merge_graph [8; 8] 16 16));
      discriminate.
Defined.

(** ** The graph stays a well-formed, growing graph *)

Lemma extends_refl (g : graph) : extends g g.
Proof. exists []. symmetry. apply app_nil_r. Qed.

Lemma extends_trans (g g1 g2 : graph) : extends g g1 -> extends g1 g2 -> extends g g2.
Proof. intros (d1 & ->) (d2 & ->). exists (d1 ++ d2). symmetry. apply app_assoc. Qed.

Lemma tvalid_lt (g : graph) (t : KerasTensor) : tvalid g t -> (node_id t < List.length g)%nat.
Proof. intros (ins & H). apply nth_error_Some. rewrite H. discriminate. Qed.

Lemma tvalid_ext (g g' : graph) (t : KerasTensor) : tvalid g t -> extends g g' -> tvalid g' t.
Proof.
  intros Ht (d & ->). pose proof (tvalid_lt g t Ht) as Hlt.
  destruct Ht as (ins & H). exists ins. rewrite nth_error_app1 by exact Hlt. exact H.
Qed.

Lemma Forall_tvalid_ext (g g' : graph) (l : list KerasTensor) :
  Forall (tvalid g) l -> extends g g' -> Forall (tvalid g') l.
Proof.
  intros Hl Hext. eapply Forall_impl; [| exact Hl].
  intros t Ht. exact (tvalid_ext g g' t Ht Hext).
Qed.

Lemma wf_nil : wf [].
Proof. intros i n H. destruct i; discriminate. Qed.

Lemma wf_snoc (g : graph) (l : layer) (ins : list nat) (out : list Z) :
  wf g -> Forall (fun k => (k < List.length g)%nat) ins -> wf (g ++ [mkNode l ins out]).
Proof.
  intros Hwf Hins i n Hn.
  destruct (Nat.lt_ge_cases i (List.length g)) as [Hlt | Hge].
  - rewrite nth_error_app1 in Hn by exact Hlt. exact (Hwf i n Hn).
  - rewrite nth_error_app2 in Hn by exact Hge.
    destruct (i - List.length g)%nat as [| k] eqn:E; cbn [nth_error] in Hn.
    + injection Hn as <-. cbn [n_inputs].
      eapply Forall_impl; [| exact Hins]. intros k Hk. cbv beta in *. lia.
    + destruct k; discriminate.
Qed.

Lemma keeps_ret {A : Type} (a : A) (g : graph) (V : A -> graph -> Prop) :
  V a g -> keeps (ret a) g V.
Proof. intros HV Hwf. cbn. auto using extends_refl. Qed.

Lemma keeps_raise {A : Type} (e : exn) (g : graph) (V : A -> graph -> Prop) :
  keeps (raise e) g V.
Proof. intros Hwf. cbn. auto using extends_refl. Qed.

Lemma keeps_bind {A B : Type} (m : M A) (k : A -> M B) (g : graph)
    (V : A -> graph -> Prop) (W : B -> graph -> Prop) :
  keeps m g V ->
  (forall a g1, extends g g1 -> V a g1 -> keeps (k a) g1 W) ->
  keeps (bind m k) g W.
Proof.
  intros Hm Hk Hwf. specialize (Hm Hwf). unfold bind.
  destruct (m g) as [a g1 | e g1].
  - destruct Hm as (Hwf1 & Hext & HV).
    specialize (Hk a g1 Hext HV Hwf1).
    destruct (k a g1) as [b g2 | e g2].
    + destruct Hk as (Hwf2 & Hext2 & HW). eauto using extends_trans.
    + destruct Hk as (Hwf2 & Hext2). eauto using extends_trans.
  - exact Hm.
Qed.

Lemma keeps_weaken {A : Type} (m : M A) (g : graph) (V W : A -> graph -> Prop) :
  keeps m g V -> (forall a g', extends g g' -> V a g' -> W a g') -> keeps m g W.
Proof.
  intros Hm HVW Hwf. specialize (Hm Hwf).
  destruct (m g) as [a g1 | e g1]; [| exact Hm].
  destruct Hm as (Hwf1 & Hext & HV). auto.
Qed.

Lemma keeps_new_node (l : layer) (ins : list KerasTensor) (out : list Z) (g : graph) :
  Forall (tvalid g) ins ->
  keeps (new_node l ins out) g (fun t g' => tvalid g' t).
Proof.
  intros Hins Hwf. cbn. split; [| split].
  - apply wf_snoc; [exact Hwf |].
    apply Forall_map. eapply Forall_impl; [| exact Hins]. apply tvalid_lt.
  - eexists. reflexivity.
  - exists (map node_id ins). cbn [node_id producer shape].
    rewrite nth_error_app2, Nat.sub_diag by lia. reflexivity.
Qed.

Lemma keeps_for_each {X S : Type} (xs : list X) (body : X -> S -> M S)
    (I : S -> graph -> Prop) :
  (forall x s g, I s g -> keeps (body x s) g I) ->
  forall s g, I s g -> keeps (for_each xs body s) g I.
Proof.
  intros Hbody. induction xs as [| x xs IH]; intros s g HI; cbn [for_each].
  - apply keeps_ret. exact HI.
  - eapply keeps_bind; [apply Hbody; exact HI |].
    intros s' g1 _ HI'. apply IH. exact HI'.
Qed.

(** Transport of what is known about tensors along an extension. *)
Ltac push_valid Hext :=
  match type of Hext with
  | extends ?g ?g1 =>
      repeat match goal with
             | H : tvalid g ?x |- _ =>
                 lazymatch goal with
                 | _ : tvalid g1 x |- _ => fail
                 | _ => pose proof (tvalid_ext g g1 x H Hext)
                 end
             | H : Forall (tvalid g) ?l |- _ =>
                 lazymatch goal with
                 | _ : Forall (tvalid g1) l |- _ => fail
                 | _ => pose proof (Forall_tvalid_ext g g1 l H Hext)
                 end
             end
  end.

Ltac kp_leaf :=
  repeat match goal with
         | |- keeps (if ?c then _ else _) _ _ => destruct c
         | |- keeps (match ?s with _ => _ end) _ _ => destruct s
         | |- keeps (raise _) _ _ => apply keeps_raise
         | |- keeps (new_node _ _ _) _ _ =>
             apply keeps_new_node; repeat constructor; assumption
         end.

Create HintDb keeps.

Lemma keeps_keras_Input shp g : keeps (keras_Input shp) g (fun t g' => tvalid g' t).
Proof. unfold keras_Input. kp_leaf. Qed.

Lemma keeps_keras_Conv2D f ks st p act name x g :
  tvalid g x -> keeps (keras_Conv2D f ks st p act name x) g (fun t g' => tvalid g' t).
Proof. intros Hx. unfold keras_Conv2D. cbv zeta. kp_leaf. Qed.

Lemma keeps_keras_Conv2DTranspose f ks st p x g :
  tvalid g x -> keeps (keras_Conv2DTranspose f ks st p x) g (fun t g' => tvalid g' t).
Proof. intros Hx. unfold keras_Conv2DTranspose. cbv zeta. kp_leaf. Qed.

Lemma keeps_keras_BatchNormalization x g :
  tvalid g x -> keeps (keras_BatchNormalization x) g (fun t g' => tvalid g' t).
Proof. intros Hx. unfold keras_BatchNormalization. kp_leaf. Qed.

Lemma keeps_keras_Activation a x g :
  tvalid g x -> keeps (keras_Activation a x) g (fun t g' => tvalid g' t).
Proof. intros Hx. unfold keras_Activation. kp_leaf. Qed.

Lemma keeps_keras_MaxPooling2D ps x g :
  tvalid g x -> keeps (keras_MaxPooling2D ps x) g (fun t g' => tvalid g' t).
Proof. intros Hx. unfold keras_MaxPooling2D. kp_leaf. Qed.

Lemma keeps_keras_UpSampling2D sz x g :
  tvalid g x -> keeps (keras_UpSampling2D sz x) g (fun t g' => tvalid g' t).
Proof. intros Hx. unfold keras_UpSampling2D. kp_leaf. Qed.

Lemma keeps_keras_concatenate a b g :
  tvalid g a -> tvalid g b -> keeps (keras_concatenate a b) g (fun t g' => tvalid g' t).
Proof. intros Ha Hb. unfold keras_concatenate. kp_leaf. Qed.

Lemma keeps_keras_merge l a b g :
  tvalid g a -> tvalid g b -> keeps (keras_merge l a b) g (fun t g' => tvalid g' t).
Proof. intros Ha Hb. unfold keras_merge. kp_leaf. Qed.

Lemma keeps_keras_Flatten x g :
  tvalid g x -> keeps (keras_Flatten x) g (fun t g' => tvalid g' t).
Proof. intros Hx. unfold keras_Flatten. kp_leaf. Qed.

Lemma keeps_keras_Dense u act name x g :
  tvalid g x -> keeps (keras_Dense u act name x) g (fun t g' => tvalid g' t).
Proof. intros Hx. unfold keras_Dense. kp_leaf. Qed.

Lemma keeps_keras_Reshape target x g :
  tvalid g x -> keeps (keras_Reshape target x) g (fun t g' => tvalid g' t).
Proof. intros Hx. unfold keras_Reshape. kp_leaf. Qed.

Lemma keeps_keras_GlobalAveragePooling2D x g :
  tvalid g x -> keeps (keras_GlobalAveragePooling2D x) g (fun t g' => tvalid g' t).
Proof. intros Hx. unfold keras_GlobalAveragePooling2D. kp_leaf. Qed.

Lemma keeps_keras_ConvLSTM2D f ks p rs gb x g :
  tvalid g x -> keeps (keras_ConvLSTM2D f ks p rs gb x) g (fun t g' => tvalid g' t).
Proof. intros Hx. unfold keras_ConvLSTM2D. kp_leaf. Qed.

Lemma keeps_py_getitem (l : list KerasTensor) (i : Z) (g : graph) :
  Forall (tvalid g) l -> keeps (py_getitem l i) g (fun t g' => tvalid g' t).
Proof.
  intros Hl. unfold py_getitem. cbv zeta.
  destruct (_ || _); [apply keeps_raise |].
  destruct (nth_error l _) as [a |] eqn:E; [| apply keeps_raise].
  apply keeps_ret. rewrite Forall_forall in Hl. apply Hl.
  eapply nth_error_In. exact E.
Qed.

Lemma keeps_shape_getitem x i g : keeps (shape_getitem x i) g (fun _ _ => True).
Proof.
  unfold shape_getitem. destruct (nth_error _ _); [apply keeps_ret; exact I | apply keeps_raise].
Qed.

Lemma keeps_py_truediv a m g : keeps (py_truediv a m) g (fun _ _ => True).
Proof.
  unfold py_truediv. destruct (py_is_zero m); [apply keeps_raise | apply keeps_ret; exact I].
Qed.

Lemma keeps_py_floordiv a b g : keeps (py_floordiv a b) g (fun _ _ => True).
Proof.
  unfold py_floordiv. destruct (b =? 0); [apply keeps_raise | apply keeps_ret; exact I].
Qed.

#[local] Hint Resolve keeps_keras_Input keeps_keras_Conv2D keeps_keras_Conv2DTranspose
  keeps_keras_BatchNormalization keeps_keras_Activation keeps_keras_MaxPooling2D
  keeps_keras_UpSampling2D keeps_keras_concatenate keeps_keras_merge keeps_keras_Flatten
  keeps_keras_Dense keeps_keras_Reshape keeps_keras_GlobalAveragePooling2D
  keeps_keras_ConvLSTM2D keeps_py_getitem keeps_shape_getitem keeps_py_truediv
  keeps_py_floordiv : keeps.

(** One step through a sequence of calls: the first call by a lemma of the
    database, then the facts about tensors moved to the new graph. *)
Ltac kp :=
  repeat match goal with
         | |- keeps (bind _ _) _ _ =>
             eapply keeps_bind;
             [ solve [eauto with keeps]
             | let Hext := fresh "Hext" in
               intros ? ? Hext ?; cbv beta in *; push_valid Hext ]
         | |- keeps (ret _) _ _ => apply keeps_ret; try assumption
         end.

Lemma keeps_Conv_Block x mw k m g :
  tvalid g x -> keeps (Conv_Block x mw k m) g (fun t g' => tvalid g' t).
Proof. intros Hx. unfold Conv_Block. kp. Qed.

Lemma keeps_trans_conv2D x mw m g :
  tvalid g x -> keeps (trans_conv2D x mw m) g (fun t g' => tvalid g' t).
Proof. intros Hx. unfold trans_conv2D. kp. Qed.

Lemma keeps_upConv_Block x g :
  tvalid g x -> keeps (upConv_Block x) g (fun t g' => tvalid g' t).
Proof. intros Hx. unfold upConv_Block. auto with keeps. Qed.

#[local] Hint Resolve keeps_Conv_Block keeps_trans_conv2D keeps_upConv_Block : keeps.

Lemma keeps_Concat_Block x argv g :
  tvalid g x -> Forall (tvalid g) argv ->
  keeps (Concat_Block x argv) g (fun t g' => tvalid g' t).
Proof.
  intros Hx Hargv. unfold Concat_Block. cbv zeta.
  eapply keeps_weaken.
  - apply (keeps_for_each _ _ (fun t g' => tvalid g' t /\ Forall (tvalid g') argv)).
    + intros arg cat g0 (Hcat & Hall).
      eapply keeps_bind; [apply keeps_py_getitem; exact Hall |].
      intros a g1 Hext Ha. push_valid Hext.
      eapply keeps_weaken; [apply keeps_keras_concatenate; assumption |].
      intros t g2 Hext2 Ht. split; [exact Ht |].
      eapply Forall_tvalid_ext; eassumption.
    + split; assumption.
  - intros t g' _ (Ht & _). exact Ht.
Qed.

Lemma keeps_Feature_Extraction_Block x mw fn g :
  tvalid g x -> keeps (Feature_Extraction_Block x mw fn) g (fun t g' => tvalid g' t).
Proof. intros Hx. unfold Feature_Extraction_Block. kp. Qed.

Lemma keeps_dense_block x nf k m n g :
  tvalid g x -> keeps (dense_block x nf k m n) g (fun t g' => tvalid g' t).
Proof.
  intros Hx. unfold dense_block.
  apply (keeps_for_each _ _ (fun t g' => tvalid g' t)); [| exact Hx].
  intros _ x0 g0 Hx0. kp. auto with keeps.
Qed.

Lemma keeps_SqueezeExcite x ratio g :
  tvalid g x -> keeps (SqueezeExcite x ratio) g (fun t g' => tvalid g' t).
Proof. intros Hx. unfold SqueezeExcite, keras_Multiply. cbv zeta. kp. Qed.

Lemma keeps_Attention_Block skip gating nf m g :
  tvalid g skip -> tvalid g gating ->
  keeps (Attention_Block skip gating nf m) g (fun t g' => tvalid g' t).
Proof.
  intros Hs Hg. unfold Attention_Block, keras_add, tensor_mul. kp.
Qed.

#[local] Hint Resolve keeps_Concat_Block keeps_Feature_Extraction_Block keeps_dense_block
  keeps_SqueezeExcite keeps_Attention_Block : keeps.

Lemma Forall_dict_set {V : Type} (P : V -> Prop) (d : dict V) (k : string) (v : V) :
  Forall P (dict_values d) -> P v -> Forall P (dict_values (dict_set d k v)).
Proof.
  intros Hd Hv. induction d as [| [k' v'] d IH]; cbn [dict_set].
  - repeat constructor. exact Hv.
  - unfold dict_values in *. cbn [map snd] in Hd. inversion Hd as [| ? ? Hv' Hrest]; subst.
    destruct (String.eqb k' k); cbn [map snd]; constructor; auto.
Qed.

Lemma keeps_encoder_step self i st g :
  encoder_inv st g -> keeps (encoder_step self i st) g encoder_inv.
Proof.
  destruct st as [pool convs]. intros (Hp & Hc). cbn [fst snd] in *.
  unfold encoder_step. kp. split; cbn [fst snd]; [assumption |].
  apply Forall_dict_set; assumption.
Qed.

Lemma keeps_merge_step self j skip deconv g :
  tvalid g skip -> tvalid g deconv ->
  keeps (merge_step self j skip deconv) g (fun t g' => tvalid g' t).
Proof.
  intros Hs Hd. unfold merge_step. cbv zeta.
  destruct (Self.LSTM self =? 1); [kp; auto with keeps |].
  destruct (Self.LSTM self =? 0); [| apply keeps_ret; exact Hd].
  apply keeps_Concat_Block; [exact Hd | repeat constructor; exact Hs].
Qed.

#[local] Hint Resolve keeps_merge_step : keeps.

Lemma keeps_decoder_step self convs_list j st g :
  decoder_inv convs_list st g ->
  keeps (decoder_step self convs_list j st) g (decoder_inv convs_list).
Proof.
  destruct st as [deconv levels]. intros (Hd & Hl & Hc). cbn [fst snd] in *.
  unfold decoder_step. cbv zeta.
  eapply keeps_bind; [apply keeps_py_getitem; exact Hc |].
  intros skip0 g1 Hext1 Hs0. cbv beta in *. push_valid Hext1.
  eapply keeps_bind with (V := fun t g' => tvalid g' t).
  { destruct (Self.A_G self =? 1); [kp; auto with keeps | apply keeps_ret; assumption]. }
  intros skip g2 Hext2 Hs. cbv beta in *. push_valid Hext2.
  eapply keeps_bind with (V := fun l g' => Forall (tvalid g') (flat_map flatten l)).
  { destruct (Self.D_S self =? 1); [| apply keeps_ret; assumption].
    eapply keeps_bind; [apply keeps_keras_Conv2D; assumption |].
    intros level g3 Hext3 Hlv. cbv beta in *. push_valid Hext3.
    apply keeps_ret. rewrite flat_map_app. apply Forall_app. split; [assumption |].
    cbn. repeat constructor. assumption. }
  intros levels' g3 Hext3 Hl'. cbv beta in *. push_valid Hext3.
  eapply keeps_bind with (V := fun t g' => tvalid g' t).
  { destruct (Self.is_transconv self); kp; auto with keeps. }
  intros deconv1 g4 Hext4 Hd1. cbv beta in *. push_valid Hext4.
  kp. repeat split; cbn [fst snd]; assumption.
Qed.

Lemma keeps_output_stage self deconv g :
  tvalid g deconv ->
  keeps (output_stage self deconv) g (fun o g' => Forall (tvalid g') (flatten o)).
Proof.
  intros Hd. unfold output_stage. cbv zeta.
  destruct (String.eqb _ "Classification").
  { kp. cbn. repeat constructor. assumption. }
  destruct (String.eqb _ "Regression").
  { kp. cbn. repeat constructor. assumption. }
  apply keeps_ret. cbn. constructor.
Qed.

Lemma keeps_encode_decode self g :
  keeps (encode_decode self) g
    (fun r g' => tvalid g' (fst (fst r)) /\ tvalid g' (snd (fst r))
                 /\ Forall (tvalid g') (flat_map flatten (snd r))).
Proof.
  unfold encode_decode. cbv zeta.
  eapply keeps_bind; [apply keeps_keras_Input |].
  intros inp g1 Hext1 Hin. cbv beta in *.
  eapply keeps_bind.
  { apply (keeps_for_each _ _ encoder_inv); [intros; apply keeps_encoder_step; assumption |].
    split; cbn [fst snd]; [exact Hin | constructor]. }
  intros [pool convs] g2 Hext2 (Hp & Hc). cbn [fst snd] in *. push_valid Hext2.
  eapply keeps_bind; [apply keeps_dense_block; exact Hp |].
  intros conv0 g3 Hext3 Hc0. cbv beta in *. push_valid Hext3.
  eapply keeps_bind with (V := fun t g' => tvalid g' t).
  { destruct (Self.A_E self =? 1); [auto with keeps | apply keeps_ret; assumption]. }
  intros conv1 g4 Hext4 Hc1. cbv beta in *. push_valid Hext4.
  eapply keeps_bind; [apply keeps_Conv_Block; assumption |].
  intros conv2 g5 Hext5 Hc2. cbv beta in *. push_valid Hext5.
  eapply keeps_bind; [apply keeps_Conv_Block; assumption |].
  intros conv3 g6 Hext6 Hc3. cbv beta in *. push_valid Hext6.
  eapply keeps_bind.
  { apply (keeps_for_each _ _ (decoder_inv (dict_values convs)));
      [intros; apply keeps_decoder_step; assumption |].
    repeat split; cbn [fst snd flat_map]; [assumption | constructor | assumption]. }
  intros [deconv levels] g7 Hext7 (Hd & Hl & _). cbn [fst snd] in *. push_valid Hext7.
  apply keeps_ret. cbn [fst snd]. auto.
Qed.

Lemma keeps_keras_Model eo ins outs g :
  Forall (tvalid g) ins -> Forall (tvalid g) (flatten outs) ->
  keeps (keras_Model eo ins outs) g
    (fun m g' => Forall (tvalid g') (inputs m) /\ Forall (tvalid g') (outputs m)).
Proof.
  intros Hi Ho. unfold keras_Model.
  destruct (flatten outs) as [| o os] eqn:E.
  - destruct eo; [apply keeps_ret; cbn; auto | apply keeps_raise].
  - apply keeps_ret. cbn. auto.
Qed.

(** Whatever the configuration, and whether the build returns or
    raises, the method only ever appends nodes to the graph it starts
    from, and every node takes its inputs from nodes created before it;
    the inputs and outputs of a returned model are tensors of that graph,
    each backed by a node of its layer and shape. *)
Theorem SEDUNet_graph_well_formed (eo : bool) (self : Self.t) (g : graph) :
  wf g ->
  match SEDUNet eo self g with
  | Ok m g' => wf g' /\ extends g g'
               /\ Forall (tvalid g') (inputs m) /\ Forall (tvalid g') (outputs m)
  | Raise _ g' => wf g' /\ extends g g'
  end.
Proof.
  change (keeps (SEDUNet eo self) g
            (fun m g' => Forall (tvalid g') (inputs m) /\ Forall (tvalid g') (outputs m))).
  unfold SEDUNet. destruct (guard self); [apply keeps_raise |].
  eapply keeps_bind; [apply keeps_encode_decode |].
  intros [[inp deconv] levels] g1 Hext1 (Hi & Hd & Hl). cbn [fst snd] in *.
  eapply keeps_bind; [apply keeps_output_stage; exact Hd |].
  intros outs g2 Hext2 Ho. cbv beta in *. push_valid Hext2.
  eapply keeps_bind.
  { apply keeps_keras_Model; [repeat constructor; assumption |].
    cbn. rewrite app_nil_r. exact Ho. }
  intros model g3 Hext3 (Hmi & Hmo). cbv beta in *. push_valid Hext3.
  destruct (Self.D_S self =? 1); [| apply keeps_ret; auto].
  apply keeps_keras_Model; [repeat constructor; assumption |].
  cbn [flatten]. rewrite Forall_forall. intros t Ht.
  apply in_flat_map in Ht. destruct Ht as (n & Hn & Ht).
  apply in_rev, in_app_or in Hn. destruct Hn as [Hn | [<- | []]].
  - match goal with H : Forall (tvalid g3) (flat_map flatten levels) |- _ =>
      rewrite Forall_forall in H; apply H end.
    apply in_flat_map. eauto.
  - match goal with H : Forall (tvalid g3) (flatten outs) |- _ =>
      rewrite Forall_forall in H; apply H; exact Ht end.
Qed.

Lemma SEDUNet_graph_well_formed_witness :
  wf [] /\
  match SEDUNet true (scenario 1) [] with
  | Ok m g' => wf g' /\ extends [] g'
               /\ Forall (tvalid g') (inputs m) /\ Forall (tvalid g') (outputs m)
  | Raise _ g' => wf g' /\ extends [] g'
  end.
Proof.
  split; [exact wf_nil | exact (SEDUNet_graph_well_formed true (scenario 1) [] wf_nil)].
Defined.

(** ** The recurrent merge after the non-learned upsampling *)

Lemma raises_bind {A B : Type} (m : M A) (k : A -> M B) (g : graph) (E : exn -> Prop) :
  raises m g E -> raises (bind m k) g E.
Proof.
  intros (e & g' & Hm & He). exists e, g'. unfold bind. rewrite Hm. split; [reflexivity | exact He].
Qed.

Lemma raises_after {A B : Type} (m : M A) (k : A -> M B) (g : graph)
    (P : A -> graph -> Prop) (E : exn -> Prop) :
  returns m g P -> (forall a g1, P a g1 -> raises (k a) g1 E) -> raises (bind m k) g E.
Proof.
  intros (a & g1 & Hm & HP) Hk. destruct (Hk a g1 HP) as (e & g' & Hka & He).
  exists e, g'. unfold bind. rewrite Hm. split; [exact Hka | exact He].
Qed.

Section RecurrentUpsampling.

Variable self : Self.t.
Variables l0 w0 : Z.

Local Abbreviation d := (Self.model_depth self).
Local Abbreviation mw := (Self.model_width self).
Local Abbreviation ks := (Self.kernel_size self).
Local Abbreviation L := (Self.length self).
Local Abbreviation W := (Self.width self).

Hypothesis Hd : 1 <= d.
Hypothesis Hmw : 1 <= mw.
Hypothesis Hks : 1 <= ks.
Hypothesis HL : L = l0 * 2 ^ d.
Hypothesis HW : W = w0 * 2 ^ d.
Hypothesis Hl0 : 0 < l0.
Hypothesis Hw0 : 0 < w0.
Hypothesis Hse : 1 <= Self.se_ratio self.
Hypothesis Hnc : 1 <= Self.num_channel self.
Hypothesis Hfn : Self.A_E self = 1 -> 1 <= Self.feature_number self.
Hypothesis Hrec : Self.LSTM self = 1.
Hypothesis Hup : Self.is_transconv self = false.
Hypothesis HLb : L < 2 ^ 31.
Hypothesis HWb : W < 2 ^ 31.
Hypothesis Hb : mw * 2 ^ d < 2 ^ 31.

Lemma merge_step_upsampled_raises (j : Z) skip deconv g :
  0 <= j < d ->
  shape skip = decoder_shape self (d - j - 1) ->
  shape deconv = [L / 2 ^ (d - j - 1); W / 2 ^ (d - j - 1); mw * 2 ^ (d - j)] ->
  raises (merge_step self j skip deconv) g is_ValueError.
Proof.
  intros Hj Hskip Hdec. unfold merge_step. cbv zeta. rewrite Hrec, Z.eqb_refl.
  set (e := d - j - 1) in *.
  replace (d - j) with (e + 1) in Hdec by (unfold e; lia).
  assert (He : 0 <= e < d) by (unfold e; lia).
  assert (HLe := div_pow2_pos L l0 d e HL Hl0 ltac:(lia)).
  assert (HWe := div_pow2_pos W w0 d e HW Hw0 ltac:(lia)).
  assert (Hf : 0 < mw * 2 ^ e) by (apply Z.mul_pos_pos; [lia | apply Z.pow_pos_nonneg; lia]).
  assert (Hnn : Forall (fun x => 0 <= x) [1; L / 2 ^ e; W / 2 ^ e; mw * 2 ^ e])
    by (repeat constructor; lia).
  assert (HL0 : 0 <= L < 2 ^ 31) by (split; [nia | exact HLb]).
  assert (HW0 : 0 <= W < 2 ^ 31) by (split; [nia | exact HWb]).
  eapply raises_after; [apply (np_int32_truediv self Hd L e g); lia |].
  intros l1 ? (Hl1 & ->). rewrite Hl1.
  eapply raises_after; [apply (np_int32_truediv self Hd W e g); lia |].
  intros w1 ? (Hw1 & ->). rewrite Hw1.
  rewrite (np_int32_filters self Hd Hmw e) by lia.
  eapply raises_after.
  { apply keras_Reshape_returns; [exact Hnn |].
    rewrite Hskip. unfold decoder_shape, prod_dims. cbn [fold_right]. lia. }
  intros x1 g1 _.
  eapply raises_after; [apply (np_int32_truediv self Hd L e g1); lia |].
  intros l2 ? (Hl2 & ->). rewrite Hl2.
  eapply raises_after; [apply (np_int32_truediv self Hd W e g1); lia |].
  intros w2 ? (Hw2 & ->). rewrite Hw2.
  apply raises_bind. unfold keras_Reshape, raises. rewrite Hdec.
  replace (prod_dims [1; L / 2 ^ e; W / 2 ^ e; mw * 2 ^ e]
           =? prod_dims [L / 2 ^ e; W / 2 ^ e; mw * 2 ^ (e + 1)]) with false.
  - rewrite andb_false_r. do 2 eexists. split; [reflexivity | eexists; reflexivity].
  - symmetry. apply Z.eqb_neq. unfold prod_dims. cbn [fold_right].
    rewrite Z.pow_add_r, Z.pow_1_r by lia. nia.
Qed.

Lemma decoder_step_upsampled_raises convs_list deconv levels g :
  map shape convs_list = map (skip_shape self) (seq 0 (Z.to_nat d)) ->
  shape deconv = decoder_shape self d ->
  raises (decoder_step self convs_list 0 (deconv, levels)) g is_ValueError.
Proof.
  intros Hshapes Hdec. unfold decoder_step. cbv zeta.
  assert (He : 0 <= d - 0 - 1 < d) by lia.
  assert (Hdec' : shape deconv = decoder_shape self (d - 0 - 1 + 1))
    by (replace (d - 0 - 1 + 1) with d by lia; exact Hdec).
  eapply raises_after; [apply (skip_lookup self Hd convs_list _ g Hshapes He) |].
  intros skip0 ? (Hskip0 & ->).
  eapply raises_after;
    [apply (attention_gate_returns self l0 w0 Hd Hmw HL HW Hl0 Hw0 _ convs_list skip0 deconv g
              Hshapes He Hskip0 Hdec') |].
  intros skip g1 H1.
  eapply raises_after.
  { apply (deep_supervision_returns self l0 w0 Hd HL HW Hl0 Hw0 0%nat levels deconv g1);
      [lia | cbn [Z.of_nat]; rewrite Z.sub_0_r; exact Hdec]. }
  intros levels' g2 _.
  rewrite Hup. unfold decoder_shape in Hdec.
  assert (Hf : 0 < mw * 2 ^ d) by (apply Z.mul_pos_pos; [lia | apply Z.pow_pos_nonneg; lia]).
  eapply raises_after with
    (P := fun t _ => shape t = [2 * (L / 2 ^ d); 2 * (W / 2 ^ d); mw * 2 ^ d]).
  { eapply returns_bind; [eapply upConv_Block_returns; exact Hdec |].
    intros t1 g3 H3. eapply returns_weaken.
    - eapply SqueezeExcite_returns; [exact (proj1 H3) | lia | exact Hse].
    - intros t g4 H4. exact (proj1 H4). }
  intros up g3 H3. apply raises_bind.
  apply merge_step_upsampled_raises; [lia | exact (proj1 H1) |].
  rewrite H3, Z.sub_0_r.
  rewrite (div_pow2_step L l0 d (d - 1) HL), (div_pow2_step W w0 d (d - 1) HW) by lia.
  replace (d - 1 + 1) with d by lia. reflexivity.
Qed.

Lemma SEDUNet_upsampled_raises (eo : bool) (g : graph) :
  raises (SEDUNet eo self) g is_ValueError.
Proof.
  unfold SEDUNet.
  replace (guard self) with false.
  2:{ symmetry. unfold guard. repeat (apply orb_false_intro); apply Z.eqb_neq; nia. }
  apply raises_bind. unfold encode_decode. cbv zeta.
  assert (HLpos : 0 < L) by nia.
  assert (HWpos : 0 < W) by nia.
  eapply raises_after.
  { apply keras_Input_returns. repeat constructor; lia. }
  intros inp g1 H1.
  eapply raises_after.
  { apply (encoder_loop_returns self l0 w0 Hd Hmw Hks HL HW Hl0 Hw0
             (Z.to_nat d) 0 inp [] (Self.num_channel self) g1).
    - lia.
    - cbn [Z.of_nat]. rewrite Z.pow_0_r, !Z.div_1_r. exact (proj1 H1).
    - split; reflexivity. }
  intros [pool convs] g2 (H2 & Hconvs). cbn [fst snd] in H2, Hconvs. cbv beta iota.
  destruct (bottleneck_returns self l0 w0 Hd Hmw Hks HL HW Hl0 Hw0 Hfn
              pool g2 _ ret (post g2 (decoder_shape self d) 0 0) (proj1 H2)
              (fun conv g' H => returns_ret conv g' _ H))
    as (conv & g3 & Hrun & H3).
  unfold raises. rewrite (bind4_ret_Ok _ _ _ _ _ _ _ _ Hrun).
  apply raises_bind. rewrite py_range_cons by lia. cbn [for_each]. apply raises_bind.
  apply decoder_step_upsampled_raises; [| exact (proj1 H3)].
  unfold dict_values. rewrite map_map. exact (proj2 Hconvs).
Qed.

End RecurrentUpsampling.

(** The recurrent merge cannot be built on the non-learned upsampling.
    For every valid configuration with [lstm = 1] and
    [is_transconv = False] whose sizes fit a 32-bit integer, the build
    raises a [ValueError]: [upConv_Block] keeps the channels of the level
    below, twice what the reshape of the first decoder level is asked to
    produce. *)
Theorem recurrent_merge_rejects_upsampling (eo : bool) (self : Self.t) (g : graph) :
  valid_dims self = true ->
  Self.LSTM self = 1 -> Self.is_transconv self = false ->
  Self.length self < 2 ^ 31 -> Self.width self < 2 ^ 31 ->
  Self.model_width self * 2 ^ Self.model_depth self < 2 ^ 31 ->
  exists msg g', SEDUNet eo self g = Raise (ValueError msg) g'.
Proof.
  intros Hv Hrec Hup HLb HWb Hb.
  destruct (valid_dims_facts self Hv)
    as (Hd & Hmw & Hks & Hnc & _ & Hse & Hfn & l0 & w0 & Hl0 & Hw0 & HL & HW).
  destruct (SEDUNet_upsampled_raises self l0 w0 Hd Hmw Hks HL HW Hl0 Hw0 Hse Hnc Hfn
              Hrec Hup HLb HWb Hb eo g) as (e & g' & Hrun & msg & ->).
  exists msg, g'. exact Hrun.
Qed.

Lemma recurrent_merge_rejects_upsampling_witness :
  exists msg g', SEDUNet true scenario_lstm_upsampling [] = Raise (ValueError msg) g'.
Proof.
  apply (recurrent_merge_rejects_upsampling true scenario_lstm_upsampling []);
    [reflexivity | reflexivity | reflexivity | cbn; lia | cbn; lia | cbn; lia].
Defined.

(** ** The model that comes back *)

Lemma keras_Input_Ok shp g t g' :
  keras_Input shp g = Ok t g' -> t = mkTensor shp InputLayer (List.length g).
Proof.
  unfold keras_Input. destruct (forallb _ shp); [| discriminate].
  unfold new_node. intros H. injection H as <- _. reflexivity.
Qed.

Lemma encode_decode_input (self : Self.t) g inp dc (lv : list nest) g' :
  encode_decode self g = Ok (inp, dc, lv) g' ->
  inp = mkTensor [Self.length self; Self.width self; Self.num_channel self] InputLayer
          (List.length g).
Proof.
  unfold encode_decode. intros H.
  apply bind_Ok in H as (inputs0 & g1 & Hin & H).
  apply bind_Ok in H as ([pool convs] & g2 & _ & H).
  apply bind_Ok in H as (c1 & g3 & _ & H).
  apply bind_Ok in H as (c2 & g4 & _ & H).
  apply bind_Ok in H as (c3 & g5 & _ & H).
  apply bind_Ok in H as (c4 & g6 & _ & H).
  apply bind_Ok in H as ([dc1 lv1] & g7 & _ & H).
  injection H as <- _ _ _. apply keras_Input_Ok in Hin. exact Hin.
Qed.

Lemma keras_Model_inputs (eo : bool) ins outs g m g' :
  keras_Model eo ins outs g = Ok m g' -> inputs m = ins.
Proof.
  unfold keras_Model. destruct (flatten outs) as [| t l].
  - destruct eo; [| discriminate]. intros H. injection H as <- _. reflexivity.
  - intros H. injection H as <- _. reflexivity.
Qed.

(** Any model the method returns, whatever the configuration, has exactly
    one input: the tensor of the first node the build created, an input
    layer of shape [(length, width, num_channel)]. *)
Theorem SEDUNet_model_input (eo : bool) (self : Self.t) (g : graph) (m : Model) (g' : graph) :
  SEDUNet eo self g = Ok m g' ->
  inputs m = [mkTensor [Self.length self; Self.width self; Self.num_channel self]
                InputLayer (List.length g)].
Proof.
  unfold SEDUNet. destruct (guard self); [discriminate |]. intros H.
  apply bind_Ok in H as ([[inp dc] lv] & g1 & Hed & H).
  apply bind_Ok in H as (o & g2 & _ & H).
  apply bind_Ok in H as (model & g3 & Hmodel & H).
  apply encode_decode_input in Hed. subst inp.
  destruct (Self.D_S self =? 1).
  - apply keras_Model_inputs in H. exact H.
  - injection H as <- _. apply keras_Model_inputs in Hmodel. exact Hmodel.
Qed.

Lemma SEDUNet_model_input_witness :
  exists m g',
    SEDUNet true (scenario 1) [] = Ok m g'
    /\ inputs m = [mkTensor [16; 16; 1] InputLayer 0].
Proof.
  destruct (SEDUNet true (scenario 1) []) as [m g' | e g'] eqn:E; [| vm_compute in E; discriminate E].
  exists m, g'. split; [reflexivity |].
  exact (SEDUNet_model_input true (scenario 1) [] m g' E).
Defined.

Lemma keras_Conv2D_Ok f ks st p act name x g t g' :
  keras_Conv2D f ks st p act name x g = Ok t g' ->
  producer t = Conv2D (py_int f) ks st p act name
  /\ last (shape t) 0 = py_int f /\ 0 < py_int f.
Proof.
  unfold keras_Conv2D. cbv zeta.
  destruct (0 <? py_int f) eqn:Hf; [| discriminate].
  destruct (negb _); [discriminate |].
  destruct (shape x) as [| h [| w [| c [| ? ?]]]]; try discriminate.
  destruct (window_fits _ _ _); [| discriminate].
  unfold new_node. intros H. injection H as <- _. cbn [producer shape last].
  apply Z.ltb_lt in Hf. auto.
Qed.

Lemma output_stage_Ok (self : Self.t) dc g o g' :
  output_stage self dc g = Ok o g' -> known_problem_type self = true ->
  exists out,
    o = NTensor out
    /\ producer out
       = Conv2D (Self.output_nums self) (1, 1) (1, 1) valid
           (Some (output_activation self)) (Some "out")
    /\ last (shape out) 0 = Self.output_nums self /\ 0 < Self.output_nums self.
Proof.
  unfold output_stage, known_problem_type, output_activation. cbv zeta.
  destruct (String.eqb _ "Classification").
  - intros H _. apply bind_Ok in H as (out & g1 & Hc & H). injection H as <- _.
    exists out. split; [reflexivity |]. exact (keras_Conv2D_Ok _ _ _ _ _ _ _ _ _ _ Hc).
  - destruct (String.eqb _ "Regression"); [| discriminate].
    intros H _. apply bind_Ok in H as (out & g1 & Hc & H). injection H as <- _.
    exists out. split; [reflexivity |]. exact (keras_Conv2D_Ok _ _ _ _ _ _ _ _ _ _ Hc).
Qed.

(** Any model returned for one of the two known problem types has the
    final projection as its first output, with deep supervision too: the
    layer named ['out'], a 1x1 convolution with [output_nums] filters and
    the activation [softmax] for ['Classification'], [linear] for
    ['Regression'].  A model is therefore only ever returned for a
    positive [output_nums]. *)
Theorem SEDUNet_final_projection (eo : bool) (self : Self.t) (g : graph) (m : Model)
    (g' : graph) :
  SEDUNet eo self g = Ok m g' -> known_problem_type self = true ->
  exists out rest,
    outputs m = out :: rest
    /\ producer out
       = Conv2D (Self.output_nums self) (1, 1) (1, 1) valid
           (Some (output_activation self)) (Some "out")
    /\ last (shape out) 0 = Self.output_nums self
    /\ 0 < Self.output_nums self.
Proof.
  unfold SEDUNet. destruct (guard self); [discriminate |]. intros H Hk.
  apply bind_Ok in H as ([[inp dc] lv] & g1 & Hed & H).
  apply bind_Ok in H as (o & g2 & Hout & H).
  apply bind_Ok in H as (model & g3 & Hmodel & H).
  destruct (output_stage_Ok self dc g1 o g2 Hout Hk) as (out & -> & Hp & Hl & Hn).
  destruct (Self.D_S self =? 1).
  - apply keras_Model_Ok in H. rewrite H. cbn [flatten].
    rewrite rev_app_distr. cbn [rev app flat_map flatten].
    exists out, (flat_map flatten (rev lv)). auto.
  - injection H as <- _. apply keras_Model_Ok in Hmodel. rewrite Hmodel.
    cbn [flatten flat_map app]. exists out, []. auto.
Qed.

Lemma SEDUNet_final_projection_witness :
  exists m g' out rest,
    SEDUNet true (scenario 1) [] = Ok m g'
    /\ outputs m = out :: rest
    /\ producer out = Conv2D 1 (1, 1) (1, 1) valid (Some linear) (Some "out")
    /\ last (shape out) 0 = 1
    /\ 0 < 1.
Proof.
  destruct (SEDUNet true (scenario 1) []) as [m g' | e g'] eqn:E; [| vm_compute in E; discriminate E].
  destruct (SEDUNet_final_projection true (scenario 1) [] m g' E eq_refl)
    as (out & rest & H).
  exists m, g', out, rest. split; [reflexivity | exact H].
Defined.

Lemma level_name_inj (a b : Z) : level_name a = level_name b -> a = b.
Proof.
  unfold level_name. cbn [String.append]. intros H.
  injection H as H. apply py_str_inj in H. exact H.
Qed.

(** The outputs of any returned model are all named, and no two of them
    share a name: ['out'] and ['level1'], ['level2'], ... are pairwise
    distinct for every depth. *)
Theorem SEDUNet_output_names_distinct (eo : bool) (self : Self.t) (g : graph) (m : Model)
    (g' : graph) :
  SEDUNet eo self g = Ok m g' ->
  NoDup (map tensor_name (outputs m))
  /\ Forall (fun n => n <> None) (map tensor_name (outputs m)).
Proof.
  intros H. rewrite (SEDUNet_output_names eo self g m g' H). split.
  - apply NoDup_app.
    + destruct (known_problem_type self); repeat constructor; intros [].
    + destruct (Self.D_S self =? 1); [| constructor].
      apply NoDup_map_NoDup_ForallPairs; [| apply seq_NoDup].
      intros a b _ _ Hab. assert (Hn : level_name (Z.of_nat a) = level_name (Z.of_nat b))
        by congruence.
      apply level_name_inj in Hn. lia.
    + intros n Hn Hn'.
      destruct (known_problem_type self); [| destruct Hn].
      destruct Hn as [<- | []].
      destruct (Self.D_S self =? 1); [| destruct Hn'].
      apply in_map_iff in Hn' as (k & Hk & _). discriminate Hk.
  - apply Forall_app. split.
    + destruct (known_problem_type self); repeat constructor; discriminate.
    + destruct (Self.D_S self =? 1); [| constructor].
      apply Forall_map, Forall_forall. intros k _. discriminate.
Qed.

Lemma SEDUNet_output_names_distinct_witness :
  exists m g',
    SEDUNet true (scenario 1) [] = Ok m g'
    /\ NoDup (map tensor_name (outputs m))
    /\ Forall (fun n => n <> None) (map tensor_name (outputs m)).
Proof.
  destruct (SEDUNet true (scenario 1) []) as [m g' | e g'] eqn:E; [| vm_compute in E; discriminate E].
  exists m, g'. split; [reflexivity |].
  exact (SEDUNet_output_names_distinct true (scenario 1) [] m g' E).
Defined.

(** ** A negative depth *)






(** ** The constructor's defaults and the script *)

(** Built from the six required arguments alone, the object has deep
    supervision, latent block, attention gate, recurrent merge and dense
    loop switched off, and the regression head with one output: for every
    depth, width, kernel and channel count of at least one and sizes that
    are multiples of [2^model_depth], the method returns a model with the
    single output ['out'] of shape [(length, width, 1)], built with
    [model_depth] pooling layers and [model_depth] upsampling layers. *)
Theorem SEDUNet_init_defaults (eo : bool) (length width model_depth model_width kernel_size
    num_channel : Z) (g : graph) :
  1 <= model_depth -> 1 <= model_width -> 1 <= kernel_size -> 1 <= num_channel ->
  1 <= length -> 1 <= width ->
  length mod 2 ^ model_depth = 0 -> width mod 2 ^ model_depth = 0 ->
  returns
    (SEDUNet eo (SEDUNet_init length width model_depth model_width kernel_size num_channel
                   None None None None None None None None None None)) g
    (fun m g' =>
       map describe (outputs m) = [(Some "out", [length; width; 1])]
       /\ map shape (inputs m) = [[length; width; num_channel]]
       /\ count_layers is_pooling g' = (count_layers is_pooling g + Z.to_nat model_depth)%nat
       /\ count_layers is_upsampling g'
          = (count_layers is_upsampling g + Z.to_nat model_depth)%nat).
Proof.
  intros Hd Hmw Hks Hnc HL HW HLm HWm.
  eapply returns_weaken.
  - apply (SEDUNet_returns eo _ g).
    + unfold valid_dims, SEDUNet_init.
      cbn [Self.model_depth Self.model_width Self.kernel_size Self.num_channel
           Self.output_nums Self.length Self.width Self.se_ratio Self.A_E
           Self.feature_number].
      rewrite HLm, HWm.
      rewrite (proj2 (Z.leb_le 1 model_depth) Hd), (proj2 (Z.leb_le 1 model_width) Hmw),
        (proj2 (Z.leb_le 1 kernel_size) Hks), (proj2 (Z.leb_le 1 num_channel) Hnc),
        (proj2 (Z.leb_le 1 length) HL), (proj2 (Z.leb_le 1 width) HW).
      reflexivity.
    + reflexivity.
    + left. reflexivity.
  - intros m g' (Hout & Hin & Hp & Hu). unfold SEDUNet_init in *.
    cbn [Self.model_depth Self.length Self.width Self.num_channel] in Hin, Hp, Hu.
    change (expected_outputs _) with [(Some "out", [length; width; 1])] in Hout.
    change (ups_per_level _) with 1%nat in Hu.
    rewrite Nat.mul_1_r in Hu. auto.
Qed.

Lemma SEDUNet_init_defaults_witness :
  returns
    (SEDUNet true (SEDUNet_init 16 16 2 8 3 1 None None None None None None None None None None))
    []
    (fun m g' =>
       map describe (outputs m) = [(Some "out", [16; 16; 1])]
       /\ map shape (inputs m) = [[16; 16; 1]]
       /\ count_layers is_pooling g' = (count_layers is_pooling [] + Z.to_nat 2)%nat
       /\ count_layers is_upsampling g' = (count_layers is_upsampling [] + Z.to_nat 2)%nat).
Proof.
  apply (SEDUNet_init_defaults true 16 16 2 8 3 1 []); try lia; reflexivity.
Defined.

(** The script at the end of the file builds its model: depth 5 and width
    64 on a 224x224 input with one channel, deep supervision, attention
    gates and the recurrent merge on transposed convolutions.  The build
    returns a regression model with six outputs, ['out'] at 224x224 and
    ['level1'] ... ['level5'] at 112, 56, 28, 14 and 7, with 5 pooling
    layers and 15 upsampling layers (one per level on the decoder path and
    two in each attention gate). *)
Theorem main_script_builds (eo : bool) :
  returns (SEDUNet eo main_config) []
    (fun m g' =>
       map describe (outputs m)
       = [(Some "out", [224; 224; 1]); (Some "level1", [112; 112; 1]);
          (Some "level2", [56; 56; 1]); (Some "level3", [28; 28; 1]);
          (Some "level4", [14; 14; 1]); (Some "level5", [7; 7; 1])]
       /\ map shape (inputs m) = [[224; 224; 1]]
       /\ count_layers is_pooling g' = 5%nat
       /\ count_layers is_upsampling g' = 15%nat).
Proof.
  eapply returns_weaken.
  - apply (SEDUNet_returns eo main_config []); [reflexivity | reflexivity | left; reflexivity].
  - intros m g' (Hout & Hin & Hp & Hu). rewrite Hout, Hin, Hp, Hu.
    repeat split; reflexivity.
Qed.
